(** * STDM configuration serializer: a shallow embedding of
      [settings/config_serializer.py]

    The module reads and writes the STDM configuration (profiles, entities,
    columns, value lists, relations, social tenure) from and to a DOM tree.

    Conventions of the embedding:
    - attribute text and names are Rocq strings, a text being held in its
      UTF-8 encoding; [unicode(...)] around attribute text is the identity,
      [str(...)] raises on a character beyond ASCII;
    - a [QDomElement] is a tag, an attribute map and the list of its child
      elements; a null element is [None];
    - Python dictionaries are [gmap]s, ordered dictionaries are association
      lists updated in place;
    - a raised exception is the [Raise] outcome of [Result]; objects mutated
      in place are threaded through explicitly. *)

From Stdlib Require Import String Ascii ZArith List Bool Lia.
From Stdlib Require Import DecimalString DecimalZ DecimalPos.
From stdpp Require Import base option list gmap strings fin_maps.

Set Warnings "-register-all".

Local Open Scope string_scope.
Local Open Scope list_scope.

(** ** Python values used by the serializer *)

Module Py.

(** Outcome of a call that may raise. *)
Inductive Exception :=
| ConfigurationException (msg : string)
| IOError (msg : string)
| ValueError (msg : string)
| AttributeError (msg : string)
| UnicodeEncodeError (msg : string).

(** [except ValueError] catches the instances of the class and of its
    subclasses; [UnicodeEncodeError] is one of them. *)
Definition is_ValueError (e : Exception) : bool :=
  match e with
  | ValueError _ | UnicodeEncodeError _ => true
  | _ => false
  end.

Inductive Result (A : Type) :=
| Ok (a : A)
| Raise (e : Exception).
Arguments Ok {A} a.
Arguments Raise {A} e.

Definition bind {A B} (r : Result A) (k : A -> Result B) : Result B :=
  match r with
  | Ok a => k a
  | Raise e => Raise e
  end.

Definition is_ok {A} (r : Result A) : bool :=
  match r with Ok _ => true | Raise _ => false end.

(** [unicode.upper()] on the ASCII letters. *)
Definition upper_ascii (c : ascii) : ascii :=
  let n := N_of_ascii c in
  if (97 <=? n)%N && (n <=? 122)%N then ascii_of_N (n - 32) else c.

Fixpoint upper (s : string) : string :=
  match s with
  | EmptyString => EmptyString
  | String c r => String (upper_ascii c) (upper r)
  end.

Definition lower_ascii (c : ascii) : ascii :=
  let n := N_of_ascii c in
  if (65 <=? n)%N && (n <=? 90)%N then ascii_of_N (n + 32) else c.

Fixpoint lower (s : string) : string :=
  match s with
  | EmptyString => EmptyString
  | String c r => String (lower_ascii c) (lower r)
  end.

(** [s[0]] of a string of length at least one. *)
Definition first_char (s : string) : string :=
  match s with
  | EmptyString => EmptyString
  | String c _ => String c EmptyString
  end.

(** Truth value of a string: empty is falsy. *)
Definition truthy (s : string) : bool :=
  match s with EmptyString => false | _ => true end.

(** A text is a sequence of characters; those of code 0 to 127 are the
    ASCII ones. *)
Definition is_ascii (c : ascii) : bool := (N_of_ascii c <? 128)%N.

Fixpoint ascii_only (s : string) : bool :=
  match s with
  | EmptyString => true
  | String c r => is_ascii c && ascii_only r
  end.

(** [str(text)] of a unicode text: the text is encoded with the ASCII
    codec, which raises on the first character beyond ASCII. A text is
    held in its UTF-8 encoding, where a character beyond ASCII is a
    sequence of bytes from 128 up. *)
Definition encode_error : Exception :=
  UnicodeEncodeError "'ascii' codec can't encode character".

Definition str (text : string) : Result string :=
  if ascii_only text then Ok text else Raise encode_error.

(** A plain decimal literal: an optional sign followed by ASCII digits, at
    least one. [int] converts such a text to the number it writes. What
    [int] does with any other text (white space around the digits, digits
    of other scripts, anything else) is left to the environment. *)
Definition digit_of (c : ascii) : option Z :=
  let n := N_of_ascii c in
  if (48 <=? n)%N && (n <=? 57)%N then Some (Z.of_N (n - 48)) else None.

Fixpoint digits_from (acc : Z) (s : string) : option Z :=
  match s with
  | EmptyString => Some acc
  | String c r =>
      match digit_of c with
      | Some d => digits_from (10 * acc + d) r
      | None => None
      end
  end.

Definition digits (s : string) : option Z :=
  match s with
  | EmptyString => None
  | _ => digits_from 0 s
  end.

Definition literal (s : string) : option Z :=
  match s with
  | String "-" r => Z.opp <$> digits r
  | String "+" r => digits r
  | r => digits r
  end.

(** How [int(text)] ends: with a number, with the [ValueError] of an
    invalid literal, or with the [UnicodeEncodeError] of a character the
    decimal codec cannot encode. *)
Inductive IntOutcome :=
| Converted (z : Z)
| InvalidLiteral
| Unencodable.

(** [str(n)] of an integer. *)
Definition str_int (z : Z) : string := NilZero.string_of_int (Z.to_int z).

(** [str(b)] of a boolean. *)
Definition str_bool (b : bool) : string := if b then "True" else "False".

(** The objects that occur in the comparison of [save]: a string, or the
    bound method obtained by naming a string method without calling it. *)
Inductive Object :=
| Str (s : string)
| BoundMethod (name : string) (self : string).

(** [a != b]: objects of different types are never equal; bound methods
    are equal when they are the same method of equal objects. *)
Definition ne (a b : Object) : bool :=
  match a, b with
  | Str x, Str y => negb (String.eqb x y)
  | BoundMethod n x, BoundMethod m y =>
      negb (String.eqb n m && String.eqb x y)
  | _, _ => true
  end.

End Py.

Import Py.

#[global] Instance result_ret : MRet Result := fun A a => Ok a.
#[global] Instance result_bind : MBind Result := fun A B k r => Py.bind r k.
#[global] Instance result_fmap : FMap Result :=
  fun A B f r => Py.bind r (fun a => Ok (f a)).

(** ** The DOM tree

    Child nodes that are no elements (text, comments) convert to null
    elements, which every loop of the serializer passes over; the model
    keeps the child elements only. *)

Module Dom.

Inductive Element :=
| Elem (tag : string) (attrs : gmap string string) (children : list Element).

Definition tagName (e : Element) : string :=
  match e with Elem t _ _ => t end.

Definition attributes (e : Element) : gmap string string :=
  match e with Elem _ a _ => a end.

Definition childNodes (e : Element) : list Element :=
  match e with Elem _ _ c => c end.

Definition createElement (tag : string) : Element := Elem tag ∅ [].

Definition hasAttribute (e : Element) (name : string) : bool :=
  match attributes e !! name with Some _ => true | None => false end.

(** [e.attribute(name, default)]. *)
Definition attribute (e : Element) (name default : string) : string :=
  match attributes e !! name with Some v => v | None => default end.

Definition setAttribute (e : Element) (name value : string) : Element :=
  match e with Elem t a c => Elem t (<[name := value]> a) c end.

Definition appendChild (parent child : Element) : Element :=
  match parent with Elem t a c => Elem t a (c ++ [child]) end.

(** [firstChildElement(tag)]: the first child with that tag, or null. *)
Fixpoint first_with_tag (tag : string) (l : list Element) : option Element :=
  match l with
  | [] => None
  | c :: r => if String.eqb (tagName c) tag then Some c
              else first_with_tag tag r
  end.

Definition firstChildElement (e : Element) (tag : string) : option Element :=
  first_with_tag tag (childNodes e).

(** [elementsByTagName(tag)]: all descendants with that tag, in document
    (preorder) order. *)
Fixpoint elementsByTagName (e : Element) (tag : string) : list Element :=
  match e with
  | Elem _ _ cs =>
      (fix go (l : list Element) : list Element :=
         match l with
         | [] => []
         | c :: r =>
             (if String.eqb (tagName c) tag then [c] else [])
               ++ elementsByTagName c tag ++ go r
         end) cs
  end.

(** A document: its root element, or none. *)
Record Document := { documentElement : option Element }.

End Dom.

Import Dom.

(** ** [_str_to_bool] *)

Definition _str_to_bool (bool_str : string) : bool :=
  let bool_str :=
    if (1 <? String.length bool_str)%nat then first_char bool_str
    else bool_str in
  String.eqb (upper bool_str) "T".

(** ** Collaborators outside this module

    The domain classes ([StdmConfiguration], [Entity], the column classes,
    [EntityRelation]) and the date helpers of [stdm.utils.util] are imported
    by the serializer. What the serializer needs from them is gathered
    here. *)

(** The types of Python floats, dates and date times. *)
Class Scalars := {
  float : Type;
  date : Type;
  datetime : Type
}.

(** ** Data model *)

Section DataModel.
Context {Sc : Scalars}.

(** A minimum or maximum, typed per column kind. *)
Inductive Bound :=
| BInt (z : Z)
| BFloat (f : float)
| BDate (d : date)
| BDateTime (d : datetime)
| BText (s : string).

(** [EntityRelation(profile, parent=, child=, parent_column=,
    child_column=)], parent and child held by short name. *)
Record EntityRelation := {
  er_name : string;
  er_parent : string;
  er_parent_column : string;
  er_child : string;
  er_child_column : string
}.

(** Keyword arguments of a column constructor. The keys every read sets
    are plain fields, the keys set on a condition are optional. *)
Record Kwargs := {
  kw_description : string;
  kw_index : bool;
  kw_mandatory : bool;
  kw_searchable : bool;
  kw_unique : bool;
  kw_user_tip : string;
  kw_minimum : option Bound;
  kw_maximum : option Bound;
  kw_srid : option Z;
  kw_entity_relation : option EntityRelation;
  kw_first_parent : option string
}.

(** Positional arguments of a column constructor. The owning entity is
    passed by reference; it is recorded by its short name. *)
Inductive Arg :=
| ArgName (name : string)
| ArgEntity (short_name : string)
| ArgGeomType (geom_type : Z).

(** A column object is the constructor call that builds it:
    [column_cls( *args, **kwargs)] for the class of tag [col_TYPE_INFO]. *)
Record Column := {
  col_TYPE_INFO : string;
  col_args : list Arg;
  col_kwargs : Kwargs
}.

Definition col_geom_type (c : Column) : option Z :=
  match col_args c with
  | [_; _; ArgGeomType g] => Some g
  | _ => None
  end.

(** An entity: the constructor call [Entity(short_name, profile,
    **optional_args)], the attributes assigned after it, and the
    [add_column] calls in order. *)
Record Entity := {
  ent_short_name : string;
  ent_optional_args : gmap string bool;
  ent_is_associative : option bool;
  ent_user_editable : option bool;
  ent_description : string;
  ent_columns : list Column
}.

(** [entity.add_column(column)]. *)
Definition add_column (e : Entity) (c : Column) : Entity :=
  {| ent_short_name := ent_short_name e;
     ent_optional_args := ent_optional_args e;
     ent_is_associative := ent_is_associative e;
     ent_user_editable := ent_user_editable e;
     ent_description := ent_description e;
     ent_columns := ent_columns e ++ [c] |}.

Record CodeValue := { cv_code : string; cv_value : string }.

(** A value list: [ValueList(name, profile)] and its [add_value] calls. *)
Record ValueList := {
  vl_short_name : string;
  vl_values : list CodeValue
}.

Record AssociationEntity := {
  ae_short_name : string;
  ae_first_parent : string;
  ae_second_parent : string
}.

Inductive EntityLike :=
| AnEntity (e : Entity)
| AValueList (v : ValueList)
| AnAssociation (a : AssociationEntity).

Definition short_name (x : EntityLike) : string :=
  match x with
  | AnEntity e => ent_short_name e
  | AValueList v => vl_short_name v
  | AnAssociation a => ae_short_name a
  end.

Record SocialTenure := {
  st_party : option string;
  st_spatial_unit : option string;
  st_tenure_type_collection : option string
}.

(** A profile: its name, the [add_entity] calls made on it in order, its
    relations and its social tenure. *)
Record Profile := {
  prf_name : string;
  prf_added : list EntityLike;
  prf_relations : list EntityRelation;
  prf_social_tenure : SocialTenure
}.

Definition new_profile (name : string) : Profile :=
  {| prf_name := name; prf_added := []; prf_relations := [];
     prf_social_tenure := {| st_party := None; st_spatial_unit := None;
                             st_tenure_type_collection := None |} |}.

(** [profile.add_entity(x)]. *)
Definition add_entity (p : Profile) (x : EntityLike) : Profile :=
  {| prf_name := prf_name p;
     prf_added := prf_added p ++ [x];
     prf_relations := prf_relations p;
     prf_social_tenure := prf_social_tenure p |}.

(** [profile.entities]: the mapping from short name to object that the
    [add_entity] calls leave, a later call replacing an earlier one of
    the same short name in place. *)
Fixpoint od_set {V} (k : string) (v : V) (l : list (string * V))
  : list (string * V) :=
  match l with
  | [] => [(k, v)]
  | (k', v') :: r =>
      if String.eqb k' k then (k, v) :: r else (k', v') :: od_set k v r
  end.

Definition entities (p : Profile) : list (string * EntityLike) :=
  fold_left (fun m x => od_set (short_name x) x m) (prf_added p) [].

(** Modelled from the spec: the lookup of an entity of the profile by
    short name, which [EntityRelation.valid] relies on; [Profile] is
    outside this module. A short name resolves when some object of the
    profile carries it. *)
Definition entity_exists (p : Profile) (name : string) : bool :=
  existsb (fun x => String.eqb (short_name x) name) (prf_added p).

(** [profile.set_social_tenure_attr]. *)
Definition set_party (p : Profile) (party : string) : Profile :=
  {| prf_name := prf_name p; prf_added := prf_added p;
     prf_relations := prf_relations p;
     prf_social_tenure :=
       {| st_party := Some party;
          st_spatial_unit := st_spatial_unit (prf_social_tenure p);
          st_tenure_type_collection :=
            st_tenure_type_collection (prf_social_tenure p) |} |}.

Definition set_spatial_unit (p : Profile) (su : string) : Profile :=
  {| prf_name := prf_name p; prf_added := prf_added p;
     prf_relations := prf_relations p;
     prf_social_tenure :=
       {| st_party := st_party (prf_social_tenure p);
          st_spatial_unit := Some su;
          st_tenure_type_collection :=
            st_tenure_type_collection (prf_social_tenure p) |} |}.

(** The configuration singleton: its profiles by name. *)
Record Configuration := { profiles : gmap string Profile }.

(** Modelled from the spec: [StdmConfiguration._clear()] and
    [add_profile], whose class is outside this module. The reset leaves
    no profile; a profile is registered under its name. *)
Definition _clear (c : Configuration) : Configuration :=
  {| profiles := ∅ |}.

Definition add_profile (c : Configuration) (p : Profile) : Configuration :=
  {| profiles := <[prf_name p := p]> (profiles c) |}.

(** Modelled from the spec: [EntityRelation.valid()], whose class is
    outside this module. A relation is valid when its parent and its
    child short names resolve to entities of the owning profile. *)
Definition valid_by_short_names (p : Profile) (er : EntityRelation) : bool :=
  entity_exists p (er_parent er) && entity_exists p (er_child er).

End DataModel.

(** The operations of the collaborators. *)
Class External {Sc : Scalars} := {
  (** [int(text)] of a text that is no plain decimal literal. *)
  int_beyond_literal : string -> IntOutcome;
  (** [float(text)] ([None]: [ValueError]), [<] and [str] on floats. *)
  py_float : string -> option float;
  float_lt : float -> float -> bool;
  str_float : float -> string;
  (** [date_from_string] and [datetime_from_string] ([None]:
      [ValueError]), and [str] on their results. *)
  date_from_string : string -> option date;
  str_date : date -> string;
  datetime_from_string : string -> option datetime;
  str_datetime : datetime -> string;
  (** [StdmConfiguration.VERSION]. *)
  VERSION : float;
  (** [ForeignKeyColumn.TYPE_INFO]. *)
  ForeignKeyColumn_TYPE_INFO : string;
  (** Whether [BaseColumn.column_type(tag)] finds a column class. *)
  column_type : string -> bool;
  (** Default of each keyword of the [Entity] constructor and of the entity
      attributes assigned after construction. *)
  entity_default : string -> bool;
  (** Display name the [Entity] constructor derives from the profile name
      and the short name. *)
  entity_name : string -> string -> string;
  (** Name an [EntityRelation] gives itself when none is passed. *)
  relation_gen_name : string -> string -> string -> string -> string;
  (** Name of the column class whose constructor takes no name. *)
  ADMIN_SPATIAL_UNIT_NAME : string;
  (** [column.association.name] of a multiple select column, from the short
      name of its entity and its own name. *)
  association_name : string -> string -> string;
  (** [EntityRelation.valid()] for a relation of the given profile. *)
  valid : Profile -> EntityRelation -> bool
}.

(** ** Attributes of the objects *)

Section Attributes.
Context {Sc : Scalars} {Ext : External}.

(** [int(text)]: the number a plain decimal literal writes; on any other
    text (white space around the digits, digits of other scripts, anything
    else) what the environment says [int] does, which is to return a
    number or to raise one of two exceptions. *)
Definition int (text : string) : Result Z :=
  match literal text with
  | Some z => Ok z
  | None =>
      match int_beyond_literal text with
      | Converted z => Ok z
      | InvalidLiteral =>
          Raise (ValueError "invalid literal for int()")
      | Unencodable =>
          Raise (UnicodeEncodeError
                   "'decimal' codec can't encode character")
      end
  end.

(** [str(bound)]: a bound kept as text is a unicode text, which [str]
    encodes. *)
Definition str_bound (b : Bound) : Result string :=
  match b with
  | BInt z => Ok (str_int z)
  | BFloat f => Ok (str_float f)
  | BDate d => Ok (str_date d)
  | BDateTime d => Ok (str_datetime d)
  | BText s => Py.str s
  end.

(** [column.name]: the name argument, or the fixed name of the class when
    the call carries none. *)
Definition col_name (c : Column) : string :=
  match col_args c with
  | ArgName n :: _ => n
  | _ => ADMIN_SPATIAL_UNIT_NAME
  end.

Definition ent_flag (e : Entity) (key : string) : bool :=
  match ent_optional_args e !! key with
  | Some b => b
  | None => entity_default key
  end.

Definition is_global (e : Entity) : bool := ent_flag e "is_global".
Definition is_proxy (e : Entity) : bool := ent_flag e "is_proxy".
Definition create_id_column (e : Entity) : bool :=
  ent_flag e "create_id_column".
Definition supports_documents (e : Entity) : bool :=
  ent_flag e "supports_documents".
Definition is_associative (e : Entity) : bool :=
  match ent_is_associative e with
  | Some b => b
  | None => entity_default "is_associative"
  end.
Definition user_editable (e : Entity) : bool :=
  match ent_user_editable e with
  | Some b => b
  | None => entity_default "user_editable"
  end.

End Attributes.

(** ** Entity relations *)

Module EntityRelationSerializer.
Section Serializer.
Context {Sc : Scalars} {Ext : External}.

Definition TAG_NAME := "EntityRelation".
Definition NAME := "name".
Definition PARENT := "parent".
Definition PARENT_COLUMN := "parentColumn".
Definition CHILD := "child".
Definition CHILD_COLUMN := "childColumn".

(** The relation is rebuilt from the four attributes; the name attribute
    is not passed on, so the relation names itself. *)
Definition read_xml (element : Element) : EntityRelation :=
  let parent := attribute element "parent" "" in
  let child := attribute element "child" "" in
  let parent_column := attribute element "parentColumn" "" in
  let child_column := attribute element "childColumn" "" in
  {| er_name := relation_gen_name parent parent_column child child_column;
     er_parent := parent;
     er_parent_column := parent_column;
     er_child := child;
     er_child_column := child_column |}.

Definition write_xml (entity_relation : EntityRelation)
    (parent_node : Element) : Element :=
  let er_element := createElement TAG_NAME in
  let er_element := setAttribute er_element NAME (er_name entity_relation) in
  let er_element :=
    setAttribute er_element PARENT (er_parent entity_relation) in
  let er_element :=
    setAttribute er_element PARENT_COLUMN
      (er_parent_column entity_relation) in
  let er_element :=
    setAttribute er_element CHILD (er_child entity_relation) in
  let er_element :=
    setAttribute er_element CHILD_COLUMN
      (er_child_column entity_relation) in
  appendChild parent_node er_element.

End Serializer.
End EntityRelationSerializer.

(** ** Column serializers *)

Module ColumnSerializerCollection.

(** The serializer classes, in the order of their definition. The class
    named [TextColumnSerializer] is defined twice; the first definition is
    [TextColumnSerializer0]. *)
Inductive Serializer :=
| TextColumnSerializer0
| VarCharColumnSerializer
| TextColumnSerializer
| IntegerColumnSerializer
| DoubleColumnSerializer
| SerialColumnSerializer
| DateColumnSerializer
| DateTimeColumnSerializer
| YesNoColumnSerializer
| GeometryColumnSerializer
| ForeignKeyColumnSerializer
| LookupColumnSerializer
| AdminSpatialUnitColumnSerializer
| MultipleSelectColumnSerializer.

Definition COLUMN_TYPE_INFO (cls : Serializer) : string :=
  match cls with
  | TextColumnSerializer0 => "TEXT"
  | VarCharColumnSerializer => "VARCHAR"
  | TextColumnSerializer => "TEXT"
  | IntegerColumnSerializer => "BIGINT"
  | DoubleColumnSerializer => "DOUBLE"
  | SerialColumnSerializer => "SERIAL"
  | DateColumnSerializer => "DATE"
  | DateTimeColumnSerializer => "DATETIME"
  | YesNoColumnSerializer => "YES_NO"
  | GeometryColumnSerializer => "GEOMETRY"
  | ForeignKeyColumnSerializer => "FOREIGN_KEY"
  | LookupColumnSerializer => "LOOKUP"
  | AdminSpatialUnitColumnSerializer => "ADMIN_SPATIAL_UNIT"
  | MultipleSelectColumnSerializer => "MULTIPLE_SELECT"
  end.

Definition TAG_NAME := "Column".
Definition DESCRIPTION := "description".
Definition NAME := "name".
Definition INDEX := "index".
Definition MANDATORY := "mandatory".
Definition SEARCHABLE := "searchable".
Definition UNIQUE := "unique".
Definition USER_TIP := "tip".
Definition MINIMUM := "minimum".
Definition MAXIMUM := "maximum".
Definition GEOM_TAG := "Geometry".
Definition SRID := "srid".
Definition GEOMETRY_TYPE := "type".
Definition RELATION_TAG := "Relation".
Definition ASSOCIATION_TAG := "associationEntity".
Definition FIRST_PARENT := "firstParent".

(** [cls.register()]: [_registry[cls.COLUMN_TYPE_INFO] = cls]. *)
Definition register (cls : Serializer) (registry : gmap string Serializer)
  : gmap string Serializer :=
  <[COLUMN_TYPE_INFO cls := cls]> registry.

(** The registry once the module is loaded. *)
Definition _registry : gmap string Serializer :=
  fold_left (fun r cls => register cls r)
    [TextColumnSerializer0; VarCharColumnSerializer; TextColumnSerializer;
     IntegerColumnSerializer; DoubleColumnSerializer;
     SerialColumnSerializer; DateColumnSerializer;
     DateTimeColumnSerializer; YesNoColumnSerializer;
     GeometryColumnSerializer; ForeignKeyColumnSerializer;
     LookupColumnSerializer; AdminSpatialUnitColumnSerializer;
     MultipleSelectColumnSerializer]
    ∅.

Definition handler (type_info : string) : option Serializer :=
  _registry !! type_info.

Definition type_info (element : Element) : string :=
  attribute element "TYPE_INFO" "".

Definition handler_by_element (element : Element)
  : Result (option Serializer) :=
  t_info ← Py.str (type_info element);
  if negb (truthy t_info) then Ok None else Ok (handler t_info).

Section Serializer.
Context {Sc : Scalars} {Ext : External}.

Definition value_error {A} (what : string) : Result A :=
  Raise (ValueError what).

Definition of_option {A} (what : string) (o : option A) : Result A :=
  match o with
  | Some a => Ok a
  | None => value_error what
  end.

(** [cls._convert_bounds_type(value)]. *)
Definition _convert_bounds_type (cls : Serializer) (value : string)
  : Result Bound :=
  match cls with
  | VarCharColumnSerializer | TextColumnSerializer
  | IntegerColumnSerializer => BInt <$> int value
  | DoubleColumnSerializer =>
      BFloat <$> of_option "could not convert string to float"
                   (py_float value)
  | DateColumnSerializer =>
      BDate <$> of_option "date_from_string" (date_from_string value)
  | DateTimeColumnSerializer =>
      BDateTime <$> of_option "datetime_from_string"
                      (datetime_from_string value)
  | _ => Ok (BText value)
  end.

Definition set_minimum (kwargs : Kwargs) (b : Bound) : Kwargs :=
  {| kw_description := kw_description kwargs; kw_index := kw_index kwargs;
     kw_mandatory := kw_mandatory kwargs;
     kw_searchable := kw_searchable kwargs; kw_unique := kw_unique kwargs;
     kw_user_tip := kw_user_tip kwargs;
     kw_minimum := Some b; kw_maximum := kw_maximum kwargs;
     kw_srid := kw_srid kwargs;
     kw_entity_relation := kw_entity_relation kwargs;
     kw_first_parent := kw_first_parent kwargs |}.

Definition set_maximum (kwargs : Kwargs) (b : Bound) : Kwargs :=
  {| kw_description := kw_description kwargs; kw_index := kw_index kwargs;
     kw_mandatory := kw_mandatory kwargs;
     kw_searchable := kw_searchable kwargs; kw_unique := kw_unique kwargs;
     kw_user_tip := kw_user_tip kwargs;
     kw_minimum := kw_minimum kwargs; kw_maximum := Some b;
     kw_srid := kw_srid kwargs;
     kw_entity_relation := kw_entity_relation kwargs;
     kw_first_parent := kw_first_parent kwargs |}.

Definition set_srid (kwargs : Kwargs) (srid : Z) : Kwargs :=
  {| kw_description := kw_description kwargs; kw_index := kw_index kwargs;
     kw_mandatory := kw_mandatory kwargs;
     kw_searchable := kw_searchable kwargs; kw_unique := kw_unique kwargs;
     kw_user_tip := kw_user_tip kwargs;
     kw_minimum := kw_minimum kwargs; kw_maximum := kw_maximum kwargs;
     kw_srid := Some srid;
     kw_entity_relation := kw_entity_relation kwargs;
     kw_first_parent := kw_first_parent kwargs |}.

Definition set_entity_relation (kwargs : Kwargs) (er : EntityRelation)
  : Kwargs :=
  {| kw_description := kw_description kwargs; kw_index := kw_index kwargs;
     kw_mandatory := kw_mandatory kwargs;
     kw_searchable := kw_searchable kwargs; kw_unique := kw_unique kwargs;
     kw_user_tip := kw_user_tip kwargs;
     kw_minimum := kw_minimum kwargs; kw_maximum := kw_maximum kwargs;
     kw_srid := kw_srid kwargs;
     kw_entity_relation := Some er;
     kw_first_parent := kw_first_parent kwargs |}.

Definition set_first_parent (kwargs : Kwargs) (fp : string) : Kwargs :=
  {| kw_description := kw_description kwargs; kw_index := kw_index kwargs;
     kw_mandatory := kw_mandatory kwargs;
     kw_searchable := kw_searchable kwargs; kw_unique := kw_unique kwargs;
     kw_user_tip := kw_user_tip kwargs;
     kw_minimum := kw_minimum kwargs; kw_maximum := kw_maximum kwargs;
     kw_srid := kw_srid kwargs;
     kw_entity_relation := kw_entity_relation kwargs;
     kw_first_parent := Some fp |}.

(** [try: kwargs[key] = cls._convert_bounds_type(text)
     except ValueError: pass]. *)
Definition try_bound (cls : Serializer) (text : string)
    (set : Kwargs -> Bound -> Kwargs) (kwargs : Kwargs) : Result Kwargs :=
  match _convert_bounds_type cls text with
  | Ok b => Ok (set kwargs b)
  | Raise e => if is_ValueError e then Ok kwargs else Raise e
  end.

(** [ForeignKeyColumnSerializer._obj_args]; [profile] is
    [args[1].profile], the profile of the owning entity. *)
Definition fk_obj_args (args : list Arg) (kwargs : Kwargs)
    (element : Element) (profile : Profile)
    (entity_relation_elements : gmap string Element)
  : list Arg * Kwargs :=
  match firstChildElement element RELATION_TAG with
  | Some relation_el =>
      let relation_name := attribute relation_el "name" "" in
      match entity_relation_elements !! relation_name with
      | Some er_element =>
          let er := EntityRelationSerializer.read_xml er_element in
          if valid profile er
          then (args, set_entity_relation kwargs er)
          else (args, kwargs)
      | None => (args, kwargs)
      end
  | None => (args, kwargs)
  end.

(** [cls._obj_args(args, kwargs, element, associations,
    entity_relations)]. *)
Definition _obj_args (cls : Serializer) (args : list Arg) (kwargs : Kwargs)
    (element : Element) (profile : Profile)
    (associations entity_relations : gmap string Element)
  : Result (list Arg * Kwargs) :=
  match cls with
  | GeometryColumnSerializer =>
      match firstChildElement element GEOM_TAG with
      | Some geom_el =>
          geom_type ← int (attribute geom_el GEOMETRY_TYPE "2");
          srid ← int (attribute geom_el SRID "4326");
          Ok (args ++ [ArgGeomType geom_type], set_srid kwargs srid)
      | None => Ok (args, kwargs)
      end
  | ForeignKeyColumnSerializer | LookupColumnSerializer =>
      Ok (fk_obj_args args kwargs element profile entity_relations)
  | AdminSpatialUnitColumnSerializer =>
      (* args.pop(0) *)
      Ok (tail args, kwargs)
  | MultipleSelectColumnSerializer =>
      match firstChildElement element ASSOCIATION_TAG with
      | Some assoc_el =>
          let assoc_name := attribute assoc_el "name" "" in
          match associations !! assoc_name with
          | Some association_element =>
              let first_parent :=
                attribute association_element FIRST_PARENT "" in
              if truthy first_parent
              then Ok (args, set_first_parent kwargs first_parent)
              else Ok (args, kwargs)
          | None => Ok (args, kwargs)
          end
      | None => Ok (args, kwargs)
      end
  | _ => Ok (args, kwargs)
  end.

(** [cls.read(element, entity, association_elements,
    entity_relation_elements)]: the entity after the call. *)
Definition read (cls : Serializer) (element : Element) (entity : Entity)
    (profile : Profile)
    (association_elements entity_relation_elements : gmap string Element)
  : Result Entity :=
  col_type_info ← Py.str (type_info element);
  if negb (truthy col_type_info) then Ok entity else
  let name := attribute element NAME "" in
  if negb (truthy name) then Ok entity else
  let kwargs :=
    {| kw_description := attribute element DESCRIPTION "";
       kw_index := _str_to_bool (attribute element INDEX "False");
       kw_mandatory := _str_to_bool (attribute element MANDATORY "False");
       kw_searchable := _str_to_bool (attribute element SEARCHABLE "False");
       kw_unique := _str_to_bool (attribute element UNIQUE "False");
       kw_user_tip := attribute element USER_TIP "";
       kw_minimum := None; kw_maximum := None; kw_srid := None;
       kw_entity_relation := None; kw_first_parent := None |} in
  kwargs ←
    (if hasAttribute element MINIMUM
     then try_bound cls (attribute element MINIMUM "") set_minimum kwargs
     else Ok kwargs);
  kwargs ←
    (if hasAttribute element MAXIMUM
     then try_bound cls (attribute element MAXIMUM "") set_maximum kwargs
     else Ok kwargs);
  let args := [ArgName name; ArgEntity (ent_short_name entity)] in
  '(custom_args, custom_kwargs) ←
    _obj_args cls args kwargs element profile association_elements
      entity_relation_elements;
  if column_type col_type_info
  then Ok (add_column entity
             {| col_TYPE_INFO := col_type_info;
                col_args := custom_args;
                col_kwargs := custom_kwargs |})
  else Ok entity.

(** [ColumnSerializerCollection.read_xml]. *)
Definition read_xml (element : Element) (entity : Entity)
    (profile : Profile)
    (association_elements entity_relation_elements : gmap string Element)
  : Result Entity :=
  column_handler ← handler_by_element element;
  match column_handler with
  | Some column_handler =>
      read column_handler element entity profile association_elements
        entity_relation_elements
  | None => Ok entity
  end.

(** Attributes of a column object as the writer reads them. An attribute
    the constructor call does not determine is Python's [None]. *)
Definition str_option {A} (str : A -> string) (o : option A) : string :=
  match o with Some a => str a | None => "None" end.

Definition attribute_error {A} (what : string) : Result A :=
  Raise (AttributeError what).

Definition col_entity (c : Column) : string :=
  match col_args c with
  | [ArgEntity e] | _ :: ArgEntity e :: _ => e
  | _ => ""
  end.

(** [cls._write_xml(column, column_element, document)]. *)
Definition _write_xml (cls : Serializer) (column : Column)
    (column_element : Element) : Result Element :=
  match cls with
  | GeometryColumnSerializer =>
      let geom_element := createElement GEOM_TAG in
      let geom_element :=
        setAttribute geom_element SRID
          (str_option str_int (kw_srid (col_kwargs column))) in
      match col_geom_type column with
      | Some g =>
          let geom_element :=
            setAttribute geom_element GEOMETRY_TYPE (str_int g) in
          Ok (appendChild column_element geom_element)
      | None => attribute_error "geom_type"
      end
  | ForeignKeyColumnSerializer | LookupColumnSerializer
  | AdminSpatialUnitColumnSerializer =>
      match kw_entity_relation (col_kwargs column) with
      | Some er =>
          let fk_element := createElement RELATION_TAG in
          let fk_element := setAttribute fk_element "name" (er_name er) in
          Ok (appendChild column_element fk_element)
      | None => attribute_error "'NoneType' object has no attribute 'name'"
      end
  | MultipleSelectColumnSerializer =>
      let association_entity_element := createElement ASSOCIATION_TAG in
      let association_entity_element :=
        setAttribute association_entity_element "name"
          (association_name (col_entity column) (col_name column)) in
      Ok (appendChild column_element association_entity_element)
  | _ => Ok column_element
  end.

(** [cls.write_xml(column, parent_node, document)]: the parent node after
    the call. [hasattr(column, 'minimum')] holds when the constructor
    call carries the bound. *)
Definition write_xml (cls : Serializer) (column : Column)
    (parent_node : Element) : Result Element :=
  let kw := col_kwargs column in
  let col_element := createElement TAG_NAME in
  let col_element :=
    setAttribute col_element "TYPE_INFO" (COLUMN_TYPE_INFO cls) in
  let col_element :=
    setAttribute col_element DESCRIPTION (kw_description kw) in
  let col_element := setAttribute col_element NAME (col_name column) in
  let col_element :=
    setAttribute col_element INDEX (str_bool (kw_index kw)) in
  let col_element :=
    setAttribute col_element MANDATORY (str_bool (kw_mandatory kw)) in
  let col_element :=
    setAttribute col_element SEARCHABLE (str_bool (kw_searchable kw)) in
  let col_element :=
    setAttribute col_element UNIQUE (str_bool (kw_unique kw)) in
  let col_element := setAttribute col_element USER_TIP (kw_user_tip kw) in
  col_element ←
    match kw_minimum kw with
    | Some b =>
        text ← str_bound b; Ok (setAttribute col_element MINIMUM text)
    | None => Ok col_element
    end;
  col_element ←
    match kw_maximum kw with
    | Some b =>
        text ← str_bound b; Ok (setAttribute col_element MAXIMUM text)
    | None => Ok col_element
    end;
  col_element ← _write_xml cls column col_element;
  Ok (appendChild parent_node col_element).

End Serializer.
End ColumnSerializerCollection.

(** ** Entity serializers *)

(** [for x in xs: state = step(x, state)], stopping at the first raise. *)
Fixpoint foldM {A S} (step : A -> S -> Result S) (xs : list A) (s : S)
  : Result S :=
  match xs with
  | [] => Ok s
  | x :: r => s' ← step x s; foldM step r s'
  end.

Module EntitySerializerCollection.

Inductive Serializer :=
| EntitySerializer
| AssociationEntitySerializer
| ValueListSerializer.

Definition ENTITY_TYPE_INFO (cls : Serializer) : string :=
  match cls with
  | EntitySerializer => "ENTITY"
  | AssociationEntitySerializer => "ASSOCIATION_ENTITY"
  | ValueListSerializer => "VALUE_LIST"
  end.

Definition TAG_NAME (cls : Serializer) : string :=
  match cls with
  | EntitySerializer => "Entity"
  | AssociationEntitySerializer => "Association"
  | ValueListSerializer => "ValueList"
  end.

Definition GROUP_TAG (cls : Serializer) : option string :=
  match cls with
  | EntitySerializer => None
  | AssociationEntitySerializer => Some "Associations"
  | ValueListSerializer => Some "ValueLists"
  end.

(** [cls.register()]: [_registry[cls.ENTITY_TYPE_INFO] = cls], on an
    ordered dictionary. *)
Definition register (cls : Serializer) (registry : list (string * Serializer))
  : list (string * Serializer) :=
  od_set (ENTITY_TYPE_INFO cls) cls registry.

(** The registry once the module is loaded. *)
Definition _registry : list (string * Serializer) :=
  fold_left (fun r cls => register cls r)
    [EntitySerializer; AssociationEntitySerializer; ValueListSerializer]
    [].

Fixpoint od_get {V} (k : string) (l : list (string * V)) : option V :=
  match l with
  | [] => None
  | (k', v) :: r => if String.eqb k' k then Some v else od_get k r
  end.

Definition handler (type_info : string) : option Serializer :=
  od_get type_info _registry.

Definition entry_tag_name (cls : Serializer) : string :=
  match GROUP_TAG cls with
  | Some g => g
  | None => TAG_NAME cls
  end.

Definition handler_by_tag_name (tag_name : string) : option Serializer :=
  head (filter (fun s => entry_tag_name s = tag_name) (_registry.*2)).

(** [cls.group_element(parent_node, document)] followed by
    [group_node.appendChild(child)]: the parent node after both. The group
    element is shared with the parent, so the child lands inside the
    parent's first group element, which is created when missing. *)
Fixpoint append_in_first (tag : string) (child : Element)
    (l : list Element) : option (list Element) :=
  match l with
  | [] => None
  | c :: r =>
      if String.eqb (tagName c) tag then Some (appendChild c child :: r)
      else cons c <$> append_in_first tag child r
  end.

Definition append_to_group (cls : Serializer) (parent_node child : Element)
  : Element :=
  match GROUP_TAG cls with
  | None => appendChild parent_node child
  | Some group_tag =>
      match parent_node with
      | Elem t a cs =>
          match append_in_first group_tag child cs with
          | Some cs' => Elem t a cs'
          | None =>
              Elem t a (cs ++ [appendChild (createElement group_tag) child])
          end
      end
  end.

(** [EntitySerializerCollection.has_dependency(element)], the default the
    subclasses inherit. *)
Definition has_dependency (element : Element) : bool := false.

End EntitySerializerCollection.

Module EntitySerializer.
Section Serializer.
Context {Sc : Scalars} {Ext : External}.

Definition TAG_NAME := "Entity".
Definition GLOBAL := "global".
Definition SHORT_NAME := "shortName".
Definition NAME := "name".
Definition DESCRIPTION := "description".
Definition ASSOCIATIVE := "associative".
Definition EDITABLE := "editable".
Definition CREATE_ID := "createId".
Definition PROXY := "proxy".
Definition SUPPORTS_DOCUMENTS := "supportsDocuments".
Definition ENTITY_TYPE_INFO := "ENTITY".
Definition DEPENDENCY_FLAGS : list string := [ForeignKeyColumn_TYPE_INFO].

(** [x in flags] on a list of strings. *)
Definition py_in (x : string) (flags : list string) : bool :=
  existsb (String.eqb x) flags.

(** [EntitySerializer.column_elements(entity_element)]. *)
Definition column_elements (entity_element : Element) : list Element :=
  match firstChildElement entity_element "Columns" with
  | Some cols_group_el => childNodes cols_group_el
  | None => []
  end.

(** The loop of [has_dependency], leaving at the first
    column element whose type tag is a dependency flag. *)
Fixpoint dependency_loop (column_elements : list Element) : bool :=
  match column_elements with
  | [] => false
  | ce :: r =>
      if hasAttribute ce "TYPE_INFO" then
        let type_info := attribute ce "TYPE_INFO" "" in
        if py_in type_info DEPENDENCY_FLAGS then true
        else dependency_loop r
      else dependency_loop r
  end.

(** [EntitySerializer.has_dependency(element)]. *)
Definition has_dependency (element : Element) : bool :=
  dependency_loop (column_elements element).

(** One step of the column loop of [EntitySerializer.read_xml]. *)
Definition read_column (profile : Profile)
    (association_elements entity_relation_elements : gmap string Element)
    (ce : Element) (ent : Entity) : Result Entity :=
  tag ← Py.str (tagName ce);
  if String.eqb tag "Column"
  then ColumnSerializerCollection.read_xml ce ent profile
         association_elements entity_relation_elements
  else Ok ent.

(** [if text: optional_args[key] = _str_to_bool(text)]. *)
Definition set_flag (key text : string) (optional_args : gmap string bool)
  : gmap string bool :=
  if truthy text then <[key := _str_to_bool text]> optional_args
  else optional_args.

Definition flag_attr (text : string) : option bool :=
  if truthy text then Some (_str_to_bool text) else None.

(** [EntitySerializer.read_xml(child_element, profile, ...)]: the profile
    after the call. *)
Definition read_xml (child_element : Element) (profile : Profile)
    (association_elements entity_relation_elements : gmap string Element)
  : Result Profile :=
  let short_name := attribute child_element SHORT_NAME "" in
  if truthy short_name then
    let optional_args : gmap string bool := ∅ in
    let optional_args :=
      set_flag "is_global" (attribute child_element GLOBAL "")
        optional_args in
    let optional_args :=
      set_flag "is_proxy" (attribute child_element PROXY "")
        optional_args in
    let optional_args :=
      set_flag "is_proxy" (attribute child_element CREATE_ID "")
        optional_args in
    let optional_args :=
      set_flag "supports_documents"
        (attribute child_element SUPPORTS_DOCUMENTS "") optional_args in
    let ent :=
      {| ent_short_name := short_name;
         ent_optional_args := optional_args;
         ent_is_associative :=
           flag_attr (attribute child_element ASSOCIATIVE "");
         ent_user_editable :=
           flag_attr (attribute child_element EDITABLE "");
         ent_description := attribute child_element DESCRIPTION "";
         ent_columns := [] |} in
    ent ← foldM (read_column profile association_elements
                   entity_relation_elements)
            (column_elements child_element) ent;
    Ok (add_entity profile (AnEntity ent))
  else Ok profile.

(** [entity.columns.values()]: the columns by name, a later [add_column]
    replacing an earlier one of the same name in place. *)
Definition columns_values (e : Entity) : list Column :=
  (fold_left (fun m c => od_set (col_name c) c m) (ent_columns e) []).*2.

(** One step of the column loop of [EntitySerializer.write_xml]. *)
Definition write_column (c : Column) (columns_element : Element)
  : Result Element :=
  match ColumnSerializerCollection.handler (col_TYPE_INFO c) with
  | Some column_serializer =>
      ColumnSerializerCollection.write_xml column_serializer c
        columns_element
  | None => Ok columns_element
  end.

(** [EntitySerializer.write_xml(entity, parent_node, document)]: the
    parent node after the call. *)
Definition write_xml (profile_name : string) (entity : Entity)
    (parent_node : Element) : Result Element :=
  let entity_element := createElement TAG_NAME in
  let entity_element :=
    setAttribute entity_element GLOBAL (str_bool (is_global entity)) in
  let entity_element :=
    setAttribute entity_element SHORT_NAME (ent_short_name entity) in
  let entity_element :=
    setAttribute entity_element NAME
      (entity_name profile_name (ent_short_name entity)) in
  let entity_element :=
    setAttribute entity_element DESCRIPTION (ent_description entity) in
  let entity_element :=
    setAttribute entity_element ASSOCIATIVE
      (str_bool (is_associative entity)) in
  let entity_element :=
    setAttribute entity_element EDITABLE
      (str_bool (user_editable entity)) in
  let entity_element :=
    setAttribute entity_element CREATE_ID
      (str_bool (create_id_column entity)) in
  let entity_element :=
    setAttribute entity_element PROXY (str_bool (is_proxy entity)) in
  let entity_element :=
    setAttribute entity_element SUPPORTS_DOCUMENTS
      (str_bool (supports_documents entity)) in
  columns_element ←
    foldM write_column (columns_values entity) (createElement "Columns");
  let entity_element := appendChild entity_element columns_element in
  Ok (appendChild parent_node entity_element).

End Serializer.
End EntitySerializer.

Module AssociationEntitySerializer.
Section Serializer.
Context {Sc : Scalars} {Ext : External}.

Definition GROUP_TAG := "Associations".
Definition TAG_NAME := "Association".
Definition FIRST_PARENT := "firstParent".
Definition SECOND_PARENT := "secondParent".
Definition ENTITY_TYPE_INFO := "ASSOCIATION_ENTITY".

(** [AssociationEntitySerializer.read_xml]: the association entity, or
    [None]. *)
Definition read_xml (element : Element)
  : option AssociationEntity :=
  let short_name := attribute element EntitySerializer.SHORT_NAME "" in
  if truthy short_name
  then Some {| ae_short_name := short_name;
               ae_first_parent := attribute element FIRST_PARENT "";
               ae_second_parent := attribute element SECOND_PARENT "" |}
  else None.

(** [AssociationEntitySerializer.write_xml]. *)
Definition write_xml (profile_name : string)
    (association_entity : AssociationEntity) (parent_node : Element)
  : Element :=
  let el := createElement TAG_NAME in
  let el :=
    setAttribute el EntitySerializer.NAME
      (entity_name profile_name (ae_short_name association_entity)) in
  let el :=
    setAttribute el EntitySerializer.SHORT_NAME
      (ae_short_name association_entity) in
  let el :=
    setAttribute el FIRST_PARENT (ae_first_parent association_entity) in
  let el :=
    setAttribute el SECOND_PARENT (ae_second_parent association_entity) in
  EntitySerializerCollection.append_to_group
      EntitySerializerCollection.AssociationEntitySerializer parent_node el.

End Serializer.
End AssociationEntitySerializer.

Module ValueListSerializer.
Section Serializer.
Context {Sc : Scalars} {Ext : External}.

Definition GROUP_TAG := "ValueLists".
Definition TAG_NAME := "ValueList".
Definition CODE_VALUE_TAG := "CodeValue".
Definition NAME := "name".
Definition CV_CODE := "code".
Definition CV_VALUE := "value".
Definition ENTITY_TYPE_INFO := "VALUE_LIST".

(** The code value loop of [ValueListSerializer.read_xml]. *)
Definition read_code_value (cd_el : Element) (values : list CodeValue)
  : list CodeValue :=
  let code := attribute cd_el CV_CODE "" in
  let value := attribute cd_el CV_VALUE "" in
  if truthy value
  then values ++ [{| cv_code := code; cv_value := value |}]
  else values.

Definition read_value_list (value_list_el : Element) (profile : Profile)
  : Profile :=
  let name := attribute value_list_el "name" "" in
  if truthy name then
    let cd_elements := elementsByTagName value_list_el CODE_VALUE_TAG in
    let values :=
      fold_left (fun vs cd_el => read_code_value cd_el vs) cd_elements [] in
    add_entity profile
      (AValueList {| vl_short_name := name; vl_values := values |})
  else profile.

(** [ValueListSerializer.read_xml] on the group element. *)
Definition read_xml (child_element : Element)
    (profile : Profile) : Profile :=
  fold_left (fun p el => read_value_list el p)
    (elementsByTagName child_element TAG_NAME)
    profile.

(** [ValueListSerializer.write_xml]. *)
Definition write_xml (value_list : ValueList)
    (parent_node : Element) : Element :=
  let value_list_element := createElement TAG_NAME in
  let value_list_element :=
    setAttribute value_list_element "name" (vl_short_name value_list) in
  let value_list_element :=
    fold_left
      (fun el cv =>
         let cd_element := createElement CODE_VALUE_TAG in
         let cd_element := setAttribute cd_element CV_VALUE (cv_value cv) in
         let cd_element := setAttribute cd_element CV_CODE (cv_code cv) in
         appendChild el cd_element)
      (vl_values value_list) value_list_element in
  EntitySerializerCollection.append_to_group
      EntitySerializerCollection.ValueListSerializer parent_node
      value_list_element.

End Serializer.
End ValueListSerializer.

(** A call through a serializer found in the registry: the method of the
    class the entry stands for. *)
Module ItemSerializer.
Section Serializer.
Context {Sc : Scalars} {Ext : External}.
Import EntitySerializerCollection.

(** [item_serializer.has_dependency(element)]: only [EntitySerializer]
    overrides the default. *)
Definition has_dependency (cls : Serializer) (element : Element) : bool :=
  match cls with
  | EntitySerializer => EntitySerializer.has_dependency element
  | _ => EntitySerializerCollection.has_dependency element
  end.

(** [item_serializer.read_xml(element, profile, association_elements,
    entity_relation_elements)]: the profile after the call. The association
    reader returns its object and leaves the profile alone. *)
Definition read_xml (cls : Serializer) (element : Element)
    (profile : Profile)
    (association_elements entity_relation_elements : gmap string Element)
  : Result Profile :=
  match cls with
  | EntitySerializer =>
      EntitySerializer.read_xml element profile association_elements
        entity_relation_elements
  | AssociationEntitySerializer => Ok profile
  | ValueListSerializer => Ok (ValueListSerializer.read_xml element profile)
  end.

(** [e.TYPE_INFO] of an object of the profile. *)
Definition TYPE_INFO (x : EntityLike) : string :=
  match x with
  | AnEntity _ => "ENTITY"
  | AValueList _ => "VALUE_LIST"
  | AnAssociation _ => "ASSOCIATION_ENTITY"
  end.

(** [item_serializer.write_xml(e, profile_element, document)] for the
    serializer registered under the type of the object. *)
Definition write_xml (cls : Serializer) (profile_name : string)
    (x : EntityLike) (parent_node : Element) : Result Element :=
  match cls, x with
  | EntitySerializer, AnEntity e =>
      EntitySerializer.write_xml profile_name e parent_node
  | AssociationEntitySerializer, AnAssociation a =>
      Ok (AssociationEntitySerializer.write_xml profile_name a parent_node)
  | ValueListSerializer, AValueList v =>
      Ok (ValueListSerializer.write_xml v parent_node)
  | _, _ => Raise (AttributeError "object does not match its serializer")
  end.

End Serializer.
End ItemSerializer.

(** ** Social tenure *)

Module SocialTenureSerializer.
Section Serializer.
Context {Sc : Scalars} {Ext : External}.

Definition PARTY := "party".
Definition SPATIAL_UNIT := "spatialUnit".
Definition TENURE_TYPE := "tenureTypeList".

(** Only the party and the spatial unit are read. *)
Definition read_xml (child_element : Element) (profile : Profile)
  : Profile :=
  let party := attribute child_element PARTY "" in
  let spatial_unit := attribute child_element SPATIAL_UNIT "" in
  let profile := if truthy party then set_party profile party
                 else profile in
  if truthy spatial_unit then set_spatial_unit profile spatial_unit
  else profile.

Definition short_name_of (what : string) (o : option string)
  : Result string :=
  match o with
  | Some n => Ok n
  | None => Raise (AttributeError what)
  end.

(** [SocialTenureSerializer.write_xml]; each of the three objects must be
    set for its short name to be read. *)
Definition write_xml (social_tenure : SocialTenure) (parent_node : Element)
  : Result Element :=
  let el := createElement "SocialTenure" in
  party ← short_name_of "party" (st_party social_tenure);
  let el := setAttribute el PARTY party in
  spatial_unit ←
    short_name_of "spatial_unit" (st_spatial_unit social_tenure);
  let el := setAttribute el SPATIAL_UNIT spatial_unit in
  tenure_type ←
    short_name_of "tenure_type_collection"
      (st_tenure_type_collection social_tenure);
  let el := setAttribute el TENURE_TYPE tenure_type in
  Ok (appendChild parent_node el).

End Serializer.
End SocialTenureSerializer.

(** ** Profiles *)

(** [_populate_collections_from_element(element, tag_name, collection)]:
    the collection after the call. *)
Definition _populate_collections_from_element (element : Element)
    (tag_name : string) (collection : gmap string Element)
  : gmap string Element :=
  match firstChildElement element tag_name with
  | Some group_el =>
      fold_left
        (fun coll er_el =>
           if hasAttribute er_el "name"
           then <[attribute er_el "name" "" := er_el]> coll
           else coll)
        (childNodes group_el) collection
  | None => collection
  end.

Module ProfileSerializer.
Section Serializer.
Context {Sc : Scalars} {Ext : External}.
Import EntitySerializerCollection.

Definition _populate_entity_relations (element : Element)
    (collection : gmap string Element) : gmap string Element :=
  _populate_collections_from_element element "Relations" collection.

Definition _populate_associations (element : Element)
    (collection : gmap string Element) : gmap string Element :=
  _populate_collections_from_element element
    AssociationEntitySerializer.GROUP_TAG collection.

(** The first loop over the child nodes: an entity element without
    dependency is read at once, one with a dependency is queued together
    with its serializer. The state is the profile and the queue. *)
Fixpoint first_pass (child_nodes : list Element)
    (association_elements entity_relation_elements : gmap string Element)
    (profile : Profile) (deferred_elements : list (Element * Serializer))
  : Result (Profile * list (Element * Serializer)) :=
  match child_nodes with
  | [] => Ok (profile, deferred_elements)
  | child_element :: rest =>
      let child_tag_name := tagName child_element in
      let item_serializer := handler_by_tag_name child_tag_name in
      if String.eqb (tagName child_element) "Entity" then
        match item_serializer with
        | Some item_serializer =>
            if negb (ItemSerializer.has_dependency item_serializer
                       child_element) then
              profile ← ItemSerializer.read_xml item_serializer child_element
                          profile association_elements
                          entity_relation_elements;
              first_pass rest association_elements
                entity_relation_elements profile deferred_elements
            else
              first_pass rest association_elements
                entity_relation_elements profile
                (deferred_elements ++ [(child_element, item_serializer)])
        | None =>
            first_pass rest association_elements entity_relation_elements
              profile deferred_elements
        end
      else
        first_pass rest association_elements entity_relation_elements
          profile deferred_elements
  end.

(** The loop over the queue. *)
Definition read_deferred
    (association_elements entity_relation_elements : gmap string Element)
    (c : Element * Serializer) (profile : Profile) : Result Profile :=
  let '(el, serializer) := c in
  ItemSerializer.read_xml serializer el profile association_elements
    entity_relation_elements.

(** The part of [read_xml] that fills the profile with its entities:
    value lists, first pass, queue. *)
Definition read_entities (element : Element) (profile : Profile)
    (association_elements entity_relation_elements : gmap string Element)
  : Result Profile :=
  let profile :=
    match firstChildElement element ValueListSerializer.GROUP_TAG with
    | Some value_lists_el =>
        ValueListSerializer.read_xml value_lists_el profile
    | None => profile
    end in
  '(profile, deferred_elements) ←
    first_pass (childNodes element) association_elements
      entity_relation_elements profile [];
  foldM (read_deferred association_elements entity_relation_elements)
    deferred_elements profile.

(** [ProfileSerializer.read_xml(element, config_element, configuration)]:
    the profile, or [None] when the element carries no name. *)
Definition read_xml (element : Element) : Result (option Profile) :=
  let profile_name := attribute element "name" "" in
  if negb (truthy profile_name) then Ok None else
  let profile := new_profile profile_name in
  let association_elements := _populate_associations element ∅ in
  let entity_relation_elements := _populate_entity_relations element ∅ in
  profile ← read_entities element profile association_elements
              entity_relation_elements;
  let profile :=
    match firstChildElement element "SocialTenure" with
    | Some str_el => SocialTenureSerializer.read_xml str_el profile
    | None => profile
    end in
  Ok (Some profile).

(** One step of the entity loop of [write_xml]. *)
Definition write_entity (profile_name : string) (e : EntityLike)
    (profile_element : Element) : Result Element :=
  match handler (ItemSerializer.TYPE_INFO e) with
  | Some item_serializer =>
      ItemSerializer.write_xml item_serializer profile_name e
        profile_element
  | None => Ok profile_element
  end.

(** [ProfileSerializer.write_xml(profile, parent_node, document)]: the
    parent node after the call. *)
Definition write_xml (profile : Profile) (parent_node : Element)
  : Result Element :=
  let profile_element := createElement "Profile" in
  let profile_element :=
    setAttribute profile_element "name" (prf_name profile) in
  profile_element ←
    foldM (write_entity (prf_name profile)) (entities profile).*2
      profile_element;
  let er_parent_element :=
    fold_left (fun el er => EntityRelationSerializer.write_xml er el)
      (prf_relations profile) (createElement "Relations") in
  let profile_element := appendChild profile_element er_parent_element in
  profile_element ←
    SocialTenureSerializer.write_xml (prf_social_tenure profile)
      profile_element;
  Ok (appendChild parent_node profile_element).

End Serializer.
End ProfileSerializer.

(** ** The configuration file serializer *)

Module ConfigurationFileSerializer.

(** [QFileInfo(path).suffix()]: the characters of the file name after its
    last dot, nothing when the name has no dot. *)
Fixpoint after_last (sep : ascii) (s : string) : option string :=
  match s with
  | EmptyString => None
  | String c r =>
      match after_last sep r with
      | Some t => Some t
      | None => if Ascii.eqb c sep then Some r else None
      end
  end.

Definition fileName (path : string) : string :=
  match after_last "/" path with Some n => n | None => path end.

Definition suffix (path : string) : string :=
  match after_last "." (fileName path) with Some x => x | None => "" end.

(** What the file at a path is to [load]. *)
Inductive File :=
| Missing
| Unreadable
| Malformed (msg : string)
| Parsed (doc : Document).

Section Serializer.
Context {Sc : Scalars} {Ext : External}.

(** The serializer object: its path, the configuration singleton it
    holds, and the documents handed to [update] so far. *)
Record State := {
  path : string;
  config : Configuration;
  update_calls : list (option Document)
}.

Definition with_path (st : State) (p : string) : State :=
  {| path := p; config := config st; update_calls := update_calls st |}.

Definition with_config (st : State) (c : Configuration) : State :=
  {| path := path st; config := c; update_calls := update_calls st |}.

(** The path [save] writes to: the extension test compares the bound
    method [lower] itself, not its result, with the extension. *)
Definition save_path (path : string) : string :=
  if negb (Py.ne (BoundMethod "lower" (suffix path)) (Str "stc"))
  then path ++ "." ++ "stc"
  else path.

(** [write_xml(document)]: the document once populated. *)
Definition write_xml (st : State) : Result Document :=
  let config_element := createElement "Configuration" in
  let config_element :=
    setAttribute config_element "version" (str_float VERSION) in
  config_element ←
    foldM ProfileSerializer.write_xml
      (map_to_list (profiles (config st))).*2 config_element;
  Ok {| documentElement := Some config_element |}.

(** [save()]: [is_null] is [self.config.is_null]; [can_open] and
    [can_write] tell whether the file at a path opens for writing and
    takes the bytes. The result is the path and the document written. *)
Definition save (st : State) (is_null : bool)
    (can_open can_write : string -> bool)
  : Result (string * Document) * State :=
  if is_null
  then (Raise (ConfigurationException "StdmConfiguration object is null"),
        st)
  else if negb (truthy (path st))
  then (Raise (IOError "File path for saving the configuration is empty."),
        st)
  else
    let st := with_path st (save_path (path st)) in
    if negb (can_open (path st))
    then (Raise (IOError "The file cannot be saved"), st)
    else
      match write_xml st with
      | Ok config_document =>
          if can_write (path st)
          then (Ok (path st, config_document), st)
          else (Raise (IOError
                         "The configuration could not be written to file."),
                st)
      | Raise e => (Raise e, st)
      end.

(** [update(document)] as the class defines it: no updater is plugged
    in. *)
Definition update (document : option Document)
  : bool * option Document :=
  (false, None).

(** [_update_status(document)], for the [update] method in force. *)
Definition _update_status
    (update : option Document -> bool * option Document)
    (st : State) (document : option Document)
  : Result (option Document) * State :=
  let '(status, doc) := update document in
  let st :=
    {| path := path st; config := config st;
       update_calls := update_calls st ++ [document] |} in
  if negb status
  then (Raise (ConfigurationException
                 "Configuration could not be updated."), st)
  else (Ok doc, st).

(** The loop of [_load_config_items]. *)
Fixpoint load_profiles (profile_elements : list Element) (st : State)
  : Result unit * State :=
  match profile_elements with
  | [] => (Ok tt, st)
  | profile_element :: rest =>
      match ProfileSerializer.read_xml profile_element with
      | Ok (Some profile) =>
          load_profiles rest
            (with_config st (add_profile (config st) profile))
      | Ok None => load_profiles rest st
      | Raise e => (Raise e, st)
      end
  end.

Definition _load_config_items (element : option Element) (st : State)
  : Result unit * State :=
  match element with
  | Some element => load_profiles (elementsByTagName element "Profile") st
  | None => (Ok tt, st)
  end.

(** Operations on a possibly null element. *)
Definition null_hasAttribute (e : option Element) (name : string) : bool :=
  match e with Some e => hasAttribute e name | None => false end.

Definition null_attribute (e : option Element) (name : string) : string :=
  match e with Some e => attribute e name "" | None => "" end.

(** [document.documentElement()] of a variable that may hold [None]. *)
Definition root_of (document : option Document)
  : Result (option Element) :=
  match document with
  | Some d => Ok (documentElement d)
  | None => Raise (AttributeError
                     "'NoneType' object has no attribute 'documentElement'")
  end.

(** [read_xml(document)], for the [update] method in force. *)
Definition read_xml
    (update : option Document -> bool * option Document)
    (st : State) (document : Document) : Result unit * State :=
  let st := with_config st (_clear (config st)) in
  let doc_element := documentElement document in
  let document := Some document in
  let step1 :=
    match doc_element with
    | None => _update_status update st document
    | Some _ => (Ok document, st)
    end in
  match step1 with
  | (Raise e, st) => (Raise e, st)
  | (Ok document, st) =>
  let step2 :=
    if negb (null_hasAttribute doc_element "version")
    then _update_status update st document
    else (Ok document, st) in
  match step2 with
  | (Raise e, st) => (Raise e, st)
  | (Ok document, st) =>
  let config_version := null_attribute doc_element "version" in
  if negb (truthy config_version)
  then (Raise (ConfigurationException
                 "Error extracting version number from the configuration file."),
        st)
  else
  match py_float config_version with
  | None => (Raise (ValueError "could not convert string to float"), st)
  | Some config_version =>
  let step3 :=
    if float_lt config_version VERSION
    then _update_status update st document
    else (Ok document, st) in
  match step3 with
  | (Raise e, st) => (Raise e, st)
  | (Ok document, st) =>
  match root_of document with
  | Raise e => (Raise e, st)
  | Ok doc_element => _load_config_items doc_element st
  end end end end end.

(** [load()], for the file found at the path. *)
Definition load
    (update : option Document -> bool * option Document)
    (st : State) (file : File) : Result unit * State :=
  match file with
  | Missing => (Raise (IOError "does not exist"), st)
  | Unreadable => (Raise (IOError "Cannot read configuration file."), st)
  | Malformed msg =>
      (Raise (ConfigurationException "Configuration file cannot be loaded."),
       st)
  | Parsed config_doc => read_xml update st config_doc
  end.

End Serializer.
End ConfigurationFileSerializer.

(** ** An instance of the collaborators

    Used to run the model on concrete documents. Floats are finite
    decimals, dates are the texts of the form the date helpers accept; the
    constants follow the names the serializers register. *)

Module Example.

(** The decimal [mantissa * 10 ^ - places]. *)
Record Decimal := { mantissa : Z; places : nat }.

Definition decimal_lt (a b : Decimal) : bool :=
  (mantissa a * 10 ^ Z.of_nat (places b)
   <? mantissa b * 10 ^ Z.of_nat (places a))%Z.

(** White space of the ASCII range, and a text without it at both ends. *)
Definition is_space (c : ascii) : bool :=
  let n := N_of_ascii c in
  (n =? 32)%N || ((9 <=? n)%N && (n <=? 13)%N)
  || ((28 <=? n)%N && (n <=? 31)%N).

Fixpoint lstrip (s : string) : string :=
  match s with
  | String c r => if is_space c then lstrip r else s
  | EmptyString => EmptyString
  end.

Fixpoint rstrip (s : string) : string :=
  match s with
  | EmptyString => EmptyString
  | String c r =>
      match rstrip r with
      | EmptyString => if is_space c then EmptyString
                       else String c EmptyString
      | r' => String c r'
      end
  end.

Definition strip (s : string) : string := rstrip (lstrip s).

(** [int] beyond the plain literals, on the texts the examples use: white
    space of the ASCII range around a literal is passed over, any other
    ASCII text is an invalid literal, and a text with a character beyond
    ASCII is taken as unencodable. Python also converts the digits and
    passes over the white space of other scripts; no example of this file
    converts such a text, and no general statement depends on this
    instance. *)
Definition int_of_padded (s : string) : Py.IntOutcome :=
  if negb (Py.ascii_only s) then Py.Unencodable
  else match Py.literal (strip s) with
       | Some z => Py.Converted z
       | None => Py.InvalidLiteral
       end.

Fixpoint split_dot (s : string) : string * option string :=
  match s with
  | EmptyString => (EmptyString, None)
  | String c r =>
      if Ascii.eqb c "." then (EmptyString, Some r)
      else let '(a, b) := split_dot r in (String c a, b)
  end.

Definition unsigned_decimal (s : string) : option Decimal :=
  match split_dot s with
  | (whole, None) =>
      (fun m => {| mantissa := m; places := 0 |}) <$> Py.digits whole
  | (whole, Some fraction) =>
      w ← Py.digits whole;
      f ← Py.digits_from 0 fraction;
      Some {| mantissa := w * 10 ^ Z.of_nat (String.length fraction) + f;
              places := String.length fraction |}
  end.

Definition decimal_of_string (s : string) : option Decimal :=
  match strip s with
  | String "-" r =>
      (fun d => {| mantissa := - mantissa d; places := places d |})
        <$> unsigned_decimal r
  | String "+" r => unsigned_decimal r
  | r => unsigned_decimal r
  end.

Fixpoint zeros (n : nat) : string :=
  match n with
  | O => EmptyString
  | S k => String "0" (zeros k)
  end.

Definition str_decimal (d : Decimal) : string :=
  let m := Z.abs (mantissa d) in
  let unit := (10 ^ Z.of_nat (places d))%Z in
  let whole := Py.str_int (m / unit) in
  let fraction := Py.str_int (m mod unit) in
  let fraction :=
    match places d with
    | O => "0"
    | k => (zeros (k - String.length fraction) ++ fraction)%string
    end in
  ((if (mantissa d <? 0)%Z then "-" else "") ++ whole ++ "." ++ fraction)%string.

(** [matches pattern s]: [s] has the shape of [pattern], where [d] stands
    for a digit and any other character for itself. *)
Fixpoint matches (pattern s : string) : bool :=
  match pattern, s with
  | EmptyString, EmptyString => true
  | String p pr, String c r =>
      (if Ascii.eqb p "d" then
         match Py.digit_of c with Some _ => true | None => false end
       else Ascii.eqb p c) && matches pr r
  | _, _ => false
  end.

Definition text_of_shape (pattern s : string) : option string :=
  if matches pattern s then Some s else None.

#[global] Instance scalars : Scalars := {|
  float := Decimal;
  date := string;
  datetime := string
|}.

#[global] Instance env : External := {|
  int_beyond_literal := int_of_padded;
  py_float := decimal_of_string;
  float_lt := decimal_lt;
  str_float := str_decimal;
  date_from_string := text_of_shape "dddd-dd-dd";
  str_date := id;
  datetime_from_string := text_of_shape "dddd-dd-dd dd:dd:dd";
  str_datetime := id;
  VERSION := {| mantissa := 12; places := 1 |};
  ForeignKeyColumn_TYPE_INFO := "FOREIGN_KEY";
  column_type := fun tag =>
    match ColumnSerializerCollection.handler tag with
    | Some _ => true
    | None => false
    end;
  entity_default := fun key =>
    match key with
    | "create_id_column" | "supports_documents" | "user_editable" => true
    | _ => false
    end;
  entity_name := fun profile_name short_name => short_name;
  relation_gen_name := fun parent parent_column child child_column =>
    ("fk_" ++ parent ++ "_" ++ parent_column ++ "_" ++ child ++ "_"
       ++ child_column)%string;
  ADMIN_SPATIAL_UNIT_NAME := "admin_spatial_unit";
  association_name := fun entity column => (entity ++ "_" ++ column)%string;
  valid := valid_by_short_names
|}.

(** Shorthand for writing documents. *)
Definition el (tag : string) (attrs : list (string * string))
    (children : list Element) : Element :=
  Elem tag (list_to_map attrs) children.

(** A profile element: one value list with an empty code value, the
    entity [parcel] whose foreign key column names the relation
    [parcel_owner], declared before its parent [party]. The columns of
    [parcel] also hold an integer column with a minimum that is no number,
    a column of an unknown kind and a column without a name. *)
Definition area_column : Element :=
  el "Column" [("TYPE_INFO", "BIGINT"); ("name", "area");
               ("minimum", "abc"); ("maximum", "100")] [].

Definition tags_column : Element :=
  el "Column" [("TYPE_INFO", "HSTORE"); ("name", "tags")] [].

Definition owner_column : Element :=
  el "Column" [("TYPE_INFO", "FOREIGN_KEY"); ("name", "owner_id")]
    [el "Relation" [("name", "parcel_owner")] []].

Definition nameless_column : Element :=
  el "Column" [("TYPE_INFO", "TEXT"); ("description", "no name")] [].

Definition parcel_attrs : list (string * string) :=
  [("shortName", "parcel"); ("global", "False"); ("proxy", "False");
   ("createId", "True"); ("supportsDocuments", "True");
   ("associative", "False"); ("editable", "True");
   ("description", "Land parcel")].

Definition parcel_element : Element :=
  el "Entity" parcel_attrs
    [el "Columns" []
       [area_column; tags_column; owner_column; nameless_column]].

(** [parcel_element] without the column of an unknown kind, and without
    the column that has no name. *)
Definition parcel_without_tags : Element :=
  el "Entity" parcel_attrs
    [el "Columns" [] [area_column; owner_column; nameless_column]].

Definition parcel_without_nameless : Element :=
  el "Entity" parcel_attrs
    [el "Columns" [] [area_column; tags_column; owner_column]].

Definition party_element : Element :=
  el "Entity" [("shortName", "party"); ("description", "Party")]
    [el "Columns" []
       [el "Column" [("TYPE_INFO", "VARCHAR"); ("name", "surname");
                     ("maximum", "50")] []]].

Definition owner_relation : Element :=
  el "EntityRelation"
    [("name", "parcel_owner"); ("parent", "party"); ("parentColumn", "id");
     ("child", "parcel"); ("childColumn", "owner_id")] [].

Definition profile_element : Element :=
  el "Profile" [("name", "default")]
    [parcel_element;
     el "ValueLists" []
       [el "ValueList" [("name", "status")]
          [el "CodeValue" [("code", "1"); ("value", "Active")] [];
           el "CodeValue" [("code", ""); ("value", "")] []]];
     party_element;
     el "Relations" [] [owner_relation];
     el "SocialTenure" [("party", "party"); ("spatialUnit", "parcel");
                        ("tenureTypeList", "tenure")] []].

(** A profile element with two value lists groups. *)
Definition two_groups_element : Element :=
  el "Profile" [("name", "default")]
    [el "ValueLists" []
       [el "ValueList" [("name", "status")]
          [el "CodeValue" [("code", "1"); ("value", "Active")] []]];
     el "ValueLists" []
       [el "ValueList" [("name", "gender")]
          [el "CodeValue" [("code", "F"); ("value", "Female")] []]];
     party_element].

Definition relation_index : gmap string Element :=
  {[ "parcel_owner" := owner_relation ]}.

Definition empty_entity (name : string) : Entity :=
  {| ent_short_name := name; ent_optional_args := ∅;
     ent_is_associative := None; ent_user_editable := None;
     ent_description := ""; ent_columns := [] |}.

(** A profile holding [party] and [parcel]. *)
Definition two_entities : Profile :=
  add_entity
    (add_entity (new_profile "default") (AnEntity (empty_entity "party")))
    (AnEntity (empty_entity "parcel")).

(** An in-memory profile with one entity that is no proxy and creates its
    identifier column, and with its social tenure set. *)
Definition party_entity : Entity :=
  {| ent_short_name := "party";
     ent_optional_args :=
       <["is_global" := false]>
         (<["is_proxy" := false]>
            (<["create_id_column" := true]>
               (<["supports_documents" := true]> ∅)));
     ent_is_associative := Some false;
     ent_user_editable := Some true;
     ent_description := "Party";
     ent_columns := [] |}.

Definition party_profile : Profile :=
  {| prf_name := "default";
     prf_added := [AnEntity party_entity];
     prf_relations := [];
     prf_social_tenure :=
       {| st_party := Some "party"; st_spatial_unit := Some "party";
          st_tenure_type_collection := Some "tenure" |} |}.

(** An in-memory profile with a value list that holds an empty value, an
    association entity and an entity. *)
Definition status_list : ValueList :=
  {| vl_short_name := "status";
     vl_values := [ {| cv_code := "1"; cv_value := "Active" |};
                    {| cv_code := ""; cv_value := "" |} ] |}.

Definition status_profile : Profile :=
  {| prf_name := "default";
     prf_added :=
       [AnEntity party_entity;
        AnAssociation {| ae_short_name := "party_parcel";
                         ae_first_parent := "party";
                         ae_second_parent := "parcel" |};
        AValueList status_list];
     prf_relations := [];
     prf_social_tenure :=
       {| st_party := Some "party"; st_spatial_unit := Some "party";
          st_tenure_type_collection := Some "tenure" |} |}.

(** A profile element whose entity holds a geometry column with a spatial
    reference that is no number. *)
Definition broken_profile_element : Element :=
  el "Profile" [("name", "broken")]
    [el "Entity" [("shortName", "plot")]
       [el "Columns" []
          [el "Column" [("TYPE_INFO", "GEOMETRY"); ("name", "shape")]
             [el "Geometry" [("srid", "wgs84"); ("type", "2")] []]]]].

(** A text with a character beyond ASCII: the letter E with an acute
    accent, in its UTF-8 encoding, between ASCII letters. *)
Definition accented : string :=
  String "D" (String "U" (String "R"
    (String (ascii_of_nat 195) (String (ascii_of_nat 137) "E")))).

(** A profile element one of whose entity elements holds, in its column
    group, a child whose tag name has a character beyond ASCII. *)
Definition accented_profile_element : Element :=
  el "Profile" [("name", "accented")]
    [el "Entity" [("shortName", "plot")]
       [el "Columns" []
          [el "Column" [("TYPE_INFO", "TEXT"); ("name", "note")] [];
           el accented [] []]]].

(** Documents of version 1.0 and 1.2 around [profile_element]. *)
Definition document_of_version (version : string) : Document :=
  {| documentElement :=
       Some (el "Configuration" [("version", version)] [profile_element]) |}.

(** Column elements of the geometry and the multiple select kind, and an
    index of associations. *)
Definition shape_column : Element :=
  el "Column" [("TYPE_INFO", "GEOMETRY"); ("name", "shape")]
    [el "Geometry" [("srid", "wgs84"); ("type", "2")] []].

Definition crops_column : Element :=
  el "Column" [("TYPE_INFO", "MULTIPLE_SELECT"); ("name", "crops")]
    [el "associationEntity" [("name", "parcel_crops")] []].

Definition association_index : gmap string Element :=
  {[ "parcel_crops" :=
       el "Association"
         [("name", "parcel_crops"); ("shortName", "parcel_crops");
          ("firstParent", "crop_type"); ("secondParent", "parcel")] [] ]}.

(** The columns of an entity [plot]: an integer column with both bounds,
    a geometry column, and a foreign key column with its relation. *)
Definition area_of_plot : Column :=
  {| col_TYPE_INFO := "BIGINT";
     col_args := [ArgName "area"; ArgEntity "plot"];
     col_kwargs :=
       {| kw_description := "Area"; kw_index := false; kw_mandatory := true;
          kw_searchable := false; kw_unique := false;
          kw_user_tip := "in hectares";
          kw_minimum := Some (BInt (-5)%Z); kw_maximum := Some (BInt 100%Z);
          kw_srid := None; kw_entity_relation := None;
          kw_first_parent := None |} |}.

Definition shape_of_plot : Column :=
  {| col_TYPE_INFO := "GEOMETRY";
     col_args := [ArgName "shape"; ArgEntity "plot"; ArgGeomType 2%Z];
     col_kwargs :=
       {| kw_description := ""; kw_index := true; kw_mandatory := false;
          kw_searchable := false; kw_unique := false; kw_user_tip := "";
          kw_minimum := None; kw_maximum := None;
          kw_srid := Some 4326%Z; kw_entity_relation := None;
          kw_first_parent := None |} |}.

Definition owner_of_plot : Column :=
  {| col_TYPE_INFO := "FOREIGN_KEY";
     col_args := [ArgName "owner_id"; ArgEntity "plot"];
     col_kwargs :=
       {| kw_description := ""; kw_index := false; kw_mandatory := false;
          kw_searchable := false; kw_unique := false; kw_user_tip := "";
          kw_minimum := None; kw_maximum := None; kw_srid := None;
          kw_entity_relation :=
            Some {| er_name := "plot_owner"; er_parent := "party";
                    er_parent_column := "id"; er_child := "plot";
                    er_child_column := "owner_id" |};
          kw_first_parent := None |} |}.

Definition plot_entity (columns : list Column) : Entity :=
  {| ent_short_name := "plot"; ent_optional_args := ∅;
     ent_is_associative := None; ent_user_editable := None;
     ent_description := "Plot"; ent_columns := columns |}.

(** An in-memory profile with a value list, an association entity, and
    the entities [party] and [plot], the latter with an integer and a
    geometry column. *)
Definition plot_profile : Profile :=
  {| prf_name := "default";
     prf_added :=
       [AnEntity party_entity;
        AnAssociation {| ae_short_name := "party_plot";
                         ae_first_parent := "party";
                         ae_second_parent := "plot" |};
        AValueList status_list;
        AnEntity
          (plot_entity
             [area_of_plot; shape_of_plot])];
     prf_relations := [];
     prf_social_tenure :=
       {| st_party := Some "party"; st_spatial_unit := Some "plot";
          st_tenure_type_collection := Some "tenure" |} |}.

(** [plot_profile] with a relation from [plot] to [party], held under a
    name of its own. *)
Definition owned_profile : Profile :=
  {| prf_name := prf_name plot_profile;
     prf_added := prf_added plot_profile;
     prf_relations :=
       [ {| er_name := "plot_owner"; er_parent := "party";
            er_parent_column := "id"; er_child := "plot";
            er_child_column := "owner_id" |} ];
     prf_social_tenure := prf_social_tenure plot_profile |}.

(** Column elements whose type tag has that character, with and without
    a name. *)
Definition accented_column : Element :=
  el "Column" [("TYPE_INFO", accented); ("name", "span")] [].



(** A text column element that carries a Geometry child no geometry
    reader would accept. *)
Definition note_column : Element :=
  el "Column" [("TYPE_INFO", "TEXT"); ("name", "note"); ("index", "true")]
    [el "Geometry" [("srid", "wgs84")] []].

End Example.

(** ** Notions the statements use *)

(** The column type tags the specification calls the foreign key family:
    the foreign key kind with its lookup and administrative spatial unit
    specializations. *)
Definition spec_foreign_key_family : list string :=
  ["FOREIGN_KEY"; "LOOKUP"; "ADMIN_SPATIAL_UNIT"].

Module ColumnFacts.
Section Notions.
Context {Sc : Scalars} {Ext : External}.
Import ColumnSerializerCollection.

(** The keyword arguments every column read starts from. *)
Definition common_kwargs (element : Element) : Kwargs :=
  {| kw_description := attribute element DESCRIPTION "";
     kw_index := _str_to_bool (attribute element INDEX "False");
     kw_mandatory := _str_to_bool (attribute element MANDATORY "False");
     kw_searchable := _str_to_bool (attribute element SEARCHABLE "False");
     kw_unique := _str_to_bool (attribute element UNIQUE "False");
     kw_user_tip := attribute element USER_TIP "";
     kw_minimum := None; kw_maximum := None; kw_srid := None;
     kw_entity_relation := None; kw_first_parent := None |}.

(** The bound an attribute contributes: the converted text when the
    attribute is present and converts. *)
Definition bound_of (cls : Serializer) (element : Element) (key : string)
  : option Bound :=
  if hasAttribute element key then
    match _convert_bounds_type cls (attribute element key "") with
    | Ok b => Some b
    | Raise _ => None
    end
  else None.

(** The keyword arguments once both bounds were tried. *)
Definition bounded_kwargs (cls : Serializer) (element : Element) : Kwargs :=
  let kw := common_kwargs element in
  let kw := match bound_of cls element MINIMUM with
            | Some b => set_minimum kw b
            | None => kw
            end in
  match bound_of cls element MAXIMUM with
  | Some b => set_maximum kw b
  | None => kw
  end.

(** The attribute [key] of the element is present and its text fails the
    bound conversion of the class, with a [ValueError]. *)
Definition bound_fails (cls : Serializer) (element : Element) (key : string)
  : Prop :=
  hasAttribute element key = true
  /\ exists e,
       _convert_bounds_type cls (attribute element key "") = Raise e
       /\ is_ValueError e = true.

(** The relation the index and the profile offer to a column element: the
    element names it in a Relation child, the index holds it under that
    name, and its reconstruction is valid in the profile. *)
Definition offered_relation (element : Element) (profile : Profile)
    (R : gmap string Element) (er : EntityRelation) : Prop :=
  exists relation_el er_element,
    firstChildElement element "Relation" = Some relation_el
    /\ R !! attribute relation_el "name" "" = Some er_element
    /\ er = EntityRelationSerializer.read_xml er_element
    /\ valid profile er = true.

(** What [int] rejects of the Geometry child of a column element: the
    exception of its type when [int] rejects the type, else that of its
    SRID when [int] rejects the SRID; an absent attribute reads as its
    default. *)
Definition geometry_error (element : Element) : option Exception :=
  match firstChildElement element "Geometry" with
  | Some geom_el =>
      match int (attribute geom_el "type" "2") with
      | Raise e => Some e
      | Ok _ =>
          match int (attribute geom_el "srid" "4326") with
          | Raise e => Some e
          | Ok _ => None
          end
      end
  | None => None
  end.

(** The exception the column reader ends with on an element: that of
    [str] on a type tag beyond ASCII, or that of [int] on the Geometry
    child of a named geometry element. *)
Definition column_error (element : Element) : option Exception :=
  match Py.str (type_info element) with
  | Raise e => Some e
  | Ok _ =>
      if String.eqb (type_info element) "GEOMETRY"
         && truthy (attribute element "name" "")
      then geometry_error element
      else None
  end.

(** A column element the reader builds a column from: its kind has a
    serializer and a column class, it has a name, and it is no geometry
    element whose Geometry child is rejected. *)
Definition builds_column (element : Element) : bool :=
  match handler (type_info element), column_error element with
  | Some _, None =>
      truthy (attribute element "name" "")
      && column_type (type_info element)
  | _, _ => false
  end.

(** The constructor call the reader makes for a column element in an
    entity of the given short name: the type tag of the element, and the
    arguments its class makes of the name, the entity and the keyword
    arguments once both bounds were tried. There is none when the reader
    makes no call. *)
Definition built_column (element : Element) (short_name : string)
    (profile : Profile) (A R : gmap string Element) : option Column :=
  match handler (type_info element) with
  | Some cls =>
      if truthy (attribute element NAME "")
         && column_type (type_info element)
      then
        match _obj_args cls
                [ArgName (attribute element NAME ""); ArgEntity short_name]
                (bounded_kwargs cls element) element profile A R with
        | Ok (args, kw) =>
            Some {| col_TYPE_INFO := type_info element;
                    col_args := args; col_kwargs := kw |}
        | Raise _ => None
        end
      else None
  | None => None
  end.

(** The first parent the index of associations offers to a column element:
    the element names an association in an associationEntity child, the
    index holds it under that name, and its firstParent text is not
    empty. *)
Definition offered_first_parent (element : Element)
    (A : gmap string Element) (first_parent : string) : Prop :=
  exists assoc_el association_element,
    firstChildElement element "associationEntity" = Some assoc_el
    /\ A !! attribute assoc_el "name" "" = Some association_element
    /\ first_parent = attribute association_element "firstParent" ""
    /\ first_parent <> "".

(** The classes that inherit [_obj_args] and [_write_xml] unchanged. *)
Definition plain (cls : Serializer) : bool :=
  match cls with
  | GeometryColumnSerializer | ForeignKeyColumnSerializer
  | LookupColumnSerializer | AdminSpatialUnitColumnSerializer
  | MultipleSelectColumnSerializer => false
  | _ => true
  end.

(** A bound [str] prints: any but a text with a character beyond
    ASCII. *)
Definition printable (b : option Bound) : bool :=
  match b with
  | Some (BText s) => ascii_only s
  | _ => true
  end.

(** A column both of whose bounds [str] prints. *)
Definition printable_bounds (column : Column) : bool :=
  printable (kw_minimum (col_kwargs column))
  && printable (kw_maximum (col_kwargs column)).

(** The text of a bound, which is what [str] gives when it returns. *)
Definition printed (b : Bound) : string :=
  match b with
  | BInt z => str_int z
  | BFloat f => str_float f
  | BDate d => str_date d
  | BDateTime d => str_datetime d
  | BText s => s
  end.

(** A bound, when the column has one, whose text the class converts back
    to it. *)
Definition bound_reads_back (cls : Serializer) (b : option Bound) : Prop :=
  match b with
  | Some b => _convert_bounds_type cls (printed b) = Ok b
  | None => True
  end.

(** The constructor call of a column of a plain class: name, owning
    entity, and the keyword arguments every read sets besides the
    bounds. *)
Definition plain_column (cls : Serializer) (name short_name : string)
    (kw : Kwargs) : Column :=
  {| col_TYPE_INFO := COLUMN_TYPE_INFO cls;
     col_args := [ArgName name; ArgEntity short_name];
     col_kwargs :=
       {| kw_description := kw_description kw; kw_index := kw_index kw;
          kw_mandatory := kw_mandatory kw;
          kw_searchable := kw_searchable kw; kw_unique := kw_unique kw;
          kw_user_tip := kw_user_tip kw;
          kw_minimum := kw_minimum kw; kw_maximum := kw_maximum kw;
          kw_srid := None; kw_entity_relation := None;
          kw_first_parent := None |} |}.

(** The constructor call of a geometry column. *)
Definition geometry_column (name short_name : string) (geom_type srid : Z)
    (kw : Kwargs) : Column :=
  {| col_TYPE_INFO := "GEOMETRY";
     col_args := [ArgName name; ArgEntity short_name; ArgGeomType geom_type];
     col_kwargs :=
       {| kw_description := kw_description kw; kw_index := kw_index kw;
          kw_mandatory := kw_mandatory kw;
          kw_searchable := kw_searchable kw; kw_unique := kw_unique kw;
          kw_user_tip := kw_user_tip kw;
          kw_minimum := kw_minimum kw; kw_maximum := kw_maximum kw;
          kw_srid := Some srid; kw_entity_relation := None;
          kw_first_parent := None |} |}.

(** The element [write_xml] builds before the class adds its own part,
    when the bounds are printable. *)
Definition general_element (cls : Serializer) (column : Column) : Element :=
  let kw := col_kwargs column in
  let col_element := createElement TAG_NAME in
  let col_element :=
    setAttribute col_element "TYPE_INFO" (COLUMN_TYPE_INFO cls) in
  let col_element :=
    setAttribute col_element DESCRIPTION (kw_description kw) in
  let col_element := setAttribute col_element NAME (col_name column) in
  let col_element :=
    setAttribute col_element INDEX (str_bool (kw_index kw)) in
  let col_element :=
    setAttribute col_element MANDATORY (str_bool (kw_mandatory kw)) in
  let col_element :=
    setAttribute col_element SEARCHABLE (str_bool (kw_searchable kw)) in
  let col_element :=
    setAttribute col_element UNIQUE (str_bool (kw_unique kw)) in
  let col_element := setAttribute col_element USER_TIP (kw_user_tip kw) in
  let col_element :=
    match kw_minimum kw with
    | Some b => setAttribute col_element MINIMUM (printed b)
    | None => col_element
    end in
  match kw_maximum kw with
  | Some b => setAttribute col_element MAXIMUM (printed b)
  | None => col_element
  end.

Definition read_back_kwargs (kw : Kwargs) : Kwargs :=
  {| kw_description := kw_description kw; kw_index := kw_index kw;
     kw_mandatory := kw_mandatory kw;
     kw_searchable := kw_searchable kw; kw_unique := kw_unique kw;
     kw_user_tip := kw_user_tip kw;
     kw_minimum := kw_minimum kw; kw_maximum := kw_maximum kw;
     kw_srid := None; kw_entity_relation := None;
     kw_first_parent := None |}.

(** The type of bound a class converts to. *)
Inductive BoundType :=
| IntBound | FloatBound | DateBound | DateTimeBound | TextBound.

Definition bound_type (cls : Serializer) : BoundType :=
  match cls with
  | VarCharColumnSerializer | TextColumnSerializer
  | IntegerColumnSerializer => IntBound
  | DoubleColumnSerializer => FloatBound
  | DateColumnSerializer => DateBound
  | DateTimeColumnSerializer => DateTimeBound
  | _ => TextBound
  end.

(** A bound of the type the class converts to; where the conversion is a
    helper outside this module, the helper reads what [str] prints. *)
Definition bound_survives (cls : Serializer) (b : Bound) : Prop :=
  match bound_type cls, b with
  | IntBound, BInt _ => True
  | FloatBound, BFloat f => py_float (str_float f) = Some f
  | DateBound, BDate d => date_from_string (str_date d) = Some d
  | DateTimeBound, BDateTime d =>
      datetime_from_string (str_datetime d) = Some d
  | TextBound, BText _ => True
  | _, _ => False
  end.

Definition bounds_survive (cls : Serializer) (kw : Kwargs) : Prop :=
  (forall b, kw_minimum kw = Some b -> bound_survives cls b)
  /\ (forall b, kw_maximum kw = Some b -> bound_survives cls b).

(** A column the writer and the reader agree on: a named column of a
    registered class that adds nothing of its own, or of the geometry
    class with its type and SRID, whose bounds survive. *)
Definition storable (short_name : string) (column : Column) : Prop :=
  exists cls name kw,
    cls <> TextColumnSerializer0
    /\ name <> ""
    /\ column_type (COLUMN_TYPE_INFO cls) = true
    /\ bounds_survive cls kw
    /\ ((plain cls = true /\ column = plain_column cls name short_name kw)
        \/ (cls = GeometryColumnSerializer
            /\ exists geom_type srid,
                 column = geometry_column name short_name geom_type srid kw)).

(** A column the writer emits with the type tag that defers its entity on
    reading: its kind is registered and its tag is the foreign key one. *)
Definition written_with_dependency (column : Column) : bool :=
  match handler (col_TYPE_INFO column) with
  | Some _ => String.eqb (col_TYPE_INFO column) ForeignKeyColumn_TYPE_INFO
  | None => false
  end.

(** The keyword arguments every kind passes on as read. *)
Definition same_general (kw kw' : Kwargs) : Prop :=
  kw_description kw' = kw_description kw
  /\ kw_index kw' = kw_index kw
  /\ kw_mandatory kw' = kw_mandatory kw
  /\ kw_searchable kw' = kw_searchable kw
  /\ kw_unique kw' = kw_unique kw
  /\ kw_user_tip kw' = kw_user_tip kw
  /\ kw_minimum kw' = kw_minimum kw
  /\ kw_maximum kw' = kw_maximum kw.

End Notions.
End ColumnFacts.

Module LoaderFacts.
Section Notions.
Context {Sc : Scalars} {Ext : External}.
Import EntitySerializerCollection.

(** The value list elements of a profile element: the elements of that tag
    below its first value lists group, in document order. *)
Definition value_list_elements (element : Element) : list Element :=
  match firstChildElement element "ValueLists" with
  | Some value_lists_el => elementsByTagName value_lists_el "ValueList"
  | None => []
  end.

(** The entity elements of a profile element, in document order. *)
Definition entity_elements (element : Element) : list Element :=
  List.filter (fun c => String.eqb (tagName c) "Entity") (childNodes element).

(** Those without a dependency, and those with one. *)
Definition immediate_elements (element : Element) : list Element :=
  List.filter (fun c => negb (ItemSerializer.has_dependency EntitySerializer c))
    (entity_elements element).

Definition queued_elements (element : Element) : list Element :=
  List.filter (fun c => ItemSerializer.has_dependency EntitySerializer c)
    (entity_elements element).

(** The names under which the elements of a list are added: the non-empty
    values of the naming attribute. *)
Definition names_of (key : string) (elements : list Element) : list string :=
  List.filter truthy (map (fun el => attribute el key "") elements).

(** The short names of the objects added to a profile, in the order of
    their addition. *)
Definition added_names (profile : Profile) : list string :=
  map short_name (prf_added profile).

(** The children of a profile element the reader passes over: an entity
    element without a short name, and an element that is neither an entity
    nor one of the groups and blocks the reader looks for. *)
Definition ignored_child (c : Element) : bool :=
  if String.eqb (tagName c) "Entity"
  then negb (truthy (attribute c "shortName" ""))
  else negb (existsb (String.eqb (tagName c))
               ["ValueLists"; "Relations"; "Associations"; "SocialTenure"]).

(** No object of the profile is an association entity. *)
Definition no_association (profile : Profile) : Prop :=
  Forall (fun x => match x with AnAssociation _ => False | _ => True end)
    (prf_added profile).

(** The name of the profile and the absence of association entities, kept
    by every step of the reader. *)
Definition named_without_association (name : string) (p : Profile) : Prop :=
  prf_name p = name /\ no_association p.

(** Writing a profile below a fresh parent and reading back the profile
    element written. *)
Definition round_trip (profile : Profile) : Result (option Profile) :=
  parent ←
    ProfileSerializer.write_xml profile (createElement "Configuration");
  match childNodes parent with
  | [profile_element] => ProfileSerializer.read_xml profile_element
  | _ => Raise (ValueError "one profile element expected")
  end.

(** The proxy flag of each entity added to a profile. *)
Definition proxy_flags (profile : Profile) : list (string * bool) :=
  omap (fun x => match x with
                 | AnEntity e => Some (ent_short_name e, is_proxy e)
                 | _ => None
                 end) (prf_added profile).

End Notions.
End LoaderFacts.

Module WriterFacts.
Section Notions.
Context {Sc : Scalars} {Ext : External}.

(** The element the value list writer builds for a code value and for a
    value list, before it goes into the group. *)
Definition code_value_element (cv : CodeValue) : Element :=
  setAttribute
    (setAttribute (createElement ValueListSerializer.CODE_VALUE_TAG)
       ValueListSerializer.CV_VALUE (cv_value cv))
    ValueListSerializer.CV_CODE (cv_code cv).

Definition value_list_element (v : ValueList) : Element :=
  fold_left (fun el cv => appendChild el (code_value_element cv))
    (vl_values v)
    (setAttribute (createElement ValueListSerializer.TAG_NAME) "name"
       (vl_short_name v)).

(** A value list as it is read: the code values with an empty value are
    left out. *)
Definition kept_values (v : ValueList) : ValueList :=
  {| vl_short_name := vl_short_name v;
     vl_values := List.filter (fun cv => truthy (cv_value cv)) (vl_values v) |}.

(** The code values a value list element holds: those of its CodeValue
    descendants whose value is not empty, in document order. *)
Definition code_values_of (value_list_el : Element) : list CodeValue :=
  map (fun cd_el =>
         {| cv_code := attribute cd_el ValueListSerializer.CV_CODE "";
            cv_value := attribute cd_el ValueListSerializer.CV_VALUE "" |})
    (List.filter
       (fun cd_el => truthy (attribute cd_el ValueListSerializer.CV_VALUE ""))
       (elementsByTagName value_list_el ValueListSerializer.CODE_VALUE_TAG)).

Definition is_value_list (x : EntityLike) : option ValueList :=
  match x with AValueList v => Some v | _ => None end.

(** The value lists among the objects of a profile, as the writer meets
    them. *)
Definition value_lists_of (profile : Profile) : list ValueList :=
  omap is_value_list (entities profile).*2.

(** The value lists a profile element holds in its group. *)
Definition group_holds (pe : Element) (vls : list ValueList) : Prop :=
  match firstChildElement pe "ValueLists" with
  | Some g => exists t a, g = Elem t a (map value_list_element vls)
  | None => vls = []
  end.

(** The number of children of an element that carry a tag. *)
Definition count_tag (tag : string) (e : Element) : nat :=
  length (List.filter (fun c => String.eqb (tagName c) tag) (childNodes e)).

(** The entity element the writer builds, before its columns. *)
Definition entity_attributes_element (profile_name : string)
    (entity : Entity) : Element :=
  let entity_element := createElement EntitySerializer.TAG_NAME in
  let entity_element :=
    setAttribute entity_element EntitySerializer.GLOBAL
      (str_bool (is_global entity)) in
  let entity_element :=
    setAttribute entity_element EntitySerializer.SHORT_NAME
      (ent_short_name entity) in
  let entity_element :=
    setAttribute entity_element EntitySerializer.NAME
      (entity_name profile_name (ent_short_name entity)) in
  let entity_element :=
    setAttribute entity_element EntitySerializer.DESCRIPTION
      (ent_description entity) in
  let entity_element :=
    setAttribute entity_element EntitySerializer.ASSOCIATIVE
      (str_bool (is_associative entity)) in
  let entity_element :=
    setAttribute entity_element EntitySerializer.EDITABLE
      (str_bool (user_editable entity)) in
  let entity_element :=
    setAttribute entity_element EntitySerializer.CREATE_ID
      (str_bool (create_id_column entity)) in
  let entity_element :=
    setAttribute entity_element EntitySerializer.PROXY
      (str_bool (is_proxy entity)) in
  setAttribute entity_element EntitySerializer.SUPPORTS_DOCUMENTS
    (str_bool (supports_documents entity)).

(** The entity element the writer builds. *)
Definition entity_element (profile_name : string) (entity : Entity)
  : Element :=
  appendChild (entity_attributes_element profile_name entity)
    (match foldM EntitySerializer.write_column
             (EntitySerializer.columns_values entity)
             (createElement "Columns") with
     | Ok columns_element => columns_element
     | Raise _ => createElement "Columns"
     end).

(** An entity as the reader rebuilds it from the element the writer
    built: every flag is passed explicitly, the text of the
    identifier-column flag under the key of the proxy flag. *)
Definition read_back_entity (entity : Entity) : Entity :=
  {| ent_short_name := ent_short_name entity;
     ent_optional_args :=
       <["supports_documents" := supports_documents entity]>
         (<["is_proxy" := create_id_column entity]>
            (<["is_proxy" := is_proxy entity]>
               (<["is_global" := is_global entity]> ∅)));
     ent_is_associative := Some (is_associative entity);
     ent_user_editable := Some (user_editable entity);
     ent_description := ent_description entity;
     ent_columns := EntitySerializer.columns_values entity |}.

(** An entity the writer and the reader agree on, up to its flags. *)
Definition storable_entity (entity : Entity) : Prop :=
  ent_short_name entity <> ""
  /\ Forall (ColumnFacts.storable (ent_short_name entity))
       (EntitySerializer.columns_values entity).

Definition is_entity (x : EntityLike) : option Entity :=
  match x with AnEntity e => Some e | _ => None end.

(** The entities among the objects of a profile, as the writer meets
    them. *)
Definition entities_of (profile : Profile) : list Entity :=
  omap is_entity (entities profile).*2.

(** An entity whose written element the loader defers. *)
Definition deferred (entity : Entity) : bool :=
  existsb ColumnFacts.written_with_dependency (EntitySerializer.columns_values entity).

(** The short name the social tenure reader keeps: one that is set and
    not empty. *)
Definition non_empty (o : option string) : option string :=
  match o with
  | Some s => if truthy s then Some s else None
  | None => None
  end.

(** A profile as the reader rebuilds it from the element the writer
    built: the named value lists without their empty values, then the
    entities that are not deferred, then the deferred ones; no association
    entity, no relation, no tenure type list. *)
Definition read_back_profile (profile : Profile) : Profile :=
  {| prf_name := prf_name profile;
     prf_added :=
       map (fun v => AValueList (kept_values v))
         (List.filter (fun v => truthy (vl_short_name v))
            (value_lists_of profile))
       ++ map (fun e => AnEntity (read_back_entity e))
            (List.filter (fun e => negb (deferred e)) (entities_of profile)
             ++ List.filter deferred (entities_of profile));
     prf_relations := [];
     prf_social_tenure :=
       {| st_party := non_empty (st_party (prf_social_tenure profile));
          st_spatial_unit :=
            non_empty (st_spatial_unit (prf_social_tenure profile));
          st_tenure_type_collection := None |} |}.

(** Neither the element nor one of its descendants carries the tag. *)
Definition free_of (tag : string) (e : Element) : Prop :=
  String.eqb (tagName e) tag = false /\ elementsByTagName e tag = [].

(** The configuration a load leaves when it reads the document written
    for the profiles of a list: a profile without a name is left out, the
    others are registered as they read back. *)
Definition read_back_configuration (profiles : list Profile)
    (c : Configuration) : Configuration :=
  fold_left
    (fun c p => if truthy (prf_name p)
                then add_profile c (read_back_profile p)
                else c)
    profiles (_clear c).

(** The element the relation writer builds. *)
Definition relation_element (er : EntityRelation) : Element :=
  setAttribute
    (setAttribute
       (setAttribute
          (setAttribute
             (setAttribute (createElement EntityRelationSerializer.TAG_NAME)
                EntityRelationSerializer.NAME (er_name er))
             EntityRelationSerializer.PARENT (er_parent er))
          EntityRelationSerializer.PARENT_COLUMN (er_parent_column er))
       EntityRelationSerializer.CHILD (er_child er))
    EntityRelationSerializer.CHILD_COLUMN (er_child_column er).

(** A relation as the reader rebuilds it: the name is not read, the
    relation names itself from its four fields. *)
Definition self_named (er : EntityRelation) : EntityRelation :=
  {| er_name :=
       relation_gen_name (er_parent er) (er_parent_column er)
         (er_child er) (er_child_column er);
     er_parent := er_parent er;
     er_parent_column := er_parent_column er;
     er_child := er_child er;
     er_child_column := er_child_column er |}.

End Notions.
End WriterFacts.

Module ReaderFacts.
Section Notions.
Context {Sc : Scalars} {Ext : External}.
Variables A R : gmap string Element.

(** The exception the column loop of the entity reader ends with at a
    child of the column group: that of [str] on a tag name beyond ASCII,
    or that of the column reader on a Column element. *)
Definition column_element_error (ce : Element) : option Exception :=
  match Py.str (tagName ce) with
  | Raise e => Some e
  | Ok tag =>
      if String.eqb tag "Column" then ColumnFacts.column_error ce else None
  end.

(** The constructor calls the column loop makes, in document order, for
    an entity of the given short name. *)
Definition built_columns (ces : list Element) (short_name : string)
    (profile : Profile) : list Column :=
  omap (fun ce => ColumnFacts.built_column ce short_name profile A R)
    (List.filter (fun ce => String.eqb (tagName ce) "Column") ces).

(** The entity the reader builds from an entity element, for a profile:
    every flag the element carries as a non-empty text, the identifier
    column flag under the key of the proxy flag, and the columns built
    from its column elements. *)
Definition built_entity (el : Element) (profile : Profile) : Entity :=
  {| ent_short_name := attribute el "shortName" "";
     ent_optional_args :=
       EntitySerializer.set_flag "supports_documents"
         (attribute el "supportsDocuments" "")
         (EntitySerializer.set_flag "is_proxy" (attribute el "createId" "")
            (EntitySerializer.set_flag "is_proxy" (attribute el "proxy" "")
               (EntitySerializer.set_flag "is_global"
                  (attribute el "global" "") ∅)));
     ent_is_associative :=
       EntitySerializer.flag_attr (attribute el "associative" "");
     ent_user_editable :=
       EntitySerializer.flag_attr (attribute el "editable" "");
     ent_description := attribute el "description" "";
     ent_columns :=
       built_columns (EntitySerializer.column_elements el)
         (attribute el "shortName" "") profile |}.

(** The exception the entity reader ends with on an entity element: the
    first one its column loop meets, when the element has a short name. *)
Definition entity_error (el : Element) : option Exception :=
  if truthy (attribute el "shortName" "")
  then head (omap column_element_error (EntitySerializer.column_elements el))
  else None.

(** The exception the profile reader ends with on a profile element: that
    of the first entity element, in reading order, that has one, when the
    profile element has a name. *)
Definition profile_error (element : Element) : option Exception :=
  if truthy (attribute element "name" "")
  then head (omap entity_error
               (LoaderFacts.immediate_elements element
                ++ LoaderFacts.queued_elements element))
  else None.

(** A profile once a value list element was read: a named element adds
    the value list of its code values. *)
Definition with_value_list (profile : Profile) (el : Element) : Profile :=
  if truthy (attribute el "name" "")
  then add_entity profile
         (AValueList
            {| vl_short_name := attribute el "name" "";
               vl_values := WriterFacts.code_values_of el |})
  else profile.

(** A profile once an entity element was read without an exception: an
    element with a short name adds the entity built from it, for the
    profile as it stands. *)
Definition with_entity (profile : Profile) (el : Element) : Profile :=
  if truthy (attribute el "shortName" "")
  then add_entity profile (AnEntity (built_entity el profile))
  else profile.

(** The three phases of the reading of the entities of a profile
    element: the value list elements, the entity elements without
    dependency, the entity elements with one. *)
Definition three_phases (element : Element) (profile : Profile) : Profile :=
  fold_left with_entity
    (LoaderFacts.immediate_elements element
     ++ LoaderFacts.queued_elements element)
    (fold_left with_value_list (LoaderFacts.value_list_elements element)
       profile).

(** A profile of entities none of which is deferred, as the reader
    rebuilds it from the element the writer built: the named value lists
    without their empty values, then the entities in the order of the
    writer; no association entity, no relation, no tenure type list. *)
Definition read_back_in_order (profile : Profile) : Profile :=
  {| prf_name := prf_name profile;
     prf_added :=
       map (fun v => AValueList (WriterFacts.kept_values v))
         (List.filter (fun v => truthy (vl_short_name v))
            (WriterFacts.value_lists_of profile))
       ++ map (fun e => AnEntity (WriterFacts.read_back_entity e))
            (WriterFacts.entities_of profile);
     prf_relations := [];
     prf_social_tenure :=
       {| st_party :=
            WriterFacts.non_empty (st_party (prf_social_tenure profile));
          st_spatial_unit :=
            WriterFacts.non_empty
              (st_spatial_unit (prf_social_tenure profile));
          st_tenure_type_collection := None |} |}.

(** Every bound of every column of an entity is one [str] prints. *)
Definition printable_entity (entity : Entity) : bool :=
  forallb ColumnFacts.printable_bounds
    (EntitySerializer.columns_values entity).

End Notions.
End ReaderFacts.

(** ** Proofs *)

(** *** [_str_to_bool] *)

Lemma upper_ascii_T (c : ascii) :
  upper_ascii c = "T"%char <-> c = "t"%char \/ c = "T"%char.
Proof.
  destruct c as [[] [] [] [] [] [] [] []]; vm_compute;
    (split; [ intros E; first [ discriminate E | auto ]
            | intros [E | E]; first [ discriminate E | reflexivity ] ]).
Qed.

Lemma str_to_bool_cons (c : ascii) (r : string) :
  _str_to_bool (String c r) = Ascii.eqb (upper_ascii c) "T".
Proof.
  unfold _str_to_bool. destruct r as [| d r]; simpl.
  - destruct (Ascii.eqb (upper_ascii c) "T"); reflexivity.
  - destruct (Ascii.eqb (upper_ascii c) "T"); reflexivity.
Qed.

(** C6. A boolean attribute is read from the first character of its text
    alone, compared without regard to case with the marker T: the result is
    true exactly when the text starts with t or T, and the text False reads
    as false. *)
Theorem str_to_bool_first_character :
  forall s : string,
    _str_to_bool s = _str_to_bool (first_char s)
    /\ (_str_to_bool s = true
        <-> exists c r, s = String c r /\ (c = "t"%char \/ c = "T"%char))
    /\ _str_to_bool "False" = false.
Proof.
  intros s. split; [| split].
  - destruct s as [| c r]; [reflexivity |].
    simpl first_char. now rewrite !str_to_bool_cons.
  - destruct s as [| c r].
    + split; [discriminate | intros (c & r & E & _); discriminate E].
    + rewrite str_to_bool_cons. split.
      * intros E. apply Ascii.eqb_eq in E. apply upper_ascii_T in E.
        exists c, r. split; [reflexivity | exact E].
      * intros (c' & r' & E & Hc). injection E as -> ->.
        apply Ascii.eqb_eq. now apply upper_ascii_T.
  - reflexivity.
Qed.

(** *** [save] and the file extension *)

Import ConfigurationFileSerializer.

Lemma save_path_unchanged (p : string) : save_path p = p.
Proof. reflexivity. Qed.

Lemma save_keeps_path {Sc : Scalars} {Ext : External} (st : State)
    (is_null : bool) (can_open can_write : string -> bool) :
  path (snd (save st is_null can_open can_write)) = path st.
Proof.
  unfold save. destruct is_null; [reflexivity |].
  destruct (negb (truthy (path st))); [reflexivity |].
  rewrite save_path_unchanged. simpl.
  destruct (negb (can_open (path st))); [reflexivity |].
  destruct (write_xml _); [| reflexivity].
  destruct (can_write (path st)); reflexivity.
Qed.

(** C7, on a path with another suffix. Saving to [config.xml], whose suffix
    is not the configuration extension, writes to [config.xml] itself: the
    extension is not appended. *)
Theorem save_does_not_append_extension :
  let st := {| path := "config.xml";
               config := {| profiles := ∅ |};
               update_calls := [] |} in
  let outcome := save (Ext := Example.env) st false (fun _ => true)
                   (fun _ => true) in
  Py.lower (suffix (path st)) = "xml"
  /\ path (snd outcome) = "config.xml"
  /\ exists document, fst outcome = Ok ("config.xml", document).
Proof.
  cbv zeta. split; [reflexivity |]. split; [reflexivity |].
  eexists. vm_compute. reflexivity.
Qed.

(** *** Dependency-bearing entity elements *)

Import EntitySerializerCollection.

Section Dependency.
Context {Sc : Scalars} {Ext : External}.

Lemma py_in_dependency_flags (x : string) :
  EntitySerializer.py_in x EntitySerializer.DEPENDENCY_FLAGS = true
  <-> x = ForeignKeyColumn_TYPE_INFO.
Proof.
  unfold EntitySerializer.py_in, EntitySerializer.DEPENDENCY_FLAGS. simpl.
  rewrite orb_false_r.
  apply String.eqb_eq.
Qed.

Lemma dependency_loop_true (l : list Element) :
  EntitySerializer.dependency_loop l = true
  <-> exists ce, In ce l
        /\ hasAttribute ce "TYPE_INFO" = true
        /\ attribute ce "TYPE_INFO" "" = ForeignKeyColumn_TYPE_INFO.
Proof.
  induction l as [| ce l IH].
  - simpl. split; [discriminate | intros (ce & [] & _)].
  - cbn [EntitySerializer.dependency_loop In].
    destruct (hasAttribute ce "TYPE_INFO") eqn:Ha.
    + destruct (EntitySerializer.py_in (attribute ce "TYPE_INFO" "")
                  EntitySerializer.DEPENDENCY_FLAGS) eqn:Hin.
      * split; [| reflexivity]. intros _. exists ce.
        split; [now left |]. split; [exact Ha |].
        now apply py_in_dependency_flags.
      * rewrite IH. split.
        -- intros (x & Hx & Hrest). exists x. split; [now right | exact Hrest].
        -- intros (x & [<- | Hx] & Hax & Htag).
           ++ apply py_in_dependency_flags in Htag. congruence.
           ++ exists x. auto.
    + rewrite IH. split.
      * intros (x & Hx & Hrest). exists x. split; [now right | exact Hrest].
      * intros (x & [<- | Hx] & Hax & Htag); [congruence |].
        exists x. auto.
Qed.

End Dependency.

(** C2, as the code has it. An entity element is dependency-bearing
    exactly when one of the children of its columns group carries a type
    tag equal to the foreign key tag, the single entry of the dependency
    flags; the elements handled by the other entity serializers never
    are. *)
Theorem has_dependency_iff_foreign_key_tag {Sc : Scalars} {Ext : External} :
  forall (cls : Serializer) (element : Element),
    ItemSerializer.has_dependency cls element = true
    <-> cls = EntitySerializer
        /\ exists ce, In ce (EntitySerializer.column_elements element)
             /\ hasAttribute ce "TYPE_INFO" = true
             /\ attribute ce "TYPE_INFO" "" = ForeignKeyColumn_TYPE_INFO.
Proof.
  intros cls element.
  destruct cls; cbn [ItemSerializer.has_dependency];
    unfold EntitySerializer.has_dependency,
      EntitySerializerCollection.has_dependency.
  - rewrite dependency_loop_true.
    split; [intros E; now split | now intros [_ E]].
  - split; [discriminate | intros [E _]; discriminate E].
  - split; [discriminate | intros [E _]; discriminate E].
Qed.

(** C2, as stated, fails on an entity whose only column is a lookup: the
    column is of the foreign key family, yet the entity is not
    dependency-bearing. *)
Lemma lookup_column_is_no_dependency :
  let entity_element :=
    Example.el "Entity" [("shortName", "parcel")]
      [Example.el "Columns" []
         [Example.el "Column" [("TYPE_INFO", "LOOKUP"); ("name", "kind")]
            [Example.el "Relation" [("name", "parcel_kind")] []]]] in
  ~ (ItemSerializer.has_dependency (Ext := Example.env) EntitySerializer
       entity_element = true
     <-> exists ce, In ce (EntitySerializer.column_elements entity_element)
           /\ In (ColumnSerializerCollection.type_info ce)
                spec_foreign_key_family).
Proof.
  cbv zeta. intros [_ Hback].
  assert (Hfalse :
            ItemSerializer.has_dependency (Ext := Example.env)
              EntitySerializer
            (Example.el "Entity" [("shortName", "parcel")]
               [Example.el "Columns" []
                  [Example.el "Column"
                     [("TYPE_INFO", "LOOKUP"); ("name", "kind")]
                     [Example.el "Relation" [("name", "parcel_kind")] []]]])
          = false) by (vm_compute; reflexivity).
  rewrite Hback in Hfalse; [discriminate |].
  eexists. split; [left; reflexivity |].
  vm_compute. right. left. reflexivity.
Qed.

(** *** Reading a column *)

Import ColumnSerializerCollection ColumnFacts.

Lemma truthy_true (s : string) : truthy s = true <-> s <> "".
Proof. destruct s; simpl; split; congruence. Qed.

Lemma truthy_false (s : string) : truthy s = false <-> s = "".
Proof. destruct s; simpl; split; congruence. Qed.

Lemma foldM_app {A S} (step : A -> S -> Result S) (l1 l2 : list A) (s : S) :
  foldM step (l1 ++ l2) s = (s' ← foldM step l1 s; foldM step l2 s').
Proof.
  revert s. induction l1 as [| x l1 IH]; intros s; simpl; [reflexivity |].
  destruct (step x s) as [s1 | e]; simpl; [apply IH | reflexivity].
Qed.

Lemma foldM_skip {A S} (step : A -> S -> Result S) (pre post : list A)
    (x : A) (s : S) :
  (forall s', step x s' = Ok s') ->
  foldM step (pre ++ x :: post) s = foldM step (pre ++ post) s.
Proof.
  intros Hskip. rewrite !foldM_app.
  destruct (foldM step pre s) as [s1 | e]; simpl; [| reflexivity].
  now rewrite Hskip.
Qed.

Lemma attribute_ext (e e' : Element) (name default : string) :
  attributes e = attributes e' ->
  attribute e name default = attribute e' name default.
Proof. unfold attribute. now intros ->. Qed.

Lemma str_ascii (text : string) :
  ascii_only text = true -> Py.str text = Ok text.
Proof. unfold Py.str. now intros ->. Qed.

Lemma str_beyond (text : string) :
  ascii_only text = false -> Py.str text = Raise encode_error.
Proof. unfold Py.str. now intros ->. Qed.

Section ColumnRead.
Context {Sc : Scalars} {Ext : External}.

(** The registry holds each class under its tag, but for the first class
    named TextColumnSerializer, which the second replaces. *)
Lemma handler_spec (t : string) (cls : Serializer) :
  handler t = Some cls
  <-> cls <> TextColumnSerializer0 /\ COLUMN_TYPE_INFO cls = t.
Proof.
  split.
  - unfold handler, _registry. cbn [fold_left]. unfold register.
    cbn [COLUMN_TYPE_INFO].
    repeat (rewrite lookup_insert_Some;
            intros [[<- <-] | [? H]];
            [first [split; [discriminate | reflexivity] | exfalso; congruence]
            | revert H]).
    rewrite lookup_empty. discriminate.
  - intros [Hne <-]. destruct cls; first [reflexivity | congruence].
Qed.

Lemma handler_empty_tag : handler "" = None.
Proof. reflexivity. Qed.

(** Every registered tag is a non-empty ASCII text. *)
Lemma handler_ascii (t : string) (cls : Serializer) :
  handler t = Some cls -> ascii_only t = true /\ truthy t = true.
Proof.
  intros H. apply handler_spec in H. destruct H as [_ <-].
  destruct cls; split; reflexivity.
Qed.

Lemma handler_by_element_ascii (element : Element) :
  ascii_only (type_info element) = true ->
  handler_by_element element = Ok (handler (type_info element)).
Proof.
  intros Ha. unfold handler_by_element. rewrite (str_ascii _ Ha).
  cbv beta iota delta [mbind result_bind Py.bind].
  destruct (type_info element); [| reflexivity].
  now rewrite handler_empty_tag.
Qed.

Lemma handler_by_element_beyond (element : Element) :
  ascii_only (type_info element) = false ->
  handler_by_element element = Raise encode_error.
Proof.
  intros Ha. unfold handler_by_element. now rewrite (str_beyond _ Ha).
Qed.

(** What [int] raises is a [ValueError]. *)
Lemma int_outcome (text : string) :
  (exists z, int text = Ok z)
  \/ (exists e, int text = Raise e /\ is_ValueError e = true).
Proof.
  unfold int. destruct (literal text); [eauto |].
  destruct (int_beyond_literal text); [eauto | right | right];
    eexists; split; reflexivity.
Qed.

(** So is what a bound conversion raises. *)
Lemma convert_outcome (cls : Serializer) (value : string) :
  (exists b, _convert_bounds_type cls value = Ok b)
  \/ (exists e, _convert_bounds_type cls value = Raise e
                /\ is_ValueError e = true).
Proof.
  destruct cls; simpl; eauto;
    first
      [ destruct (int_outcome value) as [[z E] | [e [E He]]]; rewrite E;
        simpl; eauto
      | match goal with
        | |- context [of_option _ ?o] =>
            destruct o; simpl; [eauto |];
            right; eexists; split; reflexivity
        end ].
Qed.

Lemma try_bound_ok (cls : Serializer) (element : Element) (key : string)
    (set : Kwargs -> Bound -> Kwargs) (kw : Kwargs) :
  (if hasAttribute element key
   then try_bound cls (attribute element key "") set kw
   else Ok kw)
  = Ok (match bound_of cls element key with
        | Some b => set kw b
        | None => kw
        end).
Proof.
  unfold bound_of, try_bound.
  destruct (hasAttribute element key); [| reflexivity].
  destruct (convert_outcome cls (attribute element key ""))
    as [[b E] | [e [E He]]]; rewrite E; [| rewrite He]; reflexivity.
Qed.

(** [read] once its conversions are carried out. *)
Lemma read_unfold (cls : Serializer) (element : Element) (entity : Entity)
    (profile : Profile) (A R : gmap string Element) :
  ascii_only (type_info element) = true ->
  read cls element entity profile A R
  = if negb (truthy (type_info element)) then Ok entity else
    if negb (truthy (attribute element NAME "")) then Ok entity else
    '(custom_args, custom_kwargs) ←
      _obj_args cls
        [ArgName (attribute element NAME ""); ArgEntity (ent_short_name entity)]
        (bounded_kwargs cls element) element profile A R;
    if column_type (type_info element)
    then Ok (add_column entity
               {| col_TYPE_INFO := type_info element;
                  col_args := custom_args;
                  col_kwargs := custom_kwargs |})
    else Ok entity.
Proof.
  intros Ha. unfold read. rewrite (str_ascii _ Ha).
  unfold mbind at 1, result_bind, Py.bind.
  destruct (negb (truthy (type_info element))); [reflexivity |].
  destruct (negb (truthy (attribute element NAME ""))); [reflexivity |].
  rewrite (try_bound_ok cls element MINIMUM set_minimum).
  unfold mbind at 1, result_bind, Py.bind.
  rewrite (try_bound_ok cls element MAXIMUM set_maximum).
  reflexivity.
Qed.


(** [read_xml] once the handler is found and the conversions are carried
    out. *)
Lemma read_xml_unfold (element : Element) (entity : Entity)
    (profile : Profile) (A R : gmap string Element) :
  read_xml element entity profile A R
  = match Py.str (type_info element) with
    | Raise e => Raise e
    | Ok _ =>
        match handler (type_info element) with
        | Some cls =>
            if truthy (attribute element NAME "") then
              '(custom_args, custom_kwargs) ←
                _obj_args cls
                  [ArgName (attribute element NAME "");
                   ArgEntity (ent_short_name entity)]
                  (bounded_kwargs cls element) element profile A R;
              if column_type (type_info element)
              then Ok (add_column entity
                         {| col_TYPE_INFO := type_info element;
                            col_args := custom_args;
                            col_kwargs := custom_kwargs |})
              else Ok entity
            else Ok entity
        | None => Ok entity
        end
    end.
Proof.
  unfold read_xml. destruct (ascii_only (type_info element)) eqn:Ha.
  - rewrite (handler_by_element_ascii _ Ha), (str_ascii _ Ha).
    cbv beta iota delta [mbind result_bind Py.bind].
    destruct (handler (type_info element)) as [cls |] eqn:Hh; [| reflexivity].
    rewrite (read_unfold _ _ _ _ _ _ Ha).
    destruct (handler_ascii _ _ Hh) as [_ ->]. simpl negb. cbv iota.
    destruct (truthy (attribute element NAME "")); reflexivity.
  - now rewrite (handler_by_element_beyond _ Ha), (str_beyond _ Ha).
Qed.

(** Of all the classes, the geometry one alone raises in [_obj_args]: what
    [int] raises on the Geometry child. *)
Lemma obj_args_outcome (cls : Serializer) (args : list Arg) (kw : Kwargs)
    (element : Element) (profile : Profile) (A R : gmap string Element) :
  match _obj_args cls args kw element profile A R with
  | Raise e => cls = GeometryColumnSerializer /\ geometry_error element = Some e
  | Ok _ => cls = GeometryColumnSerializer -> geometry_error element = None
  end.
Proof.
  unfold geometry_error.
  destruct cls; simpl; try discriminate.
  - unfold GEOM_TAG, GEOMETRY_TYPE, SRID.
    destruct (firstChildElement element "Geometry") as [geom_el |]; simpl;
      [| reflexivity].
    destruct (int (attribute geom_el "type" "2")) as [g | e]; simpl;
      [| split; reflexivity].
    destruct (int (attribute geom_el "srid" "4326")) as [s | e]; simpl;
      [reflexivity | split; reflexivity].
  - destruct (firstChildElement element ASSOCIATION_TAG) as [a |];
      [| discriminate].
    destruct (A !! attribute a "name" "") as [ae |]; [| discriminate].
    destruct (truthy (attribute ae FIRST_PARENT "")); discriminate.
Qed.

(** The column reader on any element: it raises what [column_error]
    names, and otherwise adds the column [built_column] names, if any. *)
Lemma read_xml_cases (element : Element) (entity : Entity)
    (profile : Profile) (A R : gmap string Element) :
  read_xml element entity profile A R
  = match column_error element with
    | Some e => Raise e
    | None =>
        Ok (match built_column element (ent_short_name entity) profile A R
            with
            | Some column => add_column entity column
            | None => entity
            end)
    end.
Proof.
  rewrite read_xml_unfold. unfold column_error, built_column.
  destruct (Py.str (type_info element)) as [t | e]; [| reflexivity].
  destruct (handler (type_info element)) as [cls |] eqn:Hh.
  - apply handler_spec in Hh. destruct Hh as [Hne Htag].
    destruct (truthy (attribute element NAME "")) eqn:En.
    + unfold NAME in En. rewrite En, andb_true_r. simpl andb.
      pose proof (obj_args_outcome cls
                    [ArgName (attribute element NAME "");
                     ArgEntity (ent_short_name entity)]
                    (bounded_kwargs cls element) element profile A R) as Ho.
      destruct (_obj_args cls _ _ element profile A R) as [[args kw] | e].
      * assert (Hnone : (if String.eqb (type_info element) "GEOMETRY"
                         then geometry_error element else None) = None).
        { destruct (String.eqb (type_info element) "GEOMETRY") eqn:Eg;
            [| reflexivity].
          apply String.eqb_eq in Eg. apply Ho. rewrite Eg in Htag.
          destruct cls; first [reflexivity | discriminate Htag | congruence]. }
        rewrite Hnone. simpl.
        destruct (column_type (type_info element)); reflexivity.
      * destruct Ho as [-> Hg]. rewrite <- Htag. simpl. now rewrite Hg.
    + unfold NAME in En. rewrite En, andb_false_r. reflexivity.
  - destruct (String.eqb (type_info element) "GEOMETRY") eqn:Eg.
    + apply String.eqb_eq in Eg. rewrite Eg in Hh. discriminate Hh.
    + reflexivity.
Qed.

Lemma add_column_short_name (entity : Entity) (column : Column) :
  ent_short_name (add_column entity column) = ent_short_name entity.
Proof. reflexivity. Qed.


End ColumnRead.

(** *** Reading the columns of an entity *)

Import ReaderFacts.

Section EntityRead.
Context {Sc : Scalars} {Ext : External}.
Variables A R : gmap string Element.

Lemma fold_add_column_short_name (cols : list Column) :
  forall ent, ent_short_name (fold_left add_column cols ent) = ent_short_name ent.
Proof.
  induction cols as [| c cols IH]; intros ent; simpl; [reflexivity |].
  now rewrite IH.
Qed.

Lemma fold_add_column (cols : list Column) :
  forall ent,
    fold_left add_column cols ent
    = {| ent_short_name := ent_short_name ent;
         ent_optional_args := ent_optional_args ent;
         ent_is_associative := ent_is_associative ent;
         ent_user_editable := ent_user_editable ent;
         ent_description := ent_description ent;
         ent_columns := ent_columns ent ++ cols |}.
Proof.
  induction cols as [| c cols IH]; intros ent; simpl.
  - rewrite app_nil_r. now destruct ent.
  - rewrite IH. simpl. now rewrite <- app_assoc.
Qed.

(** One step of the column loop. *)
Lemma read_column_cases (profile : Profile) (ce : Element) (ent : Entity) :
  EntitySerializer.read_column profile A R ce ent
  = match column_element_error ce with
    | Some e => Raise e
    | None =>
        Ok (fold_left add_column
              (built_columns A R [ce] (ent_short_name ent) profile) ent)
    end.
Proof.
  unfold EntitySerializer.read_column, column_element_error, built_columns.
  destruct (Py.str (tagName ce)) as [tag |] eqn:Hs; [| reflexivity].
  assert (tag = tagName ce) as ->.
  { unfold Py.str in Hs. destruct (ascii_only (tagName ce)); congruence. }
  cbv beta iota delta [mbind result_bind Py.bind]. cbn [List.filter].
  destruct (String.eqb (tagName ce) "Column"); [| reflexivity].
  rewrite read_xml_cases.
  destruct (column_error ce); [reflexivity |]. cbn [omap list_omap].
  destruct (built_column ce (ent_short_name ent) profile A R); reflexivity.
Qed.

Lemma built_columns_app (l1 l2 : list Element) (short_name : string)
    (profile : Profile) :
  built_columns A R (l1 ++ l2) short_name profile
  = built_columns A R l1 short_name profile
    ++ built_columns A R l2 short_name profile.
Proof. unfold built_columns. now rewrite List.filter_app, omap_app. Qed.

(** The column loop: it raises the first exception a column element
    has, and otherwise adds the columns built, in document order. *)
Lemma read_columns_cases (profile : Profile) (ces : list Element) :
  forall ent,
    foldM (EntitySerializer.read_column profile A R) ces ent
    = match head (omap column_element_error ces) with
      | Some e => Raise e
      | None =>
          Ok (fold_left add_column
                (built_columns A R ces (ent_short_name ent) profile) ent)
      end.
Proof.
  induction ces as [| ce ces IH]; intros ent; [reflexivity |].
  cbn [foldM omap list_omap]. rewrite read_column_cases.
  destruct (column_element_error ce) as [e |]; [reflexivity |].
  cbv beta iota delta [mbind result_bind Py.bind option_bind].
  rewrite IH, fold_add_column_short_name.
  change (ce :: ces) with ([ce] ++ ces).
  rewrite built_columns_app, fold_left_app. reflexivity.
Qed.

(** The entity reader on any element: it raises what [entity_error]
    names, and otherwise adds the entity [built_entity] names, if the
    element has a short name. *)
Lemma entity_read_cases (el : Element) (profile : Profile) :
  EntitySerializer.read_xml el profile A R
  = match entity_error el with
    | Some e => Raise e
    | None => Ok (with_entity A R profile el)
    end.
Proof.
  unfold EntitySerializer.read_xml, entity_error, with_entity,
    EntitySerializer.SHORT_NAME.
  destruct (truthy (attribute el "shortName" "")); [| reflexivity].
  rewrite read_columns_cases.
  destruct (head (omap column_element_error _)); [reflexivity |].
  cbv beta iota delta [mbind result_bind Py.bind].
  rewrite fold_add_column. reflexivity.
Qed.



End EntityRead.







(** *** Bounds that fail their conversion *)

Section Bounds.
Context {Sc : Scalars} {Ext : External}.

Lemma failing_class_has_default_obj_args (cls : Serializer)
    (value : string) (e : Exception) :
  _convert_bounds_type cls value = Raise e ->
  forall args kw element profile A R,
    _obj_args cls args kw element profile A R = Ok (args, kw).
Proof.
  intros Hfail args kw element profile A R.
  destruct cls; simpl in Hfail |- *; first [discriminate Hfail | reflexivity].
Qed.

Lemma bound_of_fails (cls : Serializer) (element : Element) (key : string) :
  bound_fails cls element key -> bound_of cls element key = None.
Proof.
  intros [Hattr [e [Hconv _]]]. unfold bound_of. now rewrite Hattr, Hconv.
Qed.

Lemma bounded_kwargs_minimum (cls : Serializer) (element : Element) :
  kw_minimum (bounded_kwargs cls element) = bound_of cls element MINIMUM.
Proof.
  unfold bounded_kwargs.
  destruct (bound_of cls element MINIMUM), (bound_of cls element MAXIMUM);
    reflexivity.
Qed.

Lemma bounded_kwargs_maximum (cls : Serializer) (element : Element) :
  kw_maximum (bounded_kwargs cls element) = bound_of cls element MAXIMUM.
Proof.
  unfold bounded_kwargs.
  destruct (bound_of cls element MINIMUM), (bound_of cls element MAXIMUM);
    reflexivity.
Qed.

(** The reading of a named element of a registered kind with a column
    class, from what its class makes of the arguments. *)
Lemma read_xml_builds (cls : Serializer) (element : Element)
    (entity : Entity) (profile : Profile) (A R : gmap string Element)
    (args : list Arg) (kw : Kwargs) :
  handler (type_info element) = Some cls ->
  attribute element "name" "" <> "" ->
  column_type (type_info element) = true ->
  _obj_args cls
    [ArgName (attribute element "name" ""); ArgEntity (ent_short_name entity)]
    (bounded_kwargs cls element) element profile A R
  = Ok (args, kw) ->
  read_xml element entity profile A R
  = Ok (add_column entity
          {| col_TYPE_INFO := type_info element;
             col_args := args; col_kwargs := kw |}).
Proof.
  intros Hcls Hname Hclass Hargs. rewrite read_xml_unfold.
  destruct (handler_ascii _ _ Hcls) as [Ha _].
  rewrite (str_ascii _ Ha), Hcls. apply truthy_true in Hname.
  unfold NAME. rewrite Hname, Hargs. simpl. now rewrite Hclass.
Qed.

End Bounds.

(** C8. A column element of a registered kind, with a name, whose minimum
    or maximum text fails the bound conversion of its kind still loads: the
    reader returns normally, the column is added to the entity, and the
    failing bound is not among its constructor arguments, so the kind's
    default applies. The other bound is kept when its text converts. *)
Theorem failed_bound_is_omitted {Sc : Scalars} {Ext : External} :
  forall (cls : Serializer) (element : Element) (entity : Entity)
         (profile : Profile) (A R : gmap string Element),
    handler (type_info element) = Some cls ->
    attribute element "name" "" <> "" ->
    column_type (type_info element) = true ->
    bound_fails cls element "minimum" \/ bound_fails cls element "maximum" ->
    exists column,
      read_xml element entity profile A R = Ok (add_column entity column)
      /\ col_TYPE_INFO column = type_info element
      /\ col_name column = attribute element "name" ""
      /\ (bound_fails cls element "minimum"
          -> kw_minimum (col_kwargs column) = None)
      /\ (bound_fails cls element "maximum"
          -> kw_maximum (col_kwargs column) = None)
      /\ kw_minimum (col_kwargs column) = bound_of cls element "minimum"
      /\ kw_maximum (col_kwargs column) = bound_of cls element "maximum".
Proof.
  intros cls element entity profile A R Hcls Hname Hclass Hfails.
  assert (Hargs : forall args kw,
             _obj_args cls args kw element profile A R = Ok (args, kw)).
  { intros args kw.
    destruct Hfails as [[_ [e [Hconv _]]] | [_ [e [Hconv _]]]];
      exact (failing_class_has_default_obj_args cls _ e Hconv
               args kw element profile A R). }
  exists {| col_TYPE_INFO := type_info element;
            col_args := [ArgName (attribute element "name" "");
                         ArgEntity (ent_short_name entity)];
            col_kwargs := bounded_kwargs cls element |}.
  split.
  - now apply (read_xml_builds cls).
  - simpl. split; [reflexivity |]. split; [reflexivity |].
    rewrite bounded_kwargs_minimum, bounded_kwargs_maximum.
    split; [apply bound_of_fails |]. split; [apply bound_of_fails |].
    split; reflexivity.
Qed.

Lemma failed_bound_is_omitted_witness :
  bound_fails (Ext := Example.env) IntegerColumnSerializer
    Example.area_column "minimum"
  /\ exists column,
       read_xml (Ext := Example.env) Example.area_column
         (Example.empty_entity "parcel") Example.two_entities ∅
         Example.relation_index
       = Ok (add_column (Example.empty_entity "parcel") column)
       /\ col_name column = "area"
       /\ kw_minimum (col_kwargs column) = None
       /\ kw_maximum (col_kwargs column) = Some (BInt 100).
Proof.
  assert (Hfails : bound_fails (Ext := Example.env) IntegerColumnSerializer
                     Example.area_column "minimum").
  { split; [vm_compute; reflexivity |].
    exists (ValueError "invalid literal for int()").
    vm_compute. split; reflexivity. }
  split; [exact Hfails |].
  destruct (failed_bound_is_omitted (Ext := Example.env)
              IntegerColumnSerializer Example.area_column
              (Example.empty_entity "parcel") Example.two_entities ∅
              Example.relation_index)
    as (column & Hread & _ & Hname & Hmin & _ & _ & Hmax).
  - vm_compute. reflexivity.
  - intros E. vm_compute in E. discriminate E.
  - vm_compute. reflexivity.
  - left. exact Hfails.
  - exists column. split; [exact Hread |]. split; [exact Hname |].
    split; [exact (Hmin Hfails) |]. rewrite Hmax. vm_compute. reflexivity.
Defined.

(** *** Relations of foreign key columns *)

Section ForeignKeys.
Context {Sc : Scalars} {Ext : External}.

Lemma fk_obj_args_args (args : list Arg) (kw : Kwargs) (element : Element)
    (profile : Profile) (R : gmap string Element) :
  fst (fk_obj_args args kw element profile R) = args.
Proof.
  unfold fk_obj_args.
  destruct (firstChildElement element RELATION_TAG) as [relation_el |];
    [| reflexivity].
  destruct (R !! attribute relation_el "name" "") as [er_element |];
    [| reflexivity].
  destruct (valid profile _); reflexivity.
Qed.

Lemma fk_obj_args_relation (args : list Arg) (kw : Kwargs)
    (element : Element) (profile : Profile) (R : gmap string Element)
    (er : EntityRelation) :
  kw_entity_relation kw = None ->
  kw_entity_relation (snd (fk_obj_args args kw element profile R)) = Some er
  <-> offered_relation element profile R er.
Proof.
  intros Hnone. unfold fk_obj_args, offered_relation, RELATION_TAG.
  destruct (firstChildElement element "Relation") as [relation_el |].
  - destruct (R !! attribute relation_el "name" "") as [er_element |] eqn:Hidx.
    + destruct (valid profile (EntityRelationSerializer.read_xml er_element))
        eqn:Hvalid; simpl.
      * split.
        -- intros [= <-]. exists relation_el, er_element. auto.
        -- intros (r & x & [= <-] & Hx & -> & _).
           rewrite Hidx in Hx. now injection Hx as <-.
      * rewrite Hnone. split; [discriminate |].
        intros (r & x & [= <-] & Hx & -> & Hv).
        rewrite Hidx in Hx. injection Hx as <-. congruence.
    + simpl. rewrite Hnone. split; [discriminate |].
      intros (r & x & [= <-] & Hx & _). rewrite Hidx in Hx. discriminate Hx.
  - simpl. rewrite Hnone. split; [discriminate |].
    intros (r & x & Hr & _). discriminate Hr.
Qed.

(** Besides the relation, the keyword arguments are those the bounds
    left. *)
Lemma fk_obj_args_general (args : list Arg) (kw : Kwargs)
    (element : Element) (profile : Profile) (R : gmap string Element) :
  same_general kw (snd (fk_obj_args args kw element profile R))
  /\ kw_srid (snd (fk_obj_args args kw element profile R)) = kw_srid kw
  /\ kw_first_parent (snd (fk_obj_args args kw element profile R))
     = kw_first_parent kw.
Proof.
  unfold fk_obj_args, same_general.
  destruct (firstChildElement element RELATION_TAG) as [relation_el |];
    [| simpl; tauto].
  destruct (R !! attribute relation_el "name" "") as [er_element |];
    [| simpl; tauto].
  destruct (valid profile _); simpl; tauto.
Qed.

Lemma bounded_kwargs_relation (cls : Serializer) (element : Element) :
  kw_entity_relation (bounded_kwargs cls element) = None.
Proof.
  unfold bounded_kwargs.
  destruct (bound_of cls element MINIMUM), (bound_of cls element MAXIMUM);
    reflexivity.
Qed.

End ForeignKeys.

(** C5, as the code has it. A named column element of the foreign key or
    lookup kind always loads, with its name and owning entity as
    arguments, and its column carries a relation exactly when the element
    names, in a Relation child, a relation of the index whose
    reconstruction is valid in the profile; that reconstruction is the
    relation carried. An administrative spatial unit element loads too:
    its only argument is the owning entity, its keyword arguments are
    those every column read sets with the bounds that convert, and the
    reader hands it no relation whatever the index holds. In every case
    the other keyword arguments are those the element's attributes give,
    and nothing is raised. *)
Theorem relation_attached_iff_indexed_and_valid
    {Sc : Scalars} {Ext : External} :
  forall (cls : Serializer) (element : Element) (entity : Entity)
         (profile : Profile) (A R : gmap string Element),
    In cls [ForeignKeyColumnSerializer; LookupColumnSerializer;
            AdminSpatialUnitColumnSerializer] ->
    handler (type_info element) = Some cls ->
    attribute element "name" "" <> "" ->
    column_type (type_info element) = true ->
    exists column,
      read_xml element entity profile A R = Ok (add_column entity column)
      /\ col_TYPE_INFO column = type_info element
      /\ (forall er,
            kw_entity_relation (col_kwargs column) = Some er
            <-> cls <> AdminSpatialUnitColumnSerializer
                /\ offered_relation element profile R er)
      /\ col_args column
         = match cls with
           | AdminSpatialUnitColumnSerializer =>
               [ArgEntity (ent_short_name entity)]
           | _ =>
               [ArgName (attribute element "name" "");
                ArgEntity (ent_short_name entity)]
           end
      /\ same_general (bounded_kwargs cls element) (col_kwargs column)
      /\ kw_srid (col_kwargs column) = None
      /\ kw_first_parent (col_kwargs column) = None
      /\ (cls = AdminSpatialUnitColumnSerializer
          -> col_kwargs column = bounded_kwargs cls element).
Proof.
  intros cls element entity profile A R Hfamily Hcls Hname Hclass.
  assert (Hsrid : kw_srid (bounded_kwargs cls element) = None).
  { unfold bounded_kwargs.
    destruct (bound_of cls element MINIMUM), (bound_of cls element MAXIMUM);
      reflexivity. }
  assert (Hfp : kw_first_parent (bounded_kwargs cls element) = None).
  { unfold bounded_kwargs.
    destruct (bound_of cls element MINIMUM), (bound_of cls element MAXIMUM);
      reflexivity. }
  assert (Hfk : cls = ForeignKeyColumnSerializer
                \/ cls = LookupColumnSerializer ->
                exists column,
                  read_xml element entity profile A R
                  = Ok (add_column entity column)
                  /\ col_TYPE_INFO column = type_info element
                  /\ col_args column
                     = [ArgName (attribute element "name" "");
                        ArgEntity (ent_short_name entity)]
                  /\ col_kwargs column
                     = snd (fk_obj_args
                              [ArgName (attribute element "name" "");
                               ArgEntity (ent_short_name entity)]
                              (bounded_kwargs cls element) element profile R)).
  { intros Hkind. eexists. split.
    - apply (read_xml_builds cls); [exact Hcls | exact Hname | exact Hclass |].
      destruct Hkind as [-> | ->]; simpl; apply f_equal, surjective_pairing.
    - simpl. split; [reflexivity |]. split; [apply fk_obj_args_args |].
      reflexivity. }
  destruct Hfamily as [<- | [<- | [<- | []]]].
  - destruct (Hfk (or_introl eq_refl)) as (column & Hread & Hti & Ha & Hkw).
    exists column. split; [exact Hread |]. split; [exact Hti |].
    rewrite Hkw, Ha.
    destruct (fk_obj_args_general
                [ArgName (attribute element "name" "");
                 ArgEntity (ent_short_name entity)]
                (bounded_kwargs ForeignKeyColumnSerializer element)
                element profile R) as (Hgen & Hs & Hf).
    split; [| split; [reflexivity | split; [exact Hgen |]]].
    + intros er.
      rewrite fk_obj_args_relation by apply bounded_kwargs_relation.
      split; [intros Ho; split; [discriminate | exact Ho] | now intros [_ Ho]].
    + rewrite Hs, Hf, Hsrid, Hfp. repeat split. discriminate.
  - destruct (Hfk (or_intror eq_refl)) as (column & Hread & Hti & Ha & Hkw).
    exists column. split; [exact Hread |]. split; [exact Hti |].
    rewrite Hkw, Ha.
    destruct (fk_obj_args_general
                [ArgName (attribute element "name" "");
                 ArgEntity (ent_short_name entity)]
                (bounded_kwargs LookupColumnSerializer element)
                element profile R) as (Hgen & Hs & Hf).
    split; [| split; [reflexivity | split; [exact Hgen |]]].
    + intros er.
      rewrite fk_obj_args_relation by apply bounded_kwargs_relation.
      split; [intros Ho; split; [discriminate | exact Ho] | now intros [_ Ho]].
    + rewrite Hs, Hf, Hsrid, Hfp. repeat split. discriminate.
  - eexists. split.
    + apply (read_xml_builds AdminSpatialUnitColumnSerializer);
        [exact Hcls | exact Hname | exact Hclass | reflexivity].
    + simpl. split; [reflexivity |]. split; [| split; [reflexivity |]].
      * intros er. rewrite bounded_kwargs_relation.
        split; [discriminate | intros [Hne _]; now contradiction Hne].
      * rewrite Hsrid, Hfp. unfold same_general. repeat split.
Qed.

Lemma relation_attached_iff_indexed_and_valid_witness :
  exists column,
    read_xml (Ext := Example.env) Example.owner_column
      (Example.empty_entity "parcel") Example.two_entities ∅
      Example.relation_index
    = Ok (add_column (Example.empty_entity "parcel") column)
    /\ kw_entity_relation (col_kwargs column)
       = Some (EntityRelationSerializer.read_xml Example.owner_relation)
    /\ col_args column = [ArgName "owner_id"; ArgEntity "parcel"].
Proof.
  destruct (relation_attached_iff_indexed_and_valid (Ext := Example.env)
              ForeignKeyColumnSerializer Example.owner_column
              (Example.empty_entity "parcel") Example.two_entities ∅
              Example.relation_index)
    as (column & Hread & _ & Hrel & Hargs & _).
  - left. reflexivity.
  - vm_compute. reflexivity.
  - intros E. vm_compute in E. discriminate E.
  - vm_compute. reflexivity.
  - exists column. split; [exact Hread |]. split; [| exact Hargs].
    apply Hrel.
    split; [discriminate |].
    exists (Example.el "Relation" [("name", "parcel_owner")] []).
    exists Example.owner_relation.
    split; [vm_compute; reflexivity |]. split; [vm_compute; reflexivity |].
    split; [reflexivity | vm_compute; reflexivity].
Defined.

(** C5, as stated, fails on an administrative spatial unit column: the
    relation it names is in the index and is valid in the profile, yet the
    column that loads carries no relation. *)
Lemma admin_unit_column_carries_no_relation :
  let party := {| ent_short_name := "party"; ent_optional_args := ∅;
                  ent_is_associative := None; ent_user_editable := None;
                  ent_description := ""; ent_columns := [] |} in
  let parcel := {| ent_short_name := "parcel"; ent_optional_args := ∅;
                   ent_is_associative := None; ent_user_editable := None;
                   ent_description := ""; ent_columns := [] |} in
  let profile :=
    add_entity (add_entity (new_profile (Sc := Example.scalars) "default")
                  (AnEntity party)) (AnEntity parcel) in
  let R : gmap string Element :=
    {[ "parcel_unit" :=
         Example.el "EntityRelation"
           [("name", "parcel_unit"); ("parent", "party");
            ("parentColumn", "id"); ("child", "parcel");
            ("childColumn", "unit")] [] ]} in
  let ce :=
    Example.el "Column"
      [("TYPE_INFO", "ADMIN_SPATIAL_UNIT"); ("name", "unit")]
      [Example.el "Relation" [("name", "parcel_unit")] []] in
  (exists er, offered_relation ce profile R er)
  /\ read_xml ce parcel profile ∅ R
     = Ok (add_column parcel
             {| col_TYPE_INFO := "ADMIN_SPATIAL_UNIT";
                col_args := [ArgEntity "parcel"];
                col_kwargs := common_kwargs ce |})
  /\ kw_entity_relation (common_kwargs ce) = None.
Proof.
  cbv zeta. split; [| split].
  - exists (EntityRelationSerializer.read_xml
              (Example.el "EntityRelation"
                 [("name", "parcel_unit"); ("parent", "party");
                  ("parentColumn", "id"); ("child", "parcel");
                  ("childColumn", "unit")] [])).
    exists (Example.el "Relation" [("name", "parcel_unit")] []).
    exists (Example.el "EntityRelation"
              [("name", "parcel_unit"); ("parent", "party");
               ("parentColumn", "id"); ("child", "parcel");
               ("childColumn", "unit")] []).
    split; [vm_compute; reflexivity |]. split; [vm_compute; reflexivity |].
    split; [reflexivity | vm_compute; reflexivity].
  - vm_compute. reflexivity.
  - reflexivity.
Qed.

(** *** The order in which a profile is filled *)

Import LoaderFacts WriterFacts.

Section Loader.
Context {Sc : Scalars} {Ext : External}.
Variables A R : gmap string Element.

Lemma handler_of_entity_tag :
  handler_by_tag_name "Entity" = Some EntitySerializer.
Proof. reflexivity. Qed.

(** The first pass reads the elements without dependency in document
    order and appends the others, in document order, to the queue. *)
Lemma first_pass_spec (cs : list Element) :
  forall (profile : Profile)
         (deferred : list (Element * EntitySerializerCollection.Serializer)),
    ProfileSerializer.first_pass cs A R profile deferred
    = (p ← foldM (fun el p => EntitySerializer.read_xml el p A R)
             (List.filter
                (fun c =>
                   negb (ItemSerializer.has_dependency EntitySerializer c))
                (List.filter (fun c => String.eqb (tagName c) "Entity") cs))
             profile;
       Ok (p, deferred
              ++ map (fun c => (c, EntitySerializer))
                   (List.filter
                      (fun c =>
                         ItemSerializer.has_dependency EntitySerializer c)
                      (List.filter (fun c => String.eqb (tagName c) "Entity")
                         cs)))).
Proof.
  induction cs as [| c cs IH]; intros profile deferred.
  - simpl. now rewrite app_nil_r.
  - cbn [ProfileSerializer.first_pass List.filter].
    destruct (String.eqb (tagName c) "Entity") eqn:Etag.
    + apply String.eqb_eq in Etag. rewrite Etag, handler_of_entity_tag.
      cbn [List.filter].
      destruct (ItemSerializer.has_dependency EntitySerializer c) eqn:Edep;
        simpl negb; cbv iota.
      * rewrite IH. cbn [map]. now rewrite <- app_assoc.
      * cbn [foldM ItemSerializer.read_xml].
        destruct (EntitySerializer.read_xml c profile A R) as [p1 | e]; simpl;
          [apply IH | reflexivity].
    + apply IH.
Qed.

Lemma foldM_read_deferred (l : list Element) (profile : Profile) :
  foldM (ProfileSerializer.read_deferred A R)
    (map (fun c => (c, EntitySerializer)) l) profile
  = foldM (fun el p => EntitySerializer.read_xml el p A R) l profile.
Proof.
  revert profile. induction l as [| c l IH]; intros profile; simpl;
    [reflexivity |].
  destruct (EntitySerializer.read_xml c profile A R) as [p1 | e]; simpl;
    [apply IH | reflexivity].
Qed.

Lemma read_entities_spec (element : Element) (profile : Profile) :
  ProfileSerializer.read_entities element profile A R
  = foldM (fun el p => EntitySerializer.read_xml el p A R)
      (immediate_elements element ++ queued_elements element)
      (fold_left (fun p el => ValueListSerializer.read_value_list el p)
         (value_list_elements element) profile).
Proof.
  unfold ProfileSerializer.read_entities, ValueListSerializer.GROUP_TAG.
  assert (Hvl :
    match firstChildElement element "ValueLists" with
    | Some value_lists_el => ValueListSerializer.read_xml value_lists_el profile
    | None => profile
    end
    = fold_left (fun p el => ValueListSerializer.read_value_list el p)
        (value_list_elements element) profile).
  { unfold value_list_elements, ValueListSerializer.read_xml.
    destruct (firstChildElement element "ValueLists"); reflexivity. }
  rewrite Hvl, first_pass_spec, foldM_app.
  fold (entity_elements element). fold (immediate_elements element).
  fold (queued_elements element).
  destruct (foldM _ (immediate_elements element) _) as [p1 | e]; simpl;
    [apply foldM_read_deferred | reflexivity].
Qed.

Lemma read_code_values_fold (cd_elements : list Element) :
  forall values,
    fold_left (fun vs cd_el => ValueListSerializer.read_code_value cd_el vs)
      cd_elements values
    = values
        ++ map (fun cd_el =>
                  {| cv_code := attribute cd_el ValueListSerializer.CV_CODE "";
                     cv_value :=
                       attribute cd_el ValueListSerializer.CV_VALUE "" |})
            (List.filter
               (fun cd_el =>
                  truthy (attribute cd_el ValueListSerializer.CV_VALUE ""))
               cd_elements).
Proof.
  induction cd_elements as [| c cs IH]; intros values; simpl.
  - now rewrite app_nil_r.
  - rewrite IH. unfold ValueListSerializer.read_code_value.
    destruct (truthy (attribute c ValueListSerializer.CV_VALUE "")); simpl;
      [now rewrite <- app_assoc | reflexivity].
Qed.

Lemma read_value_list_spec (value_list_el : Element) (profile : Profile) :
  ValueListSerializer.read_value_list value_list_el profile
  = if truthy (attribute value_list_el "name" "")
    then add_entity profile
           (AValueList
              {| vl_short_name := attribute value_list_el "name" "";
                 vl_values := code_values_of value_list_el |})
    else profile.
Proof.
  unfold ValueListSerializer.read_value_list, code_values_of.
  destruct (truthy (attribute value_list_el "name" "")); [| reflexivity].
  now rewrite read_code_values_fold.
Qed.

Lemma names_of_app (key : string) (l1 l2 : list Element) :
  names_of key (l1 ++ l2) = names_of key l1 ++ names_of key l2.
Proof. unfold names_of. now rewrite map_app, List.filter_app. Qed.

Lemma added_names_add_entity (profile : Profile) (x : EntityLike) :
  added_names (add_entity profile x) = added_names profile ++ [short_name x].
Proof. unfold added_names, add_entity. simpl. now rewrite map_app. Qed.

Lemma added_names_value_lists (els : list Element) (profile : Profile) :
  added_names
    (fold_left (fun p el => ValueListSerializer.read_value_list el p) els
       profile)
  = added_names profile ++ names_of "name" els.
Proof.
  revert profile. induction els as [| el els IH]; intros profile.
  - simpl. now rewrite app_nil_r.
  - cbn [fold_left]. rewrite IH.
    unfold ValueListSerializer.read_value_list, names_of.
    cbn [map List.filter].
    destruct (truthy (attribute el "name" "")).
    + rewrite added_names_add_entity. simpl. now rewrite <- app_assoc.
    + reflexivity.
Qed.

(** Reading columns leaves the short name of the entity alone. *)
Lemma read_column_short_name (profile : Profile) (ce : Element)
    (ent ent' : Entity) :
  EntitySerializer.read_column profile A R ce ent = Ok ent' ->
  ent_short_name ent' = ent_short_name ent.
Proof.
  rewrite read_column_cases.
  destruct (column_element_error ce); [discriminate |].
  intros [= <-]. apply fold_add_column_short_name.
Qed.

Lemma read_columns_short_name (profile : Profile) (ces : list Element) :
  forall ent ent',
    foldM (EntitySerializer.read_column profile A R) ces ent = Ok ent' ->
    ent_short_name ent' = ent_short_name ent.
Proof.
  intros ent ent'. rewrite read_columns_cases.
  destruct (head (omap column_element_error ces)); [discriminate |].
  intros [= <-]. apply fold_add_column_short_name.
Qed.

Lemma added_names_entity (el : Element) (profile profile' : Profile) :
  EntitySerializer.read_xml el profile A R = Ok profile' ->
  added_names profile' = added_names profile ++ names_of "shortName" [el].
Proof.
  unfold EntitySerializer.read_xml, names_of, EntitySerializer.SHORT_NAME.
  cbn [map List.filter].
  destruct (truthy (attribute el "shortName" "")).
  - destruct (foldM _ _ _) as [ent | e] eqn:Ecols; simpl; [| discriminate].
    intros [= <-]. rewrite added_names_add_entity. simpl.
    now rewrite (read_columns_short_name _ _ _ _ Ecols).
  - intros [= <-]. now rewrite app_nil_r.
Qed.

Lemma added_names_entities (els : list Element) :
  forall profile profile',
    foldM (fun el p => EntitySerializer.read_xml el p A R) els profile
    = Ok profile' ->
    added_names profile' = added_names profile ++ names_of "shortName" els.
Proof.
  induction els as [| el els IH]; intros profile profile'.
  - simpl. intros [= <-]. now rewrite app_nil_r.
  - cbn [foldM].
    destruct (EntitySerializer.read_xml el profile A R) as [p1 | e] eqn:E1;
      simpl; [| discriminate].
    intros Hrest. rewrite (IH _ _ Hrest), (added_names_entity _ _ _ E1).
    rewrite <- app_assoc. f_equal.
    now rewrite <- names_of_app.
Qed.

Lemma added_names_social_tenure (str_el : Element) (profile : Profile) :
  added_names (SocialTenureSerializer.read_xml str_el profile)
  = added_names profile.
Proof.
  unfold SocialTenureSerializer.read_xml.
  destruct (truthy (attribute str_el SocialTenureSerializer.PARTY ""));
    destruct (truthy (attribute str_el SocialTenureSerializer.SPATIAL_UNIT ""));
    reflexivity.
Qed.

(** The value list loop, in closed form. *)
Lemma value_lists_read (els : list Element) :
  forall profile,
    fold_left (fun p el => ValueListSerializer.read_value_list el p) els
      profile
    = fold_left with_value_list els profile.
Proof.
  induction els as [| el els IH]; intros profile; [reflexivity |].
  cbn [fold_left]. now rewrite IH, read_value_list_spec.
Qed.

(** The entity loops: they raise the first exception an entity element
    has, and otherwise add the entities built, one after the other. *)
Lemma entities_read (els : list Element) :
  forall profile,
    foldM (fun el p => EntitySerializer.read_xml el p A R) els profile
    = match head (omap entity_error els) with
      | Some e => Raise e
      | None => Ok (fold_left (with_entity A R) els profile)
      end.
Proof.
  induction els as [| el els IH]; intros profile; [reflexivity |].
  cbn [foldM omap list_omap fold_left]. rewrite entity_read_cases.
  destruct (entity_error el) as [e |]; [reflexivity |].
  cbv beta iota delta [mbind result_bind Py.bind]. apply IH.
Qed.

Lemma read_entities_cases (element : Element) (profile : Profile) :
  ProfileSerializer.read_entities element profile A R
  = match head (omap entity_error
                  (immediate_elements element ++ queued_elements element))
    with
    | Some e => Raise e
    | None => Ok (three_phases A R element profile)
    end.
Proof.
  rewrite read_entities_spec, entities_read, value_lists_read. reflexivity.
Qed.

Lemma added_names_with_value_lists (els : list Element) (profile : Profile) :
  added_names (fold_left with_value_list els profile)
  = added_names profile ++ names_of "name" els.
Proof.
  rewrite <- value_lists_read. apply added_names_value_lists.
Qed.

Lemma added_names_with_entities (els : list Element) :
  forall profile,
    added_names (fold_left (with_entity A R) els profile)
    = added_names profile ++ names_of "shortName" els.
Proof.
  induction els as [| el els IH]; intros profile.
  - simpl. now rewrite app_nil_r.
  - cbn [fold_left]. rewrite IH. unfold with_entity, names_of.
    cbn [map List.filter].
    destruct (truthy (attribute el "shortName" "")); [| reflexivity].
    rewrite added_names_add_entity. simpl. now rewrite <- app_assoc.
Qed.

Lemma added_names_three_phases (element : Element) (profile : Profile) :
  added_names (three_phases A R element profile)
  = added_names profile
      ++ names_of "name" (value_list_elements element)
      ++ names_of "shortName" (immediate_elements element)
      ++ names_of "shortName" (queued_elements element).
Proof.
  unfold three_phases.
  rewrite added_names_with_entities, added_names_with_value_lists.
  now rewrite names_of_app, <- !app_assoc.
Qed.

End Loader.

(** C3, as the code has it. The entities of a profile element are loaded
    in three phases: first the value list elements below the first value
    lists group, each named one added with the code and value of every
    CodeValue descendant whose value is not empty; then the entity
    elements without dependency, in document order; then the entity
    elements with a dependency, in their document order. Each entity
    element with a short name adds the entity built from its attributes
    and its column elements. The reading raises the first exception an
    entity element has, in that order, and otherwise the objects of the
    profile are exactly those, in that order; a value list element of
    another group is not read. *)
Theorem entities_load_in_three_phases {Sc : Scalars} {Ext : External} :
  forall (element : Element) (profile : Profile) (A R : gmap string Element),
    ProfileSerializer.read_entities element profile A R
    = match head (omap entity_error
                    (immediate_elements element ++ queued_elements element))
      with
      | Some e => Raise e
      | None => Ok (three_phases A R element profile)
      end
    /\ added_names (three_phases A R element profile)
       = added_names profile
           ++ names_of "name" (value_list_elements element)
           ++ names_of "shortName" (immediate_elements element)
           ++ names_of "shortName" (queued_elements element)
    /\ (forall loaded,
          ProfileSerializer.read_xml element = Ok (Some loaded) ->
          prf_added loaded
          = prf_added
              (three_phases
                 (ProfileSerializer._populate_associations element ∅)
                 (ProfileSerializer._populate_entity_relations element ∅)
                 element (new_profile (attribute element "name" "")))
          /\ added_names loaded
             = names_of "name" (value_list_elements element)
                 ++ names_of "shortName" (immediate_elements element)
                 ++ names_of "shortName" (queued_elements element)).
Proof.
  intros element profile A R.
  split; [apply read_entities_cases |].
  split; [apply added_names_three_phases |].
  intros loaded. unfold ProfileSerializer.read_xml.
  destruct (negb (truthy (attribute element "name" ""))); [discriminate |].
  rewrite read_entities_cases.
  destruct (head (omap entity_error _)); [discriminate |].
  cbv beta iota delta [mbind result_bind Py.bind].
  intros [= <-].
  assert (Hadded : forall p,
            prf_added
              match firstChildElement element "SocialTenure" with
              | Some str_el => SocialTenureSerializer.read_xml str_el p
              | None => p
              end = prf_added p).
  { intros p. destruct (firstChildElement element "SocialTenure");
      [| reflexivity].
    unfold SocialTenureSerializer.read_xml.
    destruct (truthy (attribute _ SocialTenureSerializer.PARTY ""));
      destruct (truthy (attribute _ SocialTenureSerializer.SPATIAL_UNIT ""));
      reflexivity. }
  split; [apply Hadded |].
  unfold added_names at 1. rewrite Hadded.
  exact (added_names_three_phases _ _ element
           (new_profile (attribute element "name" ""))).
Qed.

Lemma entities_load_in_three_phases_witness :
  exists loaded,
    ProfileSerializer.read_xml (Ext := Example.env) Example.profile_element
    = Ok (Some loaded)
    /\ added_names loaded = ["status"; "party"; "parcel"]
    /\ head (prf_added loaded)
       = Some (AValueList
                 {| vl_short_name := "status";
                    vl_values := [ {| cv_code := "1";
                                      cv_value := "Active" |} ] |}).
Proof.
  destruct (ProfileSerializer.read_xml (Ext := Example.env)
              Example.profile_element) as [[loaded |] | e] eqn:Hloaded.
  - exists loaded.
    destruct (entities_load_in_three_phases (Ext := Example.env)
                Example.profile_element (new_profile "default") ∅ ∅)
      as (_ & _ & Hnames).
    destruct (Hnames loaded Hloaded) as [Hadded Horder].
    split; [reflexivity |].
    rewrite Horder, Hadded. vm_compute. split; reflexivity.
  - exfalso. vm_compute in Hloaded. discriminate Hloaded.
  - exfalso. vm_compute in Hloaded. discriminate Hloaded.
Defined.

(** C3, as stated, fails on a profile element with two value lists
    groups: the value list element of the second group is a value list
    element of the profile element, yet the profile that loads holds the
    value list of the first group only. *)
Lemma second_value_lists_group_is_not_read :
  map (fun el => attribute el "name" "")
    (elementsByTagName Example.two_groups_element "ValueList")
  = ["status"; "gender"]
  /\ exists loaded,
       ProfileSerializer.read_xml (Ext := Example.env)
         Example.two_groups_element
       = Ok (Some loaded)
       /\ added_names loaded = ["status"; "party"].
Proof.
  split; [vm_compute; reflexivity |].
  destruct (ProfileSerializer.read_xml (Ext := Example.env)
              Example.two_groups_element) as [[loaded |] | e] eqn:Hloaded.
  - exists loaded. split; [reflexivity |].
    vm_compute in Hloaded. injection Hloaded as <-. reflexivity.
  - exfalso. vm_compute in Hloaded. discriminate Hloaded.
  - exfalso. vm_compute in Hloaded. discriminate Hloaded.
Qed.

(** *** The version gate *)

Section VersionGate.
Context {Sc : Scalars} {Ext : External}.

(** Loading the profiles hands nothing to [update]. *)
Lemma load_profiles_update_calls (els : list Element) :
  forall st, update_calls (snd (load_profiles els st)) = update_calls st.
Proof.
  induction els as [| el els IH]; intros st; cbn [load_profiles].
  - reflexivity.
  - destruct (ProfileSerializer.read_xml el) as [[p |] | e].
    + now rewrite IH.
    + apply IH.
    + reflexivity.
Qed.

Lemma load_config_items_update_calls (root : option Element) (st : State) :
  update_calls (snd (_load_config_items root st)) = update_calls st.
Proof.
  destruct root; [apply load_profiles_update_calls | reflexivity].
Qed.

(** [_update_status] records the call, and raises a configuration error
    exactly when [update] reports failure; the configuration is not
    touched. *)
Lemma update_status_spec
    (upd : option Document -> bool * option Document) (st : State)
    (document : option Document) :
  update_calls (snd (_update_status upd st document))
  = update_calls st ++ [document]
  /\ config (snd (_update_status upd st document)) = config st
  /\ (fst (upd document) = false ->
      exists msg,
        fst (_update_status upd st document)
        = Raise (ConfigurationException msg))
  /\ (fst (upd document) = true ->
      fst (_update_status upd st document) = Ok (snd (upd document))).
Proof.
  unfold _update_status. destruct (upd document) as [[] doc]; simpl.
  - repeat split; first [discriminate | reflexivity].
  - repeat split; first [discriminate | reflexivity | eauto].
Qed.

End VersionGate.

(** C4. Loading a document whose root carries a version below the running
    version hands the document to the update step, once. When that step
    reports failure the load raises a configuration error, and the
    configuration is the one the reset at the start of the load left: no
    profile is registered. *)
Theorem stale_version_invokes_update {Sc : Scalars} {Ext : External} :
  forall (upd : option Document -> bool * option Document) (st : State)
         (document : Document) (root : Element) (version : string)
         (v : float),
    documentElement document = Some root ->
    attributes root !! "version" = Some version ->
    version <> "" ->
    py_float version = Some v ->
    float_lt v VERSION = true ->
    update_calls (snd (load upd st (Parsed document)))
    = update_calls st ++ [Some document]
    /\ (fst (upd (Some document)) = false ->
        (exists msg,
           fst (load upd st (Parsed document))
           = Raise (ConfigurationException msg))
        /\ config (snd (load upd st (Parsed document))) = _clear (config st)
        /\ profiles (config (snd (load upd st (Parsed document)))) = ∅).
Proof.
  intros upd st document root version v Hroot Hattr Hne Hfloat Hlt.
  cbn [load]. unfold ConfigurationFileSerializer.read_xml. rewrite Hroot.
  unfold null_hasAttribute, null_attribute, hasAttribute, attribute.
  rewrite Hattr. simpl negb. cbv iota.
  apply truthy_true in Hne. rewrite Hne. simpl negb. cbv iota.
  rewrite Hfloat, Hlt.
  set (st0 := with_config st (_clear (config st))).
  destruct (update_status_spec upd st0 (Some document))
    as (Hcalls & Hconfig & Hfail & Hok).
  destruct (upd (Some document)) as [status doc] eqn:Eupd.
  destruct status.
  - specialize (Hok eq_refl).
    destruct (_update_status upd st0 (Some document)) as [r st1] eqn:Est.
    simpl in Hcalls, Hconfig, Hok. subst r. split; [| discriminate].
    destruct (root_of doc) as [doc_element | e]; simpl.
    + now rewrite load_config_items_update_calls.
    + exact Hcalls.
  - destruct (Hfail eq_refl) as [msg Hraise].
    destruct (_update_status upd st0 (Some document)) as [r st1] eqn:Est.
    simpl in Hcalls, Hconfig, Hraise. subst r. simpl.
    split; [exact Hcalls |]. intros _.
    split; [now exists msg |]. rewrite Hconfig. split; reflexivity.
Qed.

Lemma stale_version_invokes_update_witness :
  let st := {| path := "config.stc";
               config := add_profile {| profiles := ∅ |}
                           (new_profile (Sc := Example.scalars) "old");
               update_calls := [] |} in
  let outcome := load (Ext := Example.env) update st
                   (Parsed (Example.document_of_version "1.0")) in
  update_calls (snd outcome) = [Some (Example.document_of_version "1.0")]
  /\ (exists msg, fst outcome = Raise (ConfigurationException msg))
  /\ profiles (config (snd outcome)) = ∅.
Proof.
  cbv zeta.
  destruct (stale_version_invokes_update (Ext := Example.env) update
              {| path := "config.stc";
                 config := add_profile {| profiles := ∅ |}
                             (new_profile (Sc := Example.scalars) "old");
                 update_calls := [] |}
              (Example.document_of_version "1.0")
              (Example.el "Configuration" [("version", "1.0")]
                 [Example.profile_element])
              "1.0" {| Example.mantissa := 10; Example.places := 1 |})
    as [Hcalls Hfail].
  - reflexivity.
  - vm_compute. reflexivity.
  - discriminate.
  - vm_compute. reflexivity.
  - vm_compute. reflexivity.
  - split; [exact Hcalls |].
    destruct (Hfail eq_refl) as (Hraise & _ & Hempty).
    split; [exact Hraise | exact Hempty].
Defined.

(** *** Writing a profile and reading it back *)

Section RoundTrip.
Context {Sc : Scalars} {Ext : External}.
Variables A R : gmap string Element.

(** Reading columns leaves the constructor arguments of the entity
    alone. *)
Lemma read_columns_optional_args (profile : Profile) (ces : list Element) :
  forall ent ent',
    foldM (EntitySerializer.read_column profile A R) ces ent = Ok ent' ->
    ent_optional_args ent' = ent_optional_args ent.
Proof.
  intros ent ent'. rewrite read_columns_cases.
  destruct (head (omap column_element_error ces)); [discriminate |].
  intros [= <-]. now rewrite fold_add_column.
Qed.

(** The text of the createId attribute is stored under the keyword
    [is_proxy]: whatever the proxy attribute says, an entity element with a
    createId text is built with [is_proxy] set from that text, and no
    keyword for the identifier column. *)
Lemma create_id_is_read_as_proxy (el : Element) (profile profile' : Profile) :
  attribute el "shortName" "" <> "" ->
  attribute el "createId" "" <> "" ->
  EntitySerializer.read_xml el profile A R = Ok profile' ->
  exists ent,
    prf_added profile' = prf_added profile ++ [AnEntity ent]
    /\ ent_optional_args ent !! "is_proxy"
       = Some (_str_to_bool (attribute el "createId" ""))
    /\ ent_optional_args ent !! "create_id_column" = None.
Proof.
  intros Hname Hcreate. apply truthy_true in Hname, Hcreate.
  unfold EntitySerializer.read_xml, EntitySerializer.SHORT_NAME. rewrite Hname.
  destruct (foldM _ _ _) as [ent | e] eqn:Ecols; simpl; [| discriminate].
  intros [= <-]. exists ent. split; [reflexivity |].
  rewrite (read_columns_optional_args _ _ _ _ Ecols). simpl.
  unfold EntitySerializer.set_flag, EntitySerializer.CREATE_ID. rewrite Hcreate.
  destruct (truthy (attribute el EntitySerializer.SUPPORTS_DOCUMENTS ""));
    destruct (truthy (attribute el EntitySerializer.PROXY ""));
    destruct (truthy (attribute el EntitySerializer.GLOBAL ""));
    simplify_map_eq; split; reflexivity.
Qed.

End RoundTrip.

(** C1, on a profile with one entity that is no proxy and creates its
    identifier column. The profile is written and the profile element read
    back: the entity that comes back is a proxy. *)
Theorem round_trip_turns_proxy_on :
  proxy_flags (Ext := Example.env) Example.party_profile
  = [("party", false)]
  /\ create_id_column (Ext := Example.env) Example.party_entity = true
  /\ option_map proxy_flags
       <$> round_trip (Ext := Example.env) Example.party_profile
     = Ok (Some [("party", true)]).
Proof.
  split; [vm_compute; reflexivity |].
  split; vm_compute; reflexivity.
Qed.

(** *** The index of named declarations *)

Lemma populate_fold_lookup (l : list Element) :
  forall (collection : gmap string Element) (name : string),
    fold_left
      (fun coll er_el =>
         if hasAttribute er_el "name"
         then <[attribute er_el "name" "" := er_el]> coll
         else coll) l collection !! name
    = match last (List.filter
                    (fun el => hasAttribute el "name"
                               && String.eqb (attribute el "name" "") name)
                    l) with
      | Some el => Some el
      | None => collection !! name
      end.
Proof.
  induction l as [| x l IH]; intros collection name; [reflexivity |].
  cbn [fold_left List.filter]. rewrite IH.
  destruct (hasAttribute x "name") eqn:Hattr; simpl.
  - destruct (String.eqb (attribute x "name" "") name) eqn:Hname.
    + apply String.eqb_eq in Hname. rewrite last_cons.
      destruct (last (List.filter _ l)); [reflexivity |].
      rewrite Hname. apply lookup_insert_eq.
    + apply String.eqb_neq in Hname.
      destruct (last (List.filter _ l)); [reflexivity |].
      now apply lookup_insert_ne.
  - reflexivity.
Qed.

(** X1. The index built from a group of declarations maps a name to the
    last child of the first group element that carries this name in its
    name attribute; children without a name attribute are not indexed, and
    a name no child carries keeps what the collection held before. Without
    a group element the collection is unchanged. *)
Theorem populate_collections_lookup :
  forall (element : Element) (tag_name : string)
         (collection : gmap string Element) (name : string),
    _populate_collections_from_element element tag_name collection !! name
    = match firstChildElement element tag_name with
      | Some group_el =>
          match last (List.filter
                        (fun el =>
                           hasAttribute el "name"
                           && String.eqb (attribute el "name" "") name)
                        (childNodes group_el)) with
          | Some el => Some el
          | None => collection !! name
          end
      | None => collection !! name
      end.
Proof.
  intros element tag_name collection name.
  unfold _populate_collections_from_element.
  destruct (firstChildElement element tag_name); [| reflexivity].
  apply populate_fold_lookup.
Qed.

(** *** Relations, associations and social tenure, written and read back *)

Section SmallRoundTrips.
Context {Sc : Scalars} {Ext : External}.

(** X2. Writing a relation appends one EntityRelation element that carries
    the relation's name; reading that element gives back the parent, the
    child and both columns, while the name is not read: the relation read
    names itself from its four fields. *)
Theorem relation_round_trip :
  forall (er : EntityRelation) (parent_node : Element),
    exists el,
      EntityRelationSerializer.write_xml er parent_node
      = appendChild parent_node el
      /\ tagName el = "EntityRelation"
      /\ attribute el "name" "" = er_name er
      /\ EntityRelationSerializer.read_xml el
         = {| er_name :=
                relation_gen_name (er_parent er) (er_parent_column er)
                  (er_child er) (er_child_column er);
              er_parent := er_parent er;
              er_parent_column := er_parent_column er;
              er_child := er_child er;
              er_child_column := er_child_column er |}.
Proof.
  intros er parent_node. eexists. split; [reflexivity |].
  split; [reflexivity |]. split; reflexivity.
Qed.


End SmallRoundTrips.

(** *** Group elements *)

Import WriterFacts.

Lemma append_in_first_none (tag : string) (child : Element)
    (cs : list Element) :
  append_in_first tag child cs = None <-> first_with_tag tag cs = None.
Proof.
  induction cs as [| c cs IH]; simpl; [tauto |].
  destruct (String.eqb (tagName c) tag); [split; discriminate |].
  destruct (append_in_first tag child cs); simpl.
  - split; [discriminate |]. intros E. apply IH in E. discriminate E.
  - split; [intros _; now apply IH | reflexivity].
Qed.

Lemma append_in_first_some (tag : string) (child : Element)
    (cs cs' : list Element) :
  append_in_first tag child cs = Some cs' ->
  exists group,
    first_with_tag tag cs = Some group
    /\ first_with_tag tag cs' = Some (appendChild group child)
    /\ length (List.filter (fun c => String.eqb (tagName c) tag) cs')
       = length (List.filter (fun c => String.eqb (tagName c) tag) cs).
Proof.
  revert cs'. induction cs as [| c cs IH]; intros cs'; simpl;
    [discriminate |].
  destruct (String.eqb (tagName c) tag) eqn:Etag.
  - intros [= <-]. exists c. split; [reflexivity |]. simpl.
    assert (Et : String.eqb (tagName (appendChild c child)) tag = true)
      by (destruct c; exact Etag).
    rewrite Et. split; reflexivity.
  - destruct (append_in_first tag child cs) as [cs1 |]; simpl;
      [| discriminate].
    intros [= <-]. destruct (IH cs1 eq_refl) as (group & H1 & H2 & H3).
    exists group. simpl. rewrite Etag. repeat split; assumption.
Qed.

Lemma first_with_tag_app_none (tag : string) (cs : list Element)
    (c : Element) :
  first_with_tag tag cs = None ->
  String.eqb (tagName c) tag = true ->
  first_with_tag tag (cs ++ [c]) = Some c.
Proof.
  intros Hnone Hc. induction cs as [| x cs IH]; simpl in *.
  - now rewrite Hc.
  - destruct (String.eqb (tagName x) tag); [discriminate | now apply IH].
Qed.

Lemma filter_tag_none (tag : string) (cs : list Element) :
  first_with_tag tag cs = None ->
  List.filter (fun c => String.eqb (tagName c) tag) cs = [].
Proof.
  induction cs as [| x cs IH]; simpl; [reflexivity |].
  destruct (String.eqb (tagName x) tag); [discriminate | exact IH].
Qed.

Lemma first_with_tag_some_filter (tag : string) (cs : list Element)
    (g : Element) :
  first_with_tag tag cs = Some g ->
  (1 <= length (List.filter (fun c => String.eqb (tagName c) tag) cs))%nat.
Proof.
  induction cs as [| x cs IH]; simpl; [discriminate |].
  destruct (String.eqb (tagName x) tag); simpl; [lia | exact IH].
Qed.

Lemma append_to_group_spec :
  forall (cls : EntitySerializerCollection.Serializer) (group_tag : string)
         (parent_node child : Element),
    GROUP_TAG cls = Some group_tag ->
    exists group,
      firstChildElement (append_to_group cls parent_node child) group_tag
      = Some group
      /\ tagName group = group_tag
      /\ last (childNodes group) = Some child
      /\ count_tag group_tag (append_to_group cls parent_node child)
         = Nat.max 1 (count_tag group_tag parent_node).
Proof.
  intros cls group_tag parent_node child Hgroup.
  unfold append_to_group, firstChildElement, count_tag. rewrite Hgroup.
  destruct parent_node as [t a cs].
  destruct (append_in_first group_tag child cs) as [cs' |] eqn:Eapp.
  - destruct (append_in_first_some _ _ _ _ Eapp) as (g & Hg & Hg' & Hlen).
    exists (appendChild g child). cbn [childNodes]. split; [exact Hg' |].
    split.
    + clear - Hg. induction cs as [| x cs IH]; simpl in Hg; [discriminate |].
      destruct (String.eqb (tagName x) group_tag) eqn:Ex.
      * injection Hg as <-. apply String.eqb_eq in Ex. now destruct x.
      * now apply IH.
    + split; [destruct g; cbn [appendChild childNodes]; apply last_snoc |].
      rewrite Hlen. pose proof (first_with_tag_some_filter _ _ _ Hg). lia.
  - apply append_in_first_none in Eapp.
    exists (appendChild (createElement group_tag) child).
    cbn [childNodes].
    assert (Htag : String.eqb
                     (tagName (appendChild (createElement group_tag) child))
                     group_tag = true) by (simpl; apply String.eqb_refl).
    split; [now apply first_with_tag_app_none |].
    split; [reflexivity |]. split; [reflexivity |].
    rewrite List.filter_app, length_app, (filter_tag_none _ _ Eapp).
    simpl. now rewrite String.eqb_refl.
Qed.

(** X4. Appending a child through the group of a serializer puts it last
    in the first group element of the parent, which is created when the
    parent has none; the parent never gets a second group element from
    it. *)
Theorem group_element_is_shared :
  forall (cls : EntitySerializerCollection.Serializer) (group_tag : string)
         (parent_node child : Element),
    GROUP_TAG cls = Some group_tag ->
    exists group,
      firstChildElement (append_to_group cls parent_node child) group_tag
      = Some group
      /\ tagName group = group_tag
      /\ last (childNodes group) = Some child
      /\ count_tag group_tag (append_to_group cls parent_node child)
         = Nat.max 1 (count_tag group_tag parent_node).
Proof. exact append_to_group_spec. Qed.

Lemma group_element_is_shared_witness :
  exists group,
    firstChildElement
      (append_to_group EntitySerializerCollection.ValueListSerializer
         (createElement "Profile") (createElement "ValueList"))
      "ValueLists" = Some group
    /\ last (childNodes group) = Some (createElement "ValueList").
Proof.
  destruct (group_element_is_shared
              EntitySerializerCollection.ValueListSerializer "ValueLists"
              (createElement "Profile") (createElement "ValueList")
              eq_refl) as (group & Hfirst & _ & Hlast & _).
  exists group. split; [exact Hfirst | exact Hlast].
Defined.

(** *** Association entities and value lists, written and read back *)

Section GroupedRoundTrips.
Context {Sc : Scalars} {Ext : External}.

Lemma last_filter_snoc (P : Element -> bool) (l : list Element)
    (x : Element) :
  P x = true -> last (List.filter P (l ++ [x])) = Some x.
Proof.
  intros HP. rewrite List.filter_app. simpl. rewrite HP. apply last_snoc.
Qed.

(** X5. Writing an association entity puts one Association element last
    in the Associations group of the parent. Reading that element gives
    the association entity back when its short name is not empty and
    nothing otherwise, and the index of associations built from the parent
    finds the element under the display name the writer gave it. *)
Theorem association_round_trip :
  forall (profile_name : string) (ae : AssociationEntity)
         (parent_node : Element),
    exists group el,
      firstChildElement
        (AssociationEntitySerializer.write_xml profile_name ae parent_node)
        "Associations" = Some group
      /\ last (childNodes group) = Some el
      /\ AssociationEntitySerializer.read_xml el
         = (if truthy (ae_short_name ae) then Some ae else None)
      /\ ProfileSerializer._populate_associations
           (AssociationEntitySerializer.write_xml profile_name ae
              parent_node) ∅
         !! entity_name profile_name (ae_short_name ae) = Some el.
Proof.
  intros profile_name ae parent_node.
  unfold AssociationEntitySerializer.write_xml.
  set (el := setAttribute _ AssociationEntitySerializer.SECOND_PARENT _).
  destruct (append_to_group_spec
              EntitySerializerCollection.AssociationEntitySerializer
              "Associations" parent_node el eq_refl)
    as (group & Hfirst & _ & Hlast & _).
  exists group, el. split; [exact Hfirst |]. split; [exact Hlast |]. split.
  - unfold AssociationEntitySerializer.read_xml.
    replace (attribute el EntitySerializer.SHORT_NAME "")
      with (ae_short_name ae) by reflexivity.
    destruct (truthy (ae_short_name ae)); [| reflexivity].
    destruct ae; reflexivity.
  - unfold ProfileSerializer._populate_associations,
      _populate_collections_from_element,
      AssociationEntitySerializer.GROUP_TAG.
    rewrite Hfirst. apply last_Some in Hlast. destruct Hlast as [l' ->].
    rewrite populate_fold_lookup, last_filter_snoc; [reflexivity |].
    apply andb_true_intro. split; [reflexivity |].
    apply String.eqb_eq. reflexivity.
Qed.

(** The code value loop keeps the pairs with a value, in order. *)
End GroupedRoundTrips.

(** X6. A value list element with a name adds one value list to the
    profile: its values are the code and value of every CodeValue
    descendant whose value is not empty, in document order, whatever the
    code is. An element without a name adds nothing. *)
Theorem value_list_keeps_non_empty_values {Sc : Scalars} :
  forall (value_list_el : Element) (profile : Profile),
    ValueListSerializer.read_value_list value_list_el profile
    = if truthy (attribute value_list_el "name" "")
      then add_entity profile
             (AValueList
                {| vl_short_name := attribute value_list_el "name" "";
                   vl_values := code_values_of value_list_el |})
      else profile.
Proof. exact read_value_list_spec. Qed.

(** *** The value lists of a written profile *)

Section ValueListsWritten.
Context {Sc : Scalars} {Ext : External}.

Lemma elementsByTagName_children (t : string) (a : gmap string string)
    (cs : list Element) (tag : string) :
  elementsByTagName (Elem t a cs) tag
  = flat_map
      (fun c => (if String.eqb (tagName c) tag then [c] else [])
                  ++ elementsByTagName c tag) cs.
Proof.
  induction cs as [| c cs IH]; [reflexivity |].
  cbn [flat_map]. rewrite <- IH, <- app_assoc. reflexivity.
Qed.

Lemma fold_appendChild {A} (f : A -> Element) (l : list A) (t : string)
    (a : gmap string string) (cs : list Element) :
  fold_left (fun el x => appendChild el (f x)) l (Elem t a cs)
  = Elem t a (cs ++ map f l).
Proof.
  revert cs. induction l as [| x l IH]; intros cs; simpl.
  - now rewrite app_nil_r.
  - rewrite IH, <- app_assoc. reflexivity.
Qed.

Lemma value_list_element_shape (v : ValueList) :
  value_list_element v
  = Elem "ValueList" {[ "name" := vl_short_name v ]}
      (map code_value_element (vl_values v)).
Proof.
  unfold value_list_element, setAttribute, createElement,
    ValueListSerializer.TAG_NAME.
  rewrite fold_appendChild. reflexivity.
Qed.

Lemma code_values_descendants (l : list CodeValue) (tag : string) :
  flat_map
    (fun c => (if String.eqb (tagName c) tag then [c] else [])
                ++ elementsByTagName c tag)
    (map code_value_element l)
  = if String.eqb "CodeValue" tag then map code_value_element l else [].
Proof.
  induction l as [| cv l IH]; cbn [map flat_map].
  - now destruct (String.eqb "CodeValue" tag).
  - rewrite IH.
    replace (tagName (code_value_element cv)) with "CodeValue"
      by reflexivity.
    replace (elementsByTagName (code_value_element cv) tag)
      with (@nil Element) by reflexivity.
    destruct (String.eqb "CodeValue" tag); reflexivity.
Qed.

Lemma code_values_of_written (v : ValueList) :
  code_values_of (value_list_element v) = vl_values (kept_values v).
Proof.
  unfold code_values_of, ValueListSerializer.CODE_VALUE_TAG.
  rewrite value_list_element_shape, elementsByTagName_children,
    code_values_descendants.
  cbn [String.eqb Ascii.eqb Bool.eqb kept_values vl_values].
  induction (vl_values v) as [| cv l IH]; [reflexivity |].
  cbn [map List.filter].
  replace (attribute (code_value_element cv) ValueListSerializer.CV_VALUE "")
    with (cv_value cv) by reflexivity.
  destruct (truthy (cv_value cv)); [| exact IH].
  cbn [map]. rewrite IH. destruct cv; reflexivity.
Qed.

(** A value list element the writer built reads back as the value list
    without its empty values. *)
Lemma read_written_value_list (v : ValueList) (profile : Profile) :
  ValueListSerializer.read_value_list (value_list_element v) profile
  = if truthy (vl_short_name v)
    then add_entity profile (AValueList (kept_values v))
    else profile.
Proof.
  rewrite read_value_list_spec, code_values_of_written.
  replace (attribute (value_list_element v) "name" "")
    with (vl_short_name v)
    by (rewrite value_list_element_shape; reflexivity).
  reflexivity.
Qed.

Lemma value_list_elements_descendants (l : list ValueList) :
  flat_map
    (fun c => (if String.eqb (tagName c) "ValueList" then [c] else [])
                ++ elementsByTagName c "ValueList")
    (map value_list_element l)
  = map value_list_element l.
Proof.
  induction l as [| v l IH]; [reflexivity |].
  cbn [map flat_map]. rewrite IH, value_list_element_shape.
  rewrite elementsByTagName_children, code_values_descendants.
  reflexivity.
Qed.

Lemma group_holds_elements (pe : Element) (vls : list ValueList) :
  group_holds pe vls ->
  value_list_elements pe = map value_list_element vls.
Proof.
  unfold group_holds, value_list_elements.
  destruct (firstChildElement pe "ValueLists") as [g |].
  - intros (t & a & ->). rewrite elementsByTagName_children.
    apply value_list_elements_descendants.
  - now intros ->.
Qed.

Lemma first_with_tag_snoc (tag : string) (cs : list Element) (c : Element) :
  first_with_tag tag (cs ++ [c])
  = match first_with_tag tag cs with
    | Some g => Some g
    | None => if String.eqb (tagName c) tag then Some c else None
    end.
Proof.
  induction cs as [| x cs IH]; simpl; [reflexivity |].
  destruct (String.eqb (tagName x) tag); [reflexivity | exact IH].
Qed.

Lemma firstChildElement_appendChild_other (pe c : Element) (tag : string) :
  String.eqb (tagName c) tag = false ->
  firstChildElement (appendChild pe c) tag = firstChildElement pe tag.
Proof.
  intros Htag. destruct pe as [t a cs]. unfold firstChildElement. simpl.
  rewrite first_with_tag_snoc, Htag.
  now destruct (first_with_tag tag cs).
Qed.

Lemma append_in_first_other (tag tag' : string) (child : Element)
    (cs cs' : list Element) :
  String.eqb tag tag' = false ->
  append_in_first tag child cs = Some cs' ->
  first_with_tag tag' cs' = first_with_tag tag' cs.
Proof.
  intros Hne. revert cs'. induction cs as [| c cs IH]; intros cs'; simpl;
    [discriminate |].
  destruct (String.eqb (tagName c) tag) eqn:Etag.
  - intros [= <-]. apply String.eqb_eq in Etag. simpl.
    replace (tagName (appendChild c child)) with (tagName c)
      by (now destruct c).
    rewrite Etag, Hne. reflexivity.
  - destruct (append_in_first tag child cs) as [cs1 |]; simpl;
      [| discriminate].
    intros [= <-]. simpl. rewrite (IH cs1 eq_refl). reflexivity.
Qed.

Lemma append_to_group_other (cls : EntitySerializerCollection.Serializer)
    (group_tag tag' : string) (pe child : Element) :
  GROUP_TAG cls = Some group_tag ->
  String.eqb group_tag tag' = false ->
  firstChildElement (append_to_group cls pe child) tag'
  = firstChildElement pe tag'.
Proof.
  intros Hgroup Hne. unfold append_to_group, firstChildElement.
  rewrite Hgroup. destruct pe as [t a cs].
  destruct (append_in_first group_tag child cs) as [cs' |] eqn:Eapp.
  - exact (append_in_first_other _ _ _ _ _ Hne Eapp).
  - cbn [childNodes]. rewrite first_with_tag_snoc.
    cbn [tagName appendChild createElement]. rewrite Hne.
    now destruct (first_with_tag tag' cs).
Qed.

Lemma append_to_group_first (cls : EntitySerializerCollection.Serializer)
    (group_tag : string) (pe child : Element) :
  GROUP_TAG cls = Some group_tag ->
  firstChildElement (append_to_group cls pe child) group_tag
  = Some (appendChild
            (match firstChildElement pe group_tag with
             | Some g => g
             | None => createElement group_tag
             end) child).
Proof.
  intros Hgroup. unfold append_to_group, firstChildElement.
  rewrite Hgroup. destruct pe as [t a cs]. cbn [childNodes].
  destruct (append_in_first group_tag child cs) as [cs' |] eqn:Eapp.
  - destruct (append_in_first_some _ _ _ _ Eapp) as (g & Hg & Hg' & _).
    now rewrite Hg.
  - apply append_in_first_none in Eapp. rewrite Eapp.
    apply first_with_tag_app_none; [exact Eapp |].
    simpl. apply String.eqb_refl.
Qed.

Lemma append_to_group_attributes
    (cls : EntitySerializerCollection.Serializer) (pe child : Element) :
  attributes (append_to_group cls pe child) = attributes pe
  /\ tagName (append_to_group cls pe child) = tagName pe.
Proof.
  unfold append_to_group. destruct (GROUP_TAG cls) as [g |];
    destruct pe as [t a cs]; [| split; reflexivity].
  destruct (append_in_first g child cs); split; reflexivity.
Qed.

(** Writing an entity appends one Entity element. *)
Lemma entity_write_appends (profile_name : string) (e : Entity)
    (pe pe' : Element) :
  EntitySerializer.write_xml profile_name e pe = Ok pe' ->
  exists el, pe' = appendChild pe el /\ tagName el = "Entity".
Proof.
  unfold EntitySerializer.write_xml.
  destruct (foldM EntitySerializer.write_column _ _) as [cols |];
    simpl; [| discriminate].
  intros [= <-]. eexists. split; [reflexivity | reflexivity].
Qed.

Lemma write_entities_group (profile_name : string) (l : list EntityLike) :
  forall (pe pe' : Element) (vls : list ValueList),
    group_holds pe vls ->
    foldM (ProfileSerializer.write_entity profile_name) l pe = Ok pe' ->
    group_holds pe' (vls ++ omap is_value_list l)
    /\ attributes pe' = attributes pe
    /\ tagName pe' = tagName pe.
Proof.
  induction l as [| x l IH]; intros pe pe' vls Hinv; cbn [foldM].
  - intros [= <-]. simpl. rewrite app_nil_r. auto.
  - destruct (ProfileSerializer.write_entity profile_name x pe)
      as [pe1 |] eqn:E1; simpl; [| discriminate].
    intros Hrest.
    assert (H1 : group_holds pe1 (vls ++ omap is_value_list [x])
                 /\ attributes pe1 = attributes pe
                 /\ tagName pe1 = tagName pe).
    { destruct x as [e | v | a].
      - change (EntitySerializer.write_xml profile_name e pe = Ok pe1) in E1.
        apply entity_write_appends in E1. destruct E1 as (el & -> & Htag).
        simpl. rewrite app_nil_r. split; [| destruct pe; auto].
        unfold group_holds in *.
        rewrite firstChildElement_appendChild_other; [exact Hinv |].
        now rewrite Htag.
      - change (Ok (ValueListSerializer.write_xml v pe) = Ok pe1) in E1.
        injection E1 as <-. split;
          [| apply (append_to_group_attributes
                      EntitySerializerCollection.ValueListSerializer)].
        unfold group_holds in *.
        change (ValueListSerializer.write_xml v pe)
          with (append_to_group
                  EntitySerializerCollection.ValueListSerializer pe
                  (value_list_element v)).
        rewrite (append_to_group_first _ "ValueLists") by reflexivity.
        destruct (firstChildElement pe "ValueLists") as [g |].
        + destruct Hinv as (t & a & ->). exists t, a. simpl.
          now rewrite map_app.
        + subst vls. eexists _, _. reflexivity.
      - change (Ok (AssociationEntitySerializer.write_xml profile_name a pe)
                = Ok pe1) in E1.
        injection E1 as <-. simpl omap. rewrite app_nil_r. split;
          [| apply (append_to_group_attributes
                      EntitySerializerCollection.AssociationEntitySerializer)].
        unfold group_holds in *.
        unfold AssociationEntitySerializer.write_xml.
        rewrite (append_to_group_other _ "Associations") by reflexivity.
        exact Hinv. }
    destruct H1 as (Hinv1 & Ha1 & Ht1).
    destruct (IH _ _ _ Hinv1 Hrest) as (Hinv' & Ha' & Ht').
    split; [| split; congruence].
    rewrite <- app_assoc in Hinv'.
    cbn [omap list_omap app] in Hinv' |- *.
    destruct (is_value_list x); exact Hinv'.
Qed.

Lemma written_value_lists_read (vls : list ValueList) :
  forall profile,
    fold_left (fun p el => ValueListSerializer.read_value_list el p)
      (map value_list_element vls) profile
    = fold_left
        (fun p v => if truthy (vl_short_name v)
                    then add_entity p (AValueList (kept_values v))
                    else p) vls profile.
Proof.
  induction vls as [| v vls IH]; intros profile; [reflexivity |].
  cbn [map fold_left]. now rewrite read_written_value_list, IH.
Qed.

Lemma relations_written_tag (l : list EntityRelation) (e0 : Element) :
  tagName
    (fold_left (fun el er => EntityRelationSerializer.write_xml er el) l e0)
  = tagName e0.
Proof.
  revert e0. induction l as [| er l IH]; intros e0; [reflexivity |].
  cbn [fold_left]. rewrite IH. now destruct e0.
Qed.

Lemma profile_write_spec (profile : Profile) (parent_node parent' : Element) :
  ProfileSerializer.write_xml profile parent_node = Ok parent' ->
  exists pe,
    parent' = appendChild parent_node pe
    /\ tagName pe = "Profile"
    /\ attribute pe "name" "" = prf_name profile
    /\ value_list_elements pe
       = map value_list_element (value_lists_of profile).
Proof.
  unfold ProfileSerializer.write_xml.
  destruct (foldM _ _ _) as [pe1 |] eqn:E1; simpl; [| discriminate].
  assert (Hinit : group_holds
                    (setAttribute (createElement "Profile") "name"
                       (prf_name profile)) []) by reflexivity.
  destruct (write_entities_group _ _ _ _ _ Hinit E1) as (Hinv & Hattrs & Htag).
  destruct (SocialTenureSerializer.write_xml _ _) as [pe3 |] eqn:E3; simpl;
    [| discriminate].
  intros [= <-]. exists pe3. split; [reflexivity |].
  unfold SocialTenureSerializer.write_xml in E3.
  destruct (st_party _); simpl in E3; [| discriminate].
  destruct (st_spatial_unit _); simpl in E3; [| discriminate].
  destruct (st_tenure_type_collection _); simpl in E3; [| discriminate].
  injection E3 as <-.
  split; [destruct pe1; exact Htag |].
  split.
  - unfold attribute. replace (attributes (appendChild (appendChild pe1 _) _))
      with (attributes pe1) by (now destruct pe1).
    rewrite Hattrs. reflexivity.
  - apply group_holds_elements. unfold group_holds in *.
    rewrite !firstChildElement_appendChild_other; [exact Hinv | |].
    + now rewrite relations_written_tag.
    + reflexivity.
Qed.

End ValueListsWritten.

(** X7. Writing a value list puts one ValueList element last in the
    ValueLists group of the parent; reading that element adds the value
    list back under its name with every code value whose value is not
    empty, and adds nothing when the name is empty. *)
Theorem value_list_round_trip {Sc : Scalars} {Ext : External} :
  forall (v : ValueList) (parent_node : Element) (profile : Profile),
    exists group el,
      firstChildElement (ValueListSerializer.write_xml v parent_node)
        "ValueLists" = Some group
      /\ last (childNodes group) = Some el
      /\ ValueListSerializer.read_value_list el profile
         = if truthy (vl_short_name v)
           then add_entity profile (AValueList (kept_values v))
           else profile.
Proof.
  intros v parent_node profile.
  change (ValueListSerializer.write_xml v parent_node)
    with (append_to_group EntitySerializerCollection.ValueListSerializer
            parent_node (value_list_element v)).
  destruct (append_to_group_spec
              EntitySerializerCollection.ValueListSerializer "ValueLists"
              parent_node (value_list_element v) eq_refl)
    as (group & Hfirst & _ & Hlast & _).
  exists group, (value_list_element v).
  split; [exact Hfirst |]. split; [exact Hlast |].
  apply read_written_value_list.
Qed.

(** X8. A profile that is written goes into one Profile element, appended
    to the parent and named after the profile. Loading the entities of
    that element starts with the value lists of the profile, in the order
    the writer met them, each without its empty values and those without
    a name left out; the entity elements are read after them. *)
Theorem written_profile_value_lists {Sc : Scalars} {Ext : External} :
  forall (profile : Profile) (parent_node parent' : Element),
    ProfileSerializer.write_xml profile parent_node = Ok parent' ->
    exists pe,
      parent' = appendChild parent_node pe
      /\ tagName pe = "Profile"
      /\ attribute pe "name" "" = prf_name profile
      /\ forall (p0 : Profile) (A R : gmap string Element),
           ProfileSerializer.read_entities pe p0 A R
           = foldM (fun el p => EntitySerializer.read_xml el p A R)
               (immediate_elements pe ++ queued_elements pe)
               (fold_left
                  (fun p v => if truthy (vl_short_name v)
                              then add_entity p (AValueList (kept_values v))
                              else p)
                  (value_lists_of profile) p0).
Proof.
  intros profile parent_node parent' Hwrite.
  destruct (profile_write_spec _ _ _ Hwrite) as (pe & -> & Htag & Hname & Hvls).
  exists pe. split; [reflexivity |]. split; [exact Htag |].
  split; [exact Hname |]. intros p0 A R.
  now rewrite read_entities_spec, Hvls, written_value_lists_read.
Qed.

Lemma written_profile_value_lists_witness :
  exists pe,
    ProfileSerializer.write_xml (Ext := Example.env) Example.status_profile
      (createElement "Configuration")
    = Ok (appendChild (createElement "Configuration") pe)
    /\ tagName pe = "Profile"
    /\ attribute pe "name" "" = "default"
    /\ added_names
         <$> ProfileSerializer.read_entities (Ext := Example.env) pe
               (new_profile "default") ∅ ∅
       = added_names
           <$> foldM (fun el p => EntitySerializer.read_xml el p ∅ ∅)
                 (immediate_elements pe ++ queued_elements pe)
                 (add_entity (new_profile "default")
                    (AValueList
                       {| vl_short_name := "status";
                          vl_values := [ {| cv_code := "1";
                                            cv_value := "Active" |} ] |})).
Proof.
  destruct (ProfileSerializer.write_xml (Ext := Example.env)
              Example.status_profile (createElement "Configuration"))
    as [parent' | e] eqn:Hwrite.
  - destruct (written_profile_value_lists (Ext := Example.env)
                Example.status_profile (createElement "Configuration")
                parent' Hwrite) as (pe & -> & Htag & Hname & Hread).
    exists pe. split; [reflexivity |]. split; [exact Htag |].
    split; [exact Hname |]. rewrite Hread. reflexivity.
  - exfalso. vm_compute in Hwrite. discriminate Hwrite.
Defined.

(** *** What the profile reader passes over *)

Section IgnoredChildren.
Context {Sc : Scalars} {Ext : External}.

Lemma first_with_tag_remove (tag : string) (pre post : list Element)
    (c : Element) :
  String.eqb (tagName c) tag = false ->
  first_with_tag tag (pre ++ c :: post) = first_with_tag tag (pre ++ post).
Proof.
  intros Hc. induction pre as [| x pre IH]; simpl.
  - now rewrite Hc.
  - destruct (String.eqb (tagName x) tag); [reflexivity | exact IH].
Qed.

Lemma ignored_child_tags (c : Element) (tag : string) :
  ignored_child c = true ->
  In tag ["ValueLists"; "Relations"; "Associations"; "SocialTenure"] ->
  String.eqb (tagName c) tag = false.
Proof.
  unfold ignored_child. intros Hc Htag.
  destruct (String.eqb (tagName c) "Entity") eqn:Eent.
  - apply String.eqb_eq in Eent. rewrite Eent.
    destruct Htag as [<- | [<- | [<- | [<- | []]]]]; reflexivity.
  - apply negb_true_iff in Hc.
    destruct (String.eqb (tagName c) tag) eqn:Etag; [| reflexivity].
    apply String.eqb_eq in Etag. subst tag.
    rewrite <- Hc. symmetry. apply existsb_exists.
    exists (tagName c). split; [exact Htag | apply String.eqb_refl].
Qed.

Lemma first_child_without_ignored (el el' : Element)
    (pre post : list Element) (c : Element) (tag : string) :
  childNodes el = pre ++ c :: post ->
  childNodes el' = pre ++ post ->
  ignored_child c = true ->
  In tag ["ValueLists"; "Relations"; "Associations"; "SocialTenure"] ->
  firstChildElement el tag = firstChildElement el' tag.
Proof.
  intros Hel Hel' Hc Htag. unfold firstChildElement. rewrite Hel, Hel'.
  apply first_with_tag_remove. now apply ignored_child_tags.
Qed.

(** The entity reads of a profile element do not change when an ignored
    child is taken out. *)
Lemma entity_reads_without_ignored (A R : gmap string Element)
    (pre post : list Element) (c : Element) (p0 : Profile) :
  ignored_child c = true ->
  let entity_reads cs :=
    foldM (fun el p => EntitySerializer.read_xml el p A R)
      (List.filter
         (fun x => negb (ItemSerializer.has_dependency EntitySerializer x))
         (List.filter (fun x => String.eqb (tagName x) "Entity") cs)
       ++ List.filter
            (fun x => ItemSerializer.has_dependency EntitySerializer x)
            (List.filter (fun x => String.eqb (tagName x) "Entity") cs))
      p0 in
  entity_reads (pre ++ c :: post) = entity_reads (pre ++ post).
Proof.
  intros Hc. cbv beta zeta. unfold ignored_child in Hc.
  rewrite !List.filter_app. cbn [List.filter].
  destruct (String.eqb (tagName c) "Entity") eqn:Eent; [| reflexivity].
  apply negb_true_iff, truthy_false in Hc.
  assert (Hskip : forall p, EntitySerializer.read_xml c p A R = Ok p).
  { intros p. unfold EntitySerializer.read_xml, EntitySerializer.SHORT_NAME.
    now rewrite Hc. }
  rewrite ?List.filter_app. cbn [List.filter].
  destruct (ItemSerializer.has_dependency EntitySerializer c); simpl negb;
    cbv iota.
  - rewrite !app_assoc.
    apply (foldM_skip (fun el p => EntitySerializer.read_xml el p A R)).
    exact Hskip.
  - rewrite <- !app_assoc. cbn [app].
    apply (foldM_skip (fun el p => EntitySerializer.read_xml el p A R)).
    exact Hskip.
Qed.

Lemma profile_read_without_ignored (el el' : Element)
    (pre post : list Element) (c : Element) :
  attributes el = attributes el' ->
  childNodes el = pre ++ c :: post ->
  childNodes el' = pre ++ post ->
  ignored_child c = true ->
  ProfileSerializer.read_xml el = ProfileSerializer.read_xml el'.
Proof.
  intros Hattrs Hel Hel' Hc.
  assert (Hfirst : forall tag,
            In tag ["ValueLists"; "Relations"; "Associations";
                    "SocialTenure"] ->
            firstChildElement el tag = firstChildElement el' tag).
  { intros tag. now apply (first_child_without_ignored el el' pre post c). }
  unfold ProfileSerializer.read_xml.
  rewrite (attribute_ext el el' _ _ Hattrs).
  destruct (negb (truthy (attribute el' "name" ""))); [reflexivity |].
  unfold ProfileSerializer._populate_associations,
    ProfileSerializer._populate_entity_relations,
    _populate_collections_from_element,
    AssociationEntitySerializer.GROUP_TAG.
  rewrite (Hfirst "Associations"), (Hfirst "Relations"),
    (Hfirst "SocialTenure") by (simpl; tauto).
  rewrite !read_entities_spec.
  unfold value_list_elements, immediate_elements, queued_elements,
    entity_elements.
  rewrite (Hfirst "ValueLists") by (simpl; tauto).
  rewrite Hel, Hel'.
  now rewrite (entity_reads_without_ignored _ _ pre post c _ Hc).
Qed.

End IgnoredChildren.

(** X9. The profile reader passes over an entity element without a short
    name and over every child that is neither an entity nor one of the
    groups and blocks it looks for (value lists, relations, associations,
    social tenure): the profile element reads exactly as it would without
    that child. *)
Theorem profile_reader_passes_over {Sc : Scalars} {Ext : External} :
  forall (el el' : Element) (pre post : list Element) (c : Element),
    attributes el = attributes el' ->
    childNodes el = pre ++ c :: post ->
    childNodes el' = pre ++ post ->
    ignored_child c = true ->
    ProfileSerializer.read_xml el = ProfileSerializer.read_xml el'.
Proof. exact profile_read_without_ignored. Qed.

Lemma profile_reader_passes_over_witness :
  ProfileSerializer.read_xml (Ext := Example.env)
    (Example.el "Profile" [("name", "default")]
       [Example.party_element;
        Example.el "Entity" [("description", "no short name")]
          [Example.el "Columns" [] [Example.owner_column]];
        Example.el "Relations" [] [Example.owner_relation]])
  = ProfileSerializer.read_xml (Ext := Example.env)
      (Example.el "Profile" [("name", "default")]
         [Example.party_element;
          Example.el "Relations" [] [Example.owner_relation]]).
Proof.
  apply (profile_reader_passes_over (Ext := Example.env) _ _
           [Example.party_element]
           [Example.el "Relations" [] [Example.owner_relation]]
           (Example.el "Entity" [("description", "no short name")]
              [Example.el "Columns" [] [Example.owner_column]]));
    reflexivity.
Defined.

(** *** What a loaded profile holds *)

Section LoadedProfile.
Context {Sc : Scalars} {Ext : External}.
Variables A R : gmap string Element.

Lemma add_entity_keeps (name : string) (p : Profile) (x : EntityLike) :
  named_without_association name p ->
  match x with AnAssociation _ => False | _ => True end ->
  named_without_association name (add_entity p x).
Proof.
  intros [Hname Hno] Hx. split; [exact Hname |].
  unfold no_association, add_entity. simpl.
  apply Forall_app. split; [exact Hno | now constructor].
Qed.

Lemma value_lists_keep (name : string) (els : list Element) :
  forall p,
    named_without_association name p ->
    named_without_association name
      (fold_left (fun p el => ValueListSerializer.read_value_list el p) els p).
Proof.
  induction els as [| el els IH]; intros p Hp; [exact Hp |].
  cbn [fold_left]. apply IH. rewrite read_value_list_spec.
  destruct (truthy (attribute el "name" "")); [| exact Hp].
  now apply add_entity_keeps.
Qed.

Lemma entity_read_keeps (name : string) (el : Element) (p p' : Profile) :
  named_without_association name p ->
  EntitySerializer.read_xml el p A R = Ok p' ->
  named_without_association name p'.
Proof.
  intros Hp. unfold EntitySerializer.read_xml.
  destruct (truthy (attribute el EntitySerializer.SHORT_NAME ""));
    [| now intros [= <-]].
  destruct (foldM _ _ _) as [ent | e]; simpl; [| discriminate].
  intros [= <-]. now apply add_entity_keeps.
Qed.

Lemma entity_reads_keep (name : string) (els : list Element) :
  forall p p',
    named_without_association name p ->
    foldM (fun el p => EntitySerializer.read_xml el p A R) els p = Ok p' ->
    named_without_association name p'.
Proof.
  induction els as [| el els IH]; intros p p' Hp; cbn [foldM].
  - now intros [= <-].
  - destruct (EntitySerializer.read_xml el p A R) as [p1 | e] eqn:E1; simpl;
      [| discriminate].
    apply IH. exact (entity_read_keeps _ _ _ _ Hp E1).
Qed.

Lemma social_tenure_keeps (name : string) (str_el : Element) (p : Profile) :
  named_without_association name p ->
  named_without_association name (SocialTenureSerializer.read_xml str_el p).
Proof.
  intros Hp. unfold SocialTenureSerializer.read_xml.
  destruct (truthy (attribute str_el SocialTenureSerializer.PARTY ""));
    destruct (truthy (attribute str_el SocialTenureSerializer.SPATIAL_UNIT ""));
    exact Hp.
Qed.

End LoadedProfile.

(** X10. A profile element without a name, or with an empty one, reads as
    no profile, and only such an element does. A profile that is read
    carries the name of its element, and none of its objects is an
    association entity: the association elements of the document only feed
    the index. *)
Theorem loaded_profile_shape {Sc : Scalars} {Ext : External} :
  forall (element : Element),
    (ProfileSerializer.read_xml element = Ok None
     <-> attribute element "name" "" = "")
    /\ forall loaded,
         ProfileSerializer.read_xml element = Ok (Some loaded) ->
         prf_name loaded = attribute element "name" ""
         /\ no_association loaded.
Proof.
  intros element. unfold ProfileSerializer.read_xml.
  destruct (truthy (attribute element "name" "")) eqn:Ename; simpl negb;
    cbv iota.
  - apply truthy_true in Ename.
    destruct (ProfileSerializer.read_entities element _ _ _) as [p1 | e]
      eqn:E1; simpl.
    + split; [split; [discriminate | contradiction] |].
      intros loaded [= <-].
      rewrite read_entities_spec in E1.
      assert (H1 : named_without_association (attribute element "name" "") p1).
      { eapply entity_reads_keep; [| exact E1].
        apply value_lists_keep. split; [reflexivity | constructor]. }
      destruct (firstChildElement element "SocialTenure");
        [apply social_tenure_keeps |]; exact H1.
    + split; [split; [discriminate | contradiction] | discriminate].
  - apply truthy_false in Ename.
    split; [split; [intros _; exact Ename | reflexivity] | discriminate].
Qed.

Lemma loaded_profile_shape_witness :
  exists loaded,
    ProfileSerializer.read_xml (Ext := Example.env) Example.profile_element
    = Ok (Some loaded)
    /\ prf_name loaded = "default"
    /\ no_association loaded.
Proof.
  destruct (ProfileSerializer.read_xml (Ext := Example.env)
              Example.profile_element) as [[loaded |] | e] eqn:Hloaded.
  - exists loaded. split; [reflexivity |].
    destruct (loaded_profile_shape (Ext := Example.env)
                Example.profile_element) as [_ Hshape].
    exact (Hshape loaded Hloaded).
  - exfalso. vm_compute in Hloaded. discriminate Hloaded.
  - exfalso. vm_compute in Hloaded. discriminate Hloaded.
Defined.

(** *** A profile that fails to load *)

Section FailingProfile.
Context {Sc : Scalars} {Ext : External}.

Lemma load_profiles_app (pre rest : list Element) :
  forall st,
    Forall (fun x => is_ok (ProfileSerializer.read_xml x) = true) pre ->
    fst (load_profiles pre st) = Ok tt
    /\ load_profiles (pre ++ rest) st
       = load_profiles rest (snd (load_profiles pre st)).
Proof.
  induction pre as [| x pre IH]; intros st Hpre; [split; reflexivity |].
  inversion Hpre as [| ? ? Hx Hrest]; subst.
  cbn [load_profiles app].
  destruct (ProfileSerializer.read_xml x) as [[p |] | e];
    [apply IH | apply IH | discriminate Hx]; exact Hrest.
Qed.

End FailingProfile.

(** X11. When the profile elements before one load and that one raises,
    the loop over the profile elements stops with the same exception; the
    profiles registered before it stay registered, and the profile elements
    after it are not read. *)
Theorem failing_profile_stops_the_load {Sc : Scalars} {Ext : External} :
  forall (pre post : list Element) (bad : Element) (st : State)
         (e : Exception),
    Forall (fun x => is_ok (ProfileSerializer.read_xml x) = true) pre ->
    ProfileSerializer.read_xml bad = Raise e ->
    fst (load_profiles pre st) = Ok tt
    /\ load_profiles (pre ++ bad :: post) st
       = (Raise e, snd (load_profiles pre st)).
Proof.
  intros pre post bad st e Hpre Hbad.
  destruct (load_profiles_app pre (bad :: post) st Hpre) as [Hok Happ].
  split; [exact Hok |]. rewrite Happ. cbn [load_profiles].
  now rewrite Hbad.
Qed.

Lemma failing_profile_stops_the_load_witness :
  let st := {| path := "config.stc"; config := {| profiles := ∅ |};
               update_calls := [] |} in
  load_profiles (Ext := Example.env)
    ([Example.profile_element]
       ++ Example.broken_profile_element :: [Example.profile_element]) st
  = (Raise (ValueError "invalid literal for int()"),
     snd (load_profiles (Ext := Example.env) [Example.profile_element] st)).
Proof.
  cbv zeta.
  apply (failing_profile_stops_the_load (Ext := Example.env)
           [Example.profile_element] [Example.profile_element]
           Example.broken_profile_element).
  - constructor; [vm_compute; reflexivity | constructor].
  - vm_compute. reflexivity.
Defined.

(** *** The version gate without an updater *)

Section OwnUpdate.
Context {Sc : Scalars} {Ext : External}.

Lemma own_update_raises (st : State) (document : option Document) :
  exists msg st',
    _update_status update st document
    = (Raise (ConfigurationException msg), st').
Proof. unfold _update_status, update. simpl. eauto. Qed.

End OwnUpdate.

(** X12. With the update method of the class, which reports failure for
    every document, a load succeeds only on a document whose root carries
    a version text that is a number not below the running version; the
    update step is then not called at all. *)
Theorem load_succeeds_only_on_current_version
    {Sc : Scalars} {Ext : External} :
  forall (st : State) (document : Document),
    fst (load update st (Parsed document)) = Ok tt ->
    exists root version v,
      documentElement document = Some root
      /\ attributes root !! "version" = Some version
      /\ version <> ""
      /\ py_float version = Some v
      /\ float_lt v VERSION = false
      /\ update_calls (snd (load update st (Parsed document)))
         = update_calls st.
Proof.
  intros st document. cbn [load].
  unfold ConfigurationFileSerializer.read_xml.
  set (st0 := with_config st (_clear (config st))).
  destruct (documentElement document) as [root |] eqn:Hroot.
  - unfold null_hasAttribute, null_attribute, hasAttribute, attribute.
    destruct (attributes root !! "version") as [version |] eqn:Hattr;
      simpl negb; cbv iota.
    + destruct (truthy version) eqn:Htruthy; simpl negb; cbv iota;
        [| discriminate].
      destruct (py_float version) as [v |] eqn:Hfloat; [| discriminate].
      destruct (float_lt v VERSION) eqn:Hlt.
      * destruct (own_update_raises st0 (Some document)) as (msg & st' & ->).
        discriminate.
      * cbn [root_of]. rewrite Hroot. intros Hok.
        exists root, version, v. repeat split; try assumption.
        -- now apply truthy_true.
        -- now rewrite load_config_items_update_calls.
    + destruct (own_update_raises st0 (Some document)) as (msg & st' & ->).
      discriminate.
  - destruct (own_update_raises st0 (Some document)) as (msg & st' & ->).
    discriminate.
Qed.

Lemma load_succeeds_only_on_current_version_witness :
  let st := {| path := "config.stc"; config := {| profiles := ∅ |};
               update_calls := [] |} in
  fst (load (Ext := Example.env) update st
         (Parsed (Example.document_of_version "1.2"))) = Ok tt
  /\ exists root version v,
       documentElement (Example.document_of_version "1.2") = Some root
       /\ attributes root !! "version" = Some version
       /\ version <> ""
       /\ py_float version = Some v
       /\ float_lt v VERSION = false
       /\ update_calls
            (snd (load (Ext := Example.env) update st
                    (Parsed (Example.document_of_version "1.2"))))
          = [].
Proof.
  cbv zeta.
  assert (Hok : fst (load (Ext := Example.env) update
                       {| path := "config.stc";
                          config := {| profiles := ∅ |};
                          update_calls := [] |}
                       (Parsed (Example.document_of_version "1.2")))
                = Ok tt) by (vm_compute; reflexivity).
  split; [exact Hok |].
  exact (load_succeeds_only_on_current_version (Ext := Example.env) _ _ Hok).
Defined.



(** *** What the column reader raises *)

Section ColumnRaises.
Context {Sc : Scalars} {Ext : External}.

Lemma geometry_error_is_value_error (element : Element) (e : Exception) :
  geometry_error element = Some e -> is_ValueError e = true.
Proof.
  unfold geometry_error.
  destruct (firstChildElement element "Geometry") as [geom_el |];
    [| discriminate].
  destruct (int_outcome (attribute geom_el "type" "2"))
    as [[g Eg] | [e1 [Eg He1]]]; rewrite Eg; [| now intros [= <-]].
  destruct (int_outcome (attribute geom_el "srid" "4326"))
    as [[s Es] | [e2 [Es He2]]]; rewrite Es; [discriminate |].
  now intros [= <-].
Qed.

Lemma column_error_spec (element : Element) (e : Exception) :
  column_error element = Some e
  <-> (ascii_only (type_info element) = false /\ e = encode_error)
      \/ (type_info element = "GEOMETRY"
          /\ attribute element "name" "" <> ""
          /\ geometry_error element = Some e).
Proof.
  unfold column_error, Py.str.
  destruct (ascii_only (type_info element)) eqn:Ha.
  - destruct (String.eqb (type_info element) "GEOMETRY") eqn:Eg;
      destruct (truthy (attribute element "name" "")) eqn:En; simpl.
    + apply String.eqb_eq in Eg. apply truthy_true in En. split.
      * intros H. right. auto.
      * intros [[H _] | (_ & _ & H)]; [discriminate H | exact H].
    + split; [discriminate |].
      intros [[H _] | (_ & Hn & _)]; [discriminate H |].
      apply truthy_true in Hn. congruence.
    + split; [discriminate |].
      intros [[H _] | (Ht & _)]; [discriminate H |].
      apply String.eqb_eq in Ht. congruence.
    + split; [discriminate |].
      intros [[H _] | (Ht & _)]; [discriminate H |].
      apply String.eqb_eq in Ht. congruence.
  - split.
    + intros [= <-]. left. auto.
    + intros [[_ ->] | (Ht & _)]; [reflexivity |].
      rewrite Ht in Ha. discriminate Ha.
Qed.

End ColumnRaises.

(** X14. The column reader raises in two cases only. When the type tag of
    the element has a character beyond ASCII, it raises the
    UnicodeEncodeError of [str]. When the element is of the geometry
    kind, has a name, and [int] rejects the type or the SRID of its
    Geometry child, it raises what [int] raises, a ValueError that nothing
    catches. For every other column element, whatever its attributes,
    children and bounds, the reader returns. *)
Theorem column_reader_raises_iff {Sc : Scalars} {Ext : External} :
  forall (element : Element) (entity : Entity) (profile : Profile)
         (A R : gmap string Element),
    (forall e,
       read_xml element entity profile A R = Raise e
       <-> (ascii_only (type_info element) = false /\ e = encode_error)
           \/ (type_info element = "GEOMETRY"
               /\ attribute element "name" "" <> ""
               /\ geometry_error element = Some e))
    /\ (forall e, geometry_error element = Some e -> is_ValueError e = true)
    /\ ((exists entity', read_xml element entity profile A R = Ok entity')
        <-> ascii_only (type_info element) = true
            /\ ~ (type_info element = "GEOMETRY"
                  /\ attribute element "name" "" <> ""
                  /\ geometry_error element <> None)).
Proof.
  intros element entity profile A R.
  assert (Hraise : forall e,
            read_xml element entity profile A R = Raise e
            <-> column_error element = Some e).
  { intros e. rewrite read_xml_cases.
    destruct (column_error element); split; congruence. }
  split; [intros e; rewrite Hraise; apply column_error_spec |].
  split; [apply geometry_error_is_value_error |].
  rewrite read_xml_cases.
  destruct (column_error element) as [e |] eqn:Herr.
  - split; [intros [entity' Hx]; discriminate Hx |].
    intros [Ha Hnot]. exfalso.
    apply column_error_spec in Herr.
    destruct Herr as [[Hb _] | (Ht & Hn & Hg)]; [congruence |].
    apply Hnot. rewrite Hg. repeat split; auto; discriminate.
  - split; [intros _ | eauto].
    split.
    + destruct (ascii_only (type_info element)) eqn:Ha; [reflexivity |].
      assert (Hx : column_error element = Some encode_error)
        by (apply column_error_spec; left; auto).
      congruence.
    + intros (Ht & Hn & Hg).
      destruct (geometry_error element) as [e |] eqn:He; [| congruence].
      assert (Hx : column_error element = Some e)
        by (apply column_error_spec; right; auto).
      congruence.
Qed.

Lemma column_reader_raises_iff_witness :
  read_xml (Ext := Example.env) Example.shape_column
    (Example.empty_entity "plot") (new_profile "broken") ∅ ∅
  = Raise (ValueError "invalid literal for int()")
  /\ read_xml (Ext := Example.env) Example.accented_column
       (Example.empty_entity "plot") (new_profile "broken") ∅ ∅
     = Raise encode_error
  /\ exists entity',
       read_xml (Ext := Example.env) Example.area_column
         (Example.empty_entity "parcel") Example.two_entities ∅
         Example.relation_index = Ok entity'.
Proof.
  split; [| split].
  - apply (column_reader_raises_iff (Ext := Example.env)).
    right. split; [reflexivity |]. split; [discriminate |].
    vm_compute. reflexivity.
  - apply (column_reader_raises_iff (Ext := Example.env)).
    left. split; reflexivity.
  - apply (column_reader_raises_iff (Ext := Example.env)).
    split; [reflexivity |]. intros (Ht & _). discriminate Ht.
Defined.

(** *** The first parent of a multiple select column *)

Section MultipleSelect.
Context {Sc : Scalars} {Ext : External}.

Lemma bounded_kwargs_first_parent (cls : Serializer) (element : Element) :
  kw_first_parent (bounded_kwargs cls element) = None.
Proof.
  unfold bounded_kwargs.
  destruct (bound_of cls element MINIMUM), (bound_of cls element MAXIMUM);
    reflexivity.
Qed.

Lemma multiple_select_obj_args (args : list Arg) (kw : Kwargs)
    (element : Element) (profile : Profile) (A R : gmap string Element) :
  kw_first_parent kw = None ->
  exists kw',
    _obj_args MultipleSelectColumnSerializer args kw element profile A R
    = Ok (args, kw')
    /\ (forall fp, kw_first_parent kw' = Some fp
                   <-> offered_first_parent element A fp)
    /\ kw_minimum kw' = kw_minimum kw
    /\ kw_maximum kw' = kw_maximum kw
    /\ kw_entity_relation kw' = kw_entity_relation kw
    /\ kw_srid kw' = kw_srid kw.
Proof.
  intros Hnone. unfold offered_first_parent. simpl.
  unfold ASSOCIATION_TAG, FIRST_PARENT.
  destruct (firstChildElement element "associationEntity") as [a |].
  - destruct (A !! attribute a "name" "") as [ae |] eqn:Hidx.
    + destruct (truthy (attribute ae "firstParent" "")) eqn:Hfp.
      * eexists. split; [reflexivity |]. simpl.
        split; [| repeat split]. intros fp. split.
        -- intros [= <-]. exists a, ae. repeat split; auto.
           intros E. rewrite E in Hfp. discriminate Hfp.
        -- intros (a' & ae' & [= <-] & Hx & -> & _).
           rewrite Hidx in Hx. now injection Hx as <-.
      * exists kw. split; [reflexivity |]. split; [| repeat split].
        intros fp. rewrite Hnone. split; [discriminate |].
        intros (a' & ae' & [= <-] & Hx & -> & Hne).
        rewrite Hidx in Hx. injection Hx as <-.
        destruct (attribute ae "firstParent" ""); [congruence | discriminate Hfp].
    + exists kw. split; [reflexivity |]. split; [| repeat split].
      intros fp. rewrite Hnone. split; [discriminate |].
      intros (a' & ae' & [= <-] & Hx & _). rewrite Hidx in Hx. discriminate Hx.
  - exists kw. split; [reflexivity |]. split; [| repeat split].
    intros fp. rewrite Hnone. split; [discriminate |].
    intros (a' & ae' & Hx & _). discriminate Hx.
Qed.

End MultipleSelect.

(** X15. A named column element of the multiple select kind always loads,
    with its name and owning entity as arguments. Its column is handed a
    first parent exactly when the element names, in an associationEntity
    child, an association of the index whose firstParent text is not empty;
    that text is the first parent. The bounds are those of the element's
    texts, and no relation is attached. *)
Theorem first_parent_passed_iff_indexed {Sc : Scalars} {Ext : External} :
  forall (element : Element) (entity : Entity) (profile : Profile)
         (A R : gmap string Element),
    type_info element = "MULTIPLE_SELECT" ->
    attribute element "name" "" <> "" ->
    column_type "MULTIPLE_SELECT" = true ->
    exists column,
      read_xml element entity profile A R = Ok (add_column entity column)
      /\ col_TYPE_INFO column = "MULTIPLE_SELECT"
      /\ col_args column = [ArgName (attribute element "name" "");
                            ArgEntity (ent_short_name entity)]
      /\ (forall fp, kw_first_parent (col_kwargs column) = Some fp
                     <-> offered_first_parent element A fp)
      /\ kw_minimum (col_kwargs column)
         = bound_of MultipleSelectColumnSerializer element "minimum"
      /\ kw_maximum (col_kwargs column)
         = bound_of MultipleSelectColumnSerializer element "maximum"
      /\ kw_entity_relation (col_kwargs column) = None.
Proof.
  intros element entity profile A R Htag Hname Hclass.
  assert (Hh : handler (type_info element)
               = Some MultipleSelectColumnSerializer)
    by (rewrite Htag; reflexivity).
  destruct (multiple_select_obj_args
              [ArgName (attribute element NAME "");
               ArgEntity (ent_short_name entity)]
              (bounded_kwargs MultipleSelectColumnSerializer element)
              element profile A R
              (bounded_kwargs_first_parent _ _))
    as (kw' & Hargs & Hfp & Hmin & Hmax & Hrel & _).
  exists {| col_TYPE_INFO := "MULTIPLE_SELECT";
            col_args := [ArgName (attribute element "name" "");
                         ArgEntity (ent_short_name entity)];
            col_kwargs := kw' |}.
  split.
  - rewrite <- Htag.
    apply (read_xml_builds MultipleSelectColumnSerializer);
      [exact Hh | exact Hname | now rewrite Htag | exact Hargs].
  - simpl. split; [reflexivity |]. split; [reflexivity |].
    split; [exact Hfp |].
    rewrite Hmin, Hmax, Hrel, bounded_kwargs_minimum, bounded_kwargs_maximum,
      bounded_kwargs_relation.
    repeat split.
Qed.

Lemma first_parent_passed_iff_indexed_witness :
  exists column,
    read_xml (Ext := Example.env) Example.crops_column
      (Example.empty_entity "parcel") Example.two_entities
      Example.association_index ∅
    = Ok (add_column (Example.empty_entity "parcel") column)
    /\ kw_first_parent (col_kwargs column) = Some "crop_type".
Proof.
  destruct (first_parent_passed_iff_indexed (Ext := Example.env)
              Example.crops_column (Example.empty_entity "parcel")
              Example.two_entities Example.association_index ∅)
    as (column & Hread & _ & _ & Hfp & _).
  - reflexivity.
  - discriminate.
  - reflexivity.
  - exists column. split; [exact Hread |]. apply Hfp.
    exists (Example.el "associationEntity" [("name", "parcel_crops")] []),
      (Example.el "Association"
         [("name", "parcel_crops"); ("shortName", "parcel_crops");
          ("firstParent", "crop_type"); ("secondParent", "parcel")] []).
    repeat split; first [reflexivity | discriminate].
Defined.

(** *** [int] reads what [str] prints *)

Lemma digits_from_of_uint_acc (d : Decimal.uint) :
  forall p : positive,
    digits_from (Z.pos p) (NilEmpty.string_of_uint d)
    = Some (Z.pos (Pos.of_uint_acc d p)).
Proof.
  induction d; intros p; cbn [NilEmpty.string_of_uint digits_from Pos.of_uint_acc];
    [reflexivity | ..];
    match goal with
    | |- context [digit_of ?c] =>
        change (digit_of c) with (Some (Z.of_N (N_of_ascii c - 48)))
    end; cbv beta iota;
    rewrite <- IHd; f_equal; cbn; lia.
Qed.

Lemma digits_from_of_uint (d : Decimal.uint) :
  digits_from 0 (NilEmpty.string_of_uint d) = Some (Z.of_N (Pos.of_uint d)).
Proof.
  induction d; cbn [NilEmpty.string_of_uint digits_from Pos.of_uint];
    [reflexivity | exact IHd | ..];
    match goal with
    | |- context [digit_of ?c] =>
        change (digit_of c) with (Some (Z.of_N (N_of_ascii c - 48)))
    end; cbv beta iota;
    apply digits_from_of_uint_acc.
Qed.

Lemma literal_of_uint (d : Decimal.uint) :
  d <> Decimal.Nil ->
  literal (NilEmpty.string_of_uint d) = Some (Z.of_N (Pos.of_uint d))
  /\ literal (String "-" (NilEmpty.string_of_uint d))
     = Some (- Z.of_N (Pos.of_uint d))%Z.
Proof.
  intros Hd.
  assert (Hdigits : digits (NilEmpty.string_of_uint d)
                    = Some (Z.of_N (Pos.of_uint d))).
  { rewrite <- digits_from_of_uint.
    destruct d; first [congruence | reflexivity]. }
  split.
  - rewrite <- Hdigits. destruct d; first [congruence | reflexivity].
  - unfold literal. now rewrite Hdigits.
Qed.

(** The text [str] prints for a number is a plain decimal literal of that
    number. *)
Lemma literal_str_int (z : Z) : literal (str_int z) = Some z.
Proof.
  rewrite <- (DecimalZ.of_to z) at 2. unfold str_int.
  destruct z as [| p | p]; [reflexivity | |];
    cbn [Z.to_int NilZero.string_of_int Z.of_int];
    assert (Hd : Pos.to_uint p <> Decimal.Nil)
      by apply DecimalPos.Unsigned.to_uint_nonnil;
    unfold Z.of_uint;
    destruct (literal_of_uint (Pos.to_uint p) Hd) as [Hpos Hneg];
    [rewrite <- Hpos | rewrite <- Hneg];
    unfold NilZero.string_of_uint;
    destruct (Pos.to_uint p); first [congruence | reflexivity].
Qed.

(** [int(str(n))] is [n]. *)
Lemma int_str_int {Sc : Scalars} {Ext : External} (z : Z) :
  int (str_int z) = Ok z.
Proof. unfold int. now rewrite literal_str_int. Qed.

(** *** Columns written and read back *)

Lemma attribute_setAttribute (e : Element) (k v k' d : string) :
  attribute (setAttribute e k v) k' d
  = if String.eqb k k' then v else attribute e k' d.
Proof.
  destruct e as [t a c]. unfold attribute, setAttribute. cbn [attributes].
  destruct (String.eqb_spec k k') as [-> | Hne].
  - now rewrite lookup_insert_eq.
  - now rewrite lookup_insert_ne.
Qed.

Lemma hasAttribute_setAttribute (e : Element) (k v k' : string) :
  hasAttribute (setAttribute e k v) k'
  = if String.eqb k k' then true else hasAttribute e k'.
Proof.
  destruct e as [t a c]. unfold hasAttribute, setAttribute. cbn [attributes].
  destruct (String.eqb_spec k k') as [-> | Hne].
  - now rewrite lookup_insert_eq.
  - now rewrite lookup_insert_ne.
Qed.

Lemma str_to_bool_str_bool (b : bool) : _str_to_bool (str_bool b) = b.
Proof. destruct b; reflexivity. Qed.

Section ColumnRoundTrip.
Context {Sc : Scalars} {Ext : External}.

Lemma plain_obj_args (cls : Serializer) (args : list Arg) (kw : Kwargs)
    (element : Element) (profile : Profile) (A R : gmap string Element) :
  plain cls = true ->
  _obj_args cls args kw element profile A R = Ok (args, kw).
Proof. destruct cls; first [discriminate | reflexivity]. Qed.

Lemma plain_write_xml (cls : Serializer) (column : Column)
    (column_element : Element) :
  plain cls = true -> _write_xml cls column column_element = Ok column_element.
Proof. destruct cls; first [discriminate | reflexivity]. Qed.

Lemma general_element_tags (cls : Serializer) (column : Column) :
  tagName (general_element cls column) = "Column"
  /\ childNodes (general_element cls column) = []
  /\ type_info (general_element cls column) = COLUMN_TYPE_INFO cls
  /\ attribute (general_element cls column) "name" "" = col_name column.
Proof.
  unfold general_element, type_info.
  destruct (kw_minimum (col_kwargs column)), (kw_maximum (col_kwargs column));
    cbv zeta; rewrite !attribute_setAttribute; repeat split.
Qed.

Lemma bounded_kwargs_general (cls : Serializer) (column : Column) :
  bound_reads_back cls (kw_minimum (col_kwargs column)) ->
  bound_reads_back cls (kw_maximum (col_kwargs column)) ->
  bounded_kwargs cls (general_element cls column)
  = read_back_kwargs (col_kwargs column).
Proof.
  destruct column as [ti args kw]. cbn [col_kwargs].
  unfold bounded_kwargs, bound_of, common_kwargs, general_element,
    read_back_kwargs, bound_reads_back.
  cbn [col_kwargs].
  destruct (kw_minimum kw) as [bmin |], (kw_maximum kw) as [bmax |];
    intros Hmin Hmax; cbv zeta;
    rewrite !attribute_setAttribute, !hasAttribute_setAttribute;
    cbn [String.eqb Ascii.eqb Bool.eqb MINIMUM MAXIMUM DESCRIPTION INDEX
         MANDATORY SEARCHABLE UNIQUE USER_TIP NAME];
    rewrite ?Hmin, ?Hmax, !str_to_bool_str_bool; reflexivity.
Qed.

Lemma str_bound_printed (b : Bound) :
  str_bound b
  = if printable (Some b) then Ok (printed b) else Raise encode_error.
Proof. destruct b; reflexivity. Qed.

Lemma bound_survives_reads_back (cls : Serializer) (b : Bound) :
  bound_survives cls b -> _convert_bounds_type cls (printed b) = Ok b.
Proof.
  unfold bound_survives.
  destruct cls, b; cbn [bound_type _convert_bounds_type printed];
    try contradiction; intros H; rewrite ?int_str_int, ?H; reflexivity.
Qed.

Lemma bounds_survive_read_back (cls : Serializer) (kw : Kwargs) :
  bounds_survive cls kw ->
  bound_reads_back cls (kw_minimum kw) /\ bound_reads_back cls (kw_maximum kw).
Proof.
  intros [Hmin Hmax]. unfold bound_reads_back.
  split.
  - destruct (kw_minimum kw) as [b |]; [| exact I].
    apply bound_survives_reads_back, Hmin. reflexivity.
  - destruct (kw_maximum kw) as [b |]; [| exact I].
    apply bound_survives_reads_back, Hmax. reflexivity.
Qed.

Lemma hasAttribute_ext (e e' : Element) (name : string) :
  attributes e = attributes e' -> hasAttribute e name = hasAttribute e' name.
Proof. unfold hasAttribute. now intros ->. Qed.

Lemma bounded_kwargs_ext (cls : Serializer) (e e' : Element) :
  attributes e = attributes e' ->
  bounded_kwargs cls e = bounded_kwargs cls e'.
Proof.
  intros H. unfold bounded_kwargs, bound_of, common_kwargs.
  now rewrite !(attribute_ext e e' _ _ H), !(hasAttribute_ext e e' _ H).
Qed.

Lemma attributes_appendChild (e c : Element) :
  attributes (appendChild e c) = attributes e.
Proof. destruct e; reflexivity. Qed.

(** The writer of a column: [str] raises on a bound that is a text with
    a character beyond ASCII, and otherwise the class adds its own part to
    the general element. *)
Lemma write_xml_general (cls : Serializer) (column : Column)
    (parent_node : Element) :
  write_xml cls column parent_node
  = if printable_bounds column
    then col_element ← _write_xml cls column (general_element cls column);
         Ok (appendChild parent_node col_element)
    else Raise encode_error.
Proof.
  unfold write_xml, general_element, printable_bounds. cbv zeta.
  destruct (kw_minimum (col_kwargs column)) as [bmin |],
    (kw_maximum (col_kwargs column)) as [bmax |];
    rewrite ?str_bound_printed;
    try destruct (printable (Some bmin));
    try destruct (printable (Some bmax)); reflexivity.
Qed.

Lemma storable_round_trip (short_name : string) (column : Column) :
  storable short_name column ->
  exists el,
    tagName el = "Column"
    /\ (forall parent_node,
          EntitySerializer.write_column column parent_node
          = if printable_bounds column
            then Ok (appendChild parent_node el)
            else Raise encode_error)
    /\ (forall cls parent_node,
          handler (col_TYPE_INFO column) = Some cls ->
          write_xml cls column parent_node
          = if printable_bounds column
            then Ok (appendChild parent_node el)
            else Raise encode_error)
    /\ forall entity profile A R,
         ent_short_name entity = short_name ->
         read_xml el entity profile A R = Ok (add_column entity column).
Proof.
  intros (cls & name & kw & Hne & Hname & Hclass & Hbounds & Hkind).
  assert (Hh : handler (COLUMN_TYPE_INFO cls) = Some cls)
    by (apply handler_spec; auto).
  destruct (bounds_survive_read_back cls kw Hbounds) as [Hmin Hmax].
  destruct Hkind as [[Hplain ->] | [-> (g & s & ->)]].
  - set (column := plain_column cls name short_name kw).
    set (el := general_element cls column).
    destruct (general_element_tags cls column) as (Ht & _ & Hti & Hn).
    fold el in Ht, Hti, Hn.
    assert (Hw : forall parent_node,
               write_xml cls column parent_node
               = if printable_bounds column
                 then Ok (appendChild parent_node el)
                 else Raise encode_error).
    { intros parent_node.
      now rewrite write_xml_general, (plain_write_xml cls _ _ Hplain). }
    exists el.
    split; [exact Ht |]. split; [| split].
    + intros parent_node. unfold EntitySerializer.write_column.
      cbn [col_TYPE_INFO column plain_column]. rewrite Hh. apply Hw.
    + intros cls' parent_node. cbn [col_TYPE_INFO column plain_column].
      rewrite Hh. intros [= <-]. apply Hw.
    + intros entity profile A R <-.
      assert (Hh' : handler (type_info el) = Some cls)
        by (rewrite Hti; exact Hh).
      assert (Hn' : attribute el "name" "" <> "") by (rewrite Hn; exact Hname).
      assert (Hc' : column_type (type_info el) = true)
        by (rewrite Hti; exact Hclass).
      rewrite (read_xml_builds cls el entity profile A R _ _ Hh' Hn' Hc'
                 (plain_obj_args cls _ _ _ _ _ _ Hplain)).
      unfold el at 3. rewrite Hti, Hn, bounded_kwargs_general by assumption.
      reflexivity.
  - set (column := geometry_column name short_name g s kw).
    set (geom_el :=
           setAttribute
             (setAttribute (createElement GEOM_TAG) SRID (str_int s))
             GEOMETRY_TYPE (str_int g)).
    set (el := appendChild (general_element GeometryColumnSerializer column)
                 geom_el).
    destruct (general_element_tags GeometryColumnSerializer column)
      as (Ht & Hc & Hti & Hn).
    assert (Hattrs : attributes el
                     = attributes
                         (general_element GeometryColumnSerializer column))
      by apply attributes_appendChild.
    assert (Hw : forall parent_node,
               write_xml GeometryColumnSerializer column parent_node
               = if printable_bounds column
                 then Ok (appendChild parent_node el)
                 else Raise encode_error).
    { intros parent_node. now rewrite write_xml_general. }
    exists el. split; [| split; [| split]].
    + unfold el. destruct (general_element GeometryColumnSerializer column).
      exact Ht.
    + intros parent_node. unfold EntitySerializer.write_column.
      change (col_TYPE_INFO column) with "GEOMETRY".
      change (handler "GEOMETRY") with (Some GeometryColumnSerializer).
      apply Hw.
    + intros cls' parent_node.
      change (col_TYPE_INFO column) with "GEOMETRY".
      change (handler "GEOMETRY") with (Some GeometryColumnSerializer).
      intros [= <-]. apply Hw.
    + intros entity profile A R <-.
      assert (Hti' : type_info el = "GEOMETRY").
      { unfold type_info. rewrite (attribute_ext _ _ _ _ Hattrs). exact Hti. }
      assert (Hn' : attribute el "name" "" = name).
      { rewrite (attribute_ext _ _ _ _ Hattrs). exact Hn. }
      assert (Hfirst : firstChildElement el GEOM_TAG = Some geom_el).
      { unfold el, firstChildElement.
        destruct (general_element GeometryColumnSerializer column)
          as [t a c]. cbn [childNodes] in Hc. subst c. reflexivity. }
      assert (Hargs : _obj_args GeometryColumnSerializer
                        [ArgName (attribute el "name" "");
                         ArgEntity (ent_short_name entity)]
                        (bounded_kwargs GeometryColumnSerializer el)
                        el profile A R
                      = Ok ([ArgName name; ArgEntity (ent_short_name entity);
                             ArgGeomType g],
                            set_srid (read_back_kwargs kw) s)).
      { cbn [_obj_args]. rewrite Hfirst.
        replace (attribute geom_el GEOMETRY_TYPE "2") with (str_int g)
          by reflexivity.
        replace (attribute geom_el SRID "4326") with (str_int s)
          by reflexivity.
        rewrite !int_str_int, Hn'.
        rewrite (bounded_kwargs_ext _ _ _ Hattrs),
          bounded_kwargs_general by assumption.
        reflexivity. }
      assert (Hh' : handler (type_info el) = Some GeometryColumnSerializer)
        by (rewrite Hti'; reflexivity).
      assert (Hne' : attribute el "name" "" <> "")
        by (rewrite Hn'; exact Hname).
      assert (Hc' : column_type (type_info el) = true)
        by (rewrite Hti'; exact Hclass).
      rewrite (read_xml_builds GeometryColumnSerializer el entity profile A R
                 _ _ Hh' Hne' Hc' Hargs).
      rewrite Hti'. reflexivity.
Qed.

Lemma storable_columns_round_trip (short_name : string)
    (cols : list Column) :
  Forall (storable short_name) cols ->
  exists els,
    (forall t a pre,
       foldM EntitySerializer.write_column cols (Elem t a pre)
       = if forallb printable_bounds cols
         then Ok (Elem t a (pre ++ els))
         else Raise encode_error)
    /\ forall entity profile A R,
         ent_short_name entity = short_name ->
         foldM (EntitySerializer.read_column profile A R) els entity
         = Ok (fold_left add_column cols entity).
Proof.
  induction 1 as [| c cols Hc _ IH].
  - exists []. split; [intros; simpl; now rewrite app_nil_r | reflexivity].
  - destruct IH as (els & Hwrite & Hread).
    destruct (storable_round_trip short_name c Hc)
      as (el & Htag & Hw & _ & Hr).
    exists (el :: els). split.
    + intros t a pre. cbn [foldM forallb]. rewrite Hw.
      destruct (printable_bounds c); [| reflexivity].
      cbv beta iota delta [mbind result_bind Py.bind andb appendChild].
      rewrite Hwrite, <- app_assoc. reflexivity.
    + intros entity profile A R Hs. cbn [foldM].
      replace (EntitySerializer.read_column profile A R el entity)
        with (read_xml el entity profile A R).
      2:{ unfold EntitySerializer.read_column. rewrite Htag. reflexivity. }
      rewrite (Hr _ _ _ _ Hs).
      cbv beta iota delta [mbind result_bind Py.bind].
      apply Hread. exact Hs.
Qed.

Lemma childNodes_setAttribute (e : Element) (k v : string) :
  childNodes (setAttribute e k v) = childNodes e.
Proof. now destruct e. Qed.

Lemma tagName_setAttribute (e : Element) (k v : string) :
  tagName (setAttribute e k v) = tagName e.
Proof. now destruct e. Qed.

Lemma tagName_appendChild (e c : Element) :
  tagName (appendChild e c) = tagName e.
Proof. now destruct e. Qed.

Lemma childNodes_appendChild (e c : Element) :
  childNodes (appendChild e c) = childNodes e ++ [c].
Proof. now destruct e. Qed.

Lemma truthy_str_bool (b : bool) : truthy (str_bool b) = true.
Proof. now destruct b. Qed.

End ColumnRoundTrip.



Section EntityRoundTrip.
Context {Sc : Scalars} {Ext : External}.

Lemma entity_write_unfold (profile_name : string) (entity : Entity)
    (parent_node : Element) :
  EntitySerializer.write_xml profile_name entity parent_node
  = (columns_element ←
       foldM EntitySerializer.write_column
         (EntitySerializer.columns_values entity) (createElement "Columns");
     Ok (appendChild parent_node
           (appendChild (entity_attributes_element profile_name entity)
              columns_element))).
Proof. reflexivity. Qed.

Lemma entity_element_written (profile_name : string) (entity : Entity)
    (parent_node parent' : Element) :
  EntitySerializer.write_xml profile_name entity parent_node = Ok parent' ->
  parent' = appendChild parent_node (entity_element profile_name entity)
  /\ exists columns_element,
       foldM EntitySerializer.write_column
         (EntitySerializer.columns_values entity) (createElement "Columns")
       = Ok columns_element.
Proof.
  rewrite entity_write_unfold. unfold entity_element.
  destruct (foldM _ _ _) as [c |]; cbv beta iota delta [mbind result_bind Py.bind];
    [| discriminate].
  intros [= <-]. eauto.
Qed.

Lemma entity_element_tag (profile_name : string) (entity : Entity) :
  tagName (entity_element profile_name entity) = "Entity".
Proof.
  unfold entity_element. rewrite tagName_appendChild.
  unfold entity_attributes_element. cbv zeta.
  rewrite !tagName_setAttribute. reflexivity.
Qed.

Lemma storable_entity_written (profile_name : string) (entity : Entity)
    (parent_node : Element) :
  storable_entity entity ->
  EntitySerializer.write_xml profile_name entity parent_node
  = if printable_entity entity
    then Ok (appendChild parent_node (entity_element profile_name entity))
    else Raise encode_error.
Proof.
  intros [_ Hcols].
  destruct (storable_columns_round_trip _ _ Hcols) as (els & Hwrite & _).
  rewrite entity_write_unfold. unfold entity_element, createElement.
  rewrite Hwrite. unfold printable_entity.
  destruct (forallb printable_bounds _); reflexivity.
Qed.

(** A storable entity that is written has bounds [str] prints. *)
Lemma written_entity_printable (profile_name : string) (entity : Entity)
    (parent_node parent' : Element) :
  storable_entity entity ->
  EntitySerializer.write_xml profile_name entity parent_node = Ok parent' ->
  printable_entity entity = true.
Proof.
  intros Hs. rewrite (storable_entity_written _ _ _ Hs).
  destruct (printable_entity entity); [reflexivity | discriminate].
Qed.

Lemma entity_element_read (profile_name : string) (entity : Entity)
    (profile : Profile) (A R : gmap string Element) :
  storable_entity entity ->
  printable_entity entity = true ->
  EntitySerializer.read_xml (entity_element profile_name entity) profile A R
  = Ok (add_entity profile (AnEntity (read_back_entity entity))).
Proof.
  intros [Hname Hcols] Hprint.
  destruct (storable_columns_round_trip _ _ Hcols) as (els & Hwrite & Hread).
  unfold printable_entity in Hprint.
  set (ae := entity_attributes_element profile_name entity).
  assert (Hel : entity_element profile_name entity
                = appendChild ae (Elem "Columns" ∅ els)).
  { unfold entity_element, createElement. now rewrite Hwrite, Hprint. }
  rewrite Hel. set (el := appendChild ae (Elem "Columns" ∅ els)).
  assert (Hattr : forall k d, attribute el k d = attribute ae k d).
  { intros k d. apply attribute_ext, attributes_appendChild. }
  assert (Hcolumns : EntitySerializer.column_elements el = els).
  { unfold EntitySerializer.column_elements, firstChildElement, el.
    rewrite childNodes_appendChild. unfold ae, entity_attributes_element.
    cbv zeta. rewrite !childNodes_setAttribute. reflexivity. }
  unfold EntitySerializer.read_xml. rewrite Hcolumns, !Hattr.
  unfold ae, entity_attributes_element. cbv zeta.
  rewrite !attribute_setAttribute.
  cbn [String.eqb Ascii.eqb Bool.eqb EntitySerializer.SHORT_NAME
       EntitySerializer.GLOBAL EntitySerializer.NAME
       EntitySerializer.DESCRIPTION EntitySerializer.ASSOCIATIVE
       EntitySerializer.EDITABLE EntitySerializer.CREATE_ID
       EntitySerializer.PROXY EntitySerializer.SUPPORTS_DOCUMENTS].
  apply truthy_true in Hname. rewrite Hname.
  unfold EntitySerializer.set_flag, EntitySerializer.flag_attr.
  rewrite !truthy_str_bool, !str_to_bool_str_bool.
  rewrite Hread by reflexivity. rewrite fold_add_column. reflexivity.
Qed.


End EntityRoundTrip.



(** *** A saved document and the version gate *)

Section SavedDocument.
Context {Sc : Scalars} {Ext : External}.

Lemma write_profiles_root (l : list Profile) :
  forall root root',
    foldM ProfileSerializer.write_xml l root = Ok root' ->
    attributes root' = attributes root /\ tagName root' = tagName root.
Proof.
  induction l as [| p l IH]; intros root root'; cbn [foldM].
  - intros [= <-]. auto.
  - destruct (ProfileSerializer.write_xml p root) as [root1 |] eqn:E1; simpl;
      [| discriminate].
    intros Hrest. apply IH in Hrest. destruct Hrest as [-> ->].
    apply profile_write_spec in E1. destruct E1 as (pe & -> & _).
    now destruct root.
Qed.

Lemma written_document_root (st : State) (doc : Document) :
  ConfigurationFileSerializer.write_xml st = Ok doc ->
  exists root,
    documentElement doc = Some root
    /\ tagName root = "Configuration"
    /\ attributes root !! "version" = Some (str_float VERSION).
Proof.
  unfold ConfigurationFileSerializer.write_xml.
  destruct (foldM _ _ _) as [root |] eqn:E; simpl; [| discriminate].
  intros [= <-]. exists root. split; [reflexivity |].
  apply write_profiles_root in E. destruct E as [-> ->].
  split; [reflexivity | apply lookup_insert_eq].
Qed.

Lemma current_document_loads
    (upd : option Document -> bool * option Document) (st : State)
    (doc : Document) (root : Element) (version : string) (v : float) :
  documentElement doc = Some root ->
  attributes root !! "version" = Some version ->
  version <> "" ->
  py_float version = Some v ->
  float_lt v VERSION = false ->
  ConfigurationFileSerializer.read_xml upd st doc
  = load_profiles (elementsByTagName root "Profile")
      (with_config st (_clear (config st))).
Proof.
  intros Hroot Hattr Hne Hfloat Hlt.
  unfold ConfigurationFileSerializer.read_xml. rewrite Hroot.
  unfold null_hasAttribute, null_attribute, hasAttribute, attribute.
  rewrite Hattr. simpl negb. cbv iota.
  apply truthy_true in Hne. rewrite Hne. simpl negb. cbv iota.
  rewrite Hfloat, Hlt. cbn [root_of]. rewrite Hroot. reflexivity.
Qed.

End SavedDocument.

(** X18. A document that [save] produced passes the version gate of
    [load], whatever update method is in force: when the text of the
    running version reads back as a number that is not below the running
    version, loading the saved document never calls the update step and
    goes on to the profile elements of its Configuration root. *)
Theorem saved_document_needs_no_update {Sc : Scalars} {Ext : External} :
  forall (st st' st0 : State) (is_null : bool)
         (can_open can_write : string -> bool) (p : string) (doc : Document)
         (upd : option Document -> bool * option Document) (v : float),
    str_float VERSION <> "" ->
    py_float (str_float VERSION) = Some v ->
    float_lt v VERSION = false ->
    save st is_null can_open can_write = (Ok (p, doc), st') ->
    exists root,
      documentElement doc = Some root
      /\ tagName root = "Configuration"
      /\ load upd st0 (Parsed doc)
         = load_profiles (elementsByTagName root "Profile")
             (with_config st0 (_clear (config st0)))
      /\ update_calls (snd (load upd st0 (Parsed doc))) = update_calls st0.
Proof.
  intros st st' st0 is_null can_open can_write p doc upd v Hne Hfloat Hlt.
  unfold save.
  destruct is_null; [discriminate |].
  destruct (negb (truthy (path st))); [discriminate |].
  destruct (negb (can_open _)); [discriminate |].
  destruct (ConfigurationFileSerializer.write_xml _) as [d |] eqn:Hw;
    [| discriminate].
  destruct (can_write _); [| discriminate].
  intros [= _ -> _].
  destruct (written_document_root _ _ Hw) as (root & Hroot & Htag & Hattr).
  exists root. split; [exact Hroot |]. split; [exact Htag |].
  cbn [load].
  rewrite (current_document_loads upd st0 doc root _ v Hroot Hattr Hne
             Hfloat Hlt).
  split; [reflexivity |]. now rewrite load_profiles_update_calls.
Qed.

Lemma saved_document_needs_no_update_witness :
  let st := {| path := "config.stc";
               config := {| profiles := {[ "default" := Example.party_profile ]} |};
               update_calls := [] |} in
  exists p doc root,
    fst (save (Ext := Example.env) st false (fun _ => true) (fun _ => true))
    = Ok (p, doc)
    /\ documentElement doc = Some root
    /\ tagName root = "Configuration"
    /\ update_calls (snd (load update st (Parsed doc))) = [].
Proof.
  cbv zeta.
  destruct (save (Ext := Example.env)
              {| path := "config.stc";
                 config :=
                   {| profiles := {[ "default" := Example.party_profile ]} |};
                 update_calls := [] |}
              false (fun _ => true) (fun _ => true))
    as [[[p doc] | e] st'] eqn:Hsave.
  - destruct (saved_document_needs_no_update (Ext := Example.env)
                _ _ {| path := "config.stc";
                       config :=
                         {| profiles :=
                              {[ "default" := Example.party_profile ]} |};
                       update_calls := [] |}
                _ _ _ p doc update
                {| Example.mantissa := 12; Example.places := 1 |}
                ltac:(discriminate) eq_refl eq_refl Hsave)
      as (root & Hroot & Htag & _ & Hcalls).
    exists p, doc, root. auto.
  - exfalso. vm_compute in Hsave. discriminate Hsave.
Defined.

(** *** What the readers raise *)

Lemma head_omap_some {X Y} (f : X -> option Y) (l : list X) (y : Y) :
  head (omap f l) = Some y -> exists x, In x l /\ f x = Some y.
Proof.
  induction l as [| a l IH]; cbn [omap list_omap]; [discriminate |].
  destruct (f a) as [b |] eqn:E.
  - intros [= <-]. exists a. split; [now left | exact E].
  - intros H. destruct (IH H) as (x & Hin & Hx). exists x.
    split; [now right | exact Hx].
Qed.

Lemma head_omap_none {X Y} (f : X -> option Y) (l : list X) :
  head (omap f l) = None <-> forall x, In x l -> f x = None.
Proof.
  induction l as [| a l IH]; cbn [omap list_omap].
  - split; [intros _ x [] | reflexivity].
  - destruct (f a) as [b |] eqn:E.
    + split; [discriminate |]. intros H.
      specialize (H a (or_introl eq_refl)). congruence.
    + rewrite IH. split.
      * intros H x [<- | Hin]; [exact E | now apply H].
      * intros H x Hin. apply H. now right.
Qed.

Section ReaderRaises.
Context {Sc : Scalars} {Ext : External}.

Lemma column_element_error_spec (ce : Element) (e : Exception) :
  column_element_error ce = Some e
  <-> (ascii_only (tagName ce) = false /\ e = encode_error)
      \/ (tagName ce = "Column"
          /\ ((ascii_only (type_info ce) = false /\ e = encode_error)
              \/ (type_info ce = "GEOMETRY"
                  /\ attribute ce "name" "" <> ""
                  /\ geometry_error ce = Some e))).
Proof.
  unfold column_element_error, Py.str.
  destruct (ascii_only (tagName ce)) eqn:Ha.
  - destruct (String.eqb_spec (tagName ce) "Column") as [Htag | Htag].
    + rewrite column_error_spec. split.
      * intros H. right. split; [exact Htag | exact H].
      * intros [[H _] | [_ H]]; [discriminate H | exact H].
    + split; [discriminate |].
      intros [[H _] | [H _]]; [discriminate H | contradiction].
  - split.
    + intros [= <-]. left. auto.
    + intros [[_ ->] | [Htag _]]; [reflexivity |].
      rewrite Htag in Ha. discriminate Ha.
Qed.

Lemma read_order_elements (element el : Element) :
  In el (immediate_elements element ++ queued_elements element)
  <-> In el (childNodes element) /\ tagName el = "Entity".
Proof.
  unfold immediate_elements, queued_elements, entity_elements.
  rewrite in_app_iff, !filter_In, String.eqb_eq.
  destruct (ItemSerializer.has_dependency EntitySerializer el); simpl;
    intuition congruence.
Qed.

(** The profile reader on any element: it raises what [profile_error]
    names, and otherwise returns. *)
Lemma profile_read_cases (element : Element) :
  match profile_error element with
  | Some e => ProfileSerializer.read_xml element = Raise e
  | None => exists loaded, ProfileSerializer.read_xml element = Ok loaded
  end.
Proof.
  unfold profile_error, ProfileSerializer.read_xml.
  destruct (truthy (attribute element "name" "")); simpl negb; cbv iota;
    [| eauto].
  rewrite read_entities_cases.
  destruct (head (omap entity_error _)); [reflexivity |].
  cbv beta iota delta [mbind result_bind Py.bind]. eauto.
Qed.

End ReaderRaises.

(** X19. Reading a profile element raises exactly the exception of the
    first child of a column group, of the first entity element in reading
    order, that has one. The element then has a name, the entity element
    a short name, and the exception is the UnicodeEncodeError of [str] on
    a tag name with a character beyond ASCII or, on a Column child, on a
    type tag with such a character, or what [int] raises on the rejected
    Geometry child of a named geometry column. The reader returns exactly
    when the element has no name or no entity element with a short name
    holds a child with an exception. *)
Theorem profile_reader_raises_iff {Sc : Scalars} {Ext : External} :
  forall (element : Element),
    (forall e,
       ProfileSerializer.read_xml element = Raise e
       <-> profile_error element = Some e)
    /\ (forall e,
          profile_error element = Some e ->
          attribute element "name" "" <> ""
          /\ exists el ce,
               In el (childNodes element)
               /\ tagName el = "Entity"
               /\ attribute el "shortName" "" <> ""
               /\ In ce (EntitySerializer.column_elements el)
               /\ ((ascii_only (tagName ce) = false /\ e = encode_error)
                   \/ (tagName ce = "Column"
                       /\ ((ascii_only (type_info ce) = false
                            /\ e = encode_error)
                           \/ (type_info ce = "GEOMETRY"
                               /\ attribute ce "name" "" <> ""
                               /\ geometry_error ce = Some e)))))
    /\ ((exists loaded, ProfileSerializer.read_xml element = Ok loaded)
        <-> attribute element "name" "" = ""
            \/ forall el ce,
                 In el (childNodes element) ->
                 tagName el = "Entity" ->
                 attribute el "shortName" "" <> "" ->
                 In ce (EntitySerializer.column_elements el) ->
                 column_element_error ce = None).
Proof.
  intros element. pose proof (profile_read_cases element) as Hcases.
  split; [| split].
  - intros e. destruct (profile_error element) as [e' |].
    + rewrite Hcases. split; congruence.
    + destruct Hcases as [loaded ->]. split; discriminate.
  - intros e. unfold profile_error.
    destruct (truthy (attribute element "name" "")) eqn:Hname;
      [| discriminate].
    apply truthy_true in Hname. intros Hhead. split; [exact Hname |].
    apply head_omap_some in Hhead. destruct Hhead as (el & Hel & Herr).
    apply read_order_elements in Hel. destruct Hel as [Hin Htag].
    unfold entity_error in Herr.
    destruct (truthy (attribute el "shortName" "")) eqn:Hshort;
      [| discriminate].
    apply truthy_true in Hshort.
    apply head_omap_some in Herr. destruct Herr as (ce & Hce & Hcerr).
    apply column_element_error_spec in Hcerr.
    exists el, ce. auto.
  - assert (Hnone : profile_error element = None
                    <-> attribute element "name" "" = ""
                        \/ forall el ce,
                             In el (childNodes element) ->
                             tagName el = "Entity" ->
                             attribute el "shortName" "" <> "" ->
                             In ce (EntitySerializer.column_elements el) ->
                             column_element_error ce = None).
    { unfold profile_error.
      destruct (truthy (attribute element "name" "")) eqn:Hname.
      - apply truthy_true in Hname. rewrite head_omap_none. split.
        + intros H. right. intros el ce Hin Htag Hshort Hce.
          assert (Hel : entity_error el = None)
            by (apply H, read_order_elements; auto).
          unfold entity_error in Hel. apply truthy_true in Hshort.
          rewrite Hshort in Hel.
          exact (proj1 (head_omap_none _ _) Hel ce Hce).
        + intros [Hempty | H]; [congruence |].
          intros el Hel. apply read_order_elements in Hel.
          destruct Hel as [Hin Htag]. unfold entity_error.
          destruct (truthy (attribute el "shortName" "")) eqn:Hshort;
            [| reflexivity].
          apply truthy_true in Hshort. apply head_omap_none.
          intros ce Hce. now apply (H el ce).
      - apply truthy_false in Hname. split; auto. }
    rewrite <- Hnone. destruct (profile_error element) as [e |].
    + rewrite Hcases. split; [intros [loaded Hx]; discriminate Hx |].
      discriminate.
    + split; [reflexivity | intros _; exact Hcases].
Qed.

Lemma profile_reader_raises_iff_witness :
  ProfileSerializer.read_xml (Ext := Example.env)
    Example.broken_profile_element
  = Raise (ValueError "invalid literal for int()")
  /\ ProfileSerializer.read_xml (Ext := Example.env)
       Example.accented_profile_element
     = Raise encode_error
  /\ exists loaded,
       ProfileSerializer.read_xml (Ext := Example.env) Example.profile_element
       = Ok loaded.
Proof.
  split; [| split].
  - apply (profile_reader_raises_iff (Ext := Example.env)).
    vm_compute. reflexivity.
  - apply (profile_reader_raises_iff (Ext := Example.env)).
    vm_compute. reflexivity.
  - apply (profile_reader_raises_iff (Ext := Example.env)).
    right. intros el ce Hin _ _ Hce. cbn in Hin.
    destruct Hin as [<- | [<- | [<- | [<- | [<- | []]]]]];
      cbn in Hce; try contradiction;
      repeat (destruct Hce as [<- | Hce]; [vm_compute; reflexivity |]);
      contradiction.
Defined.

(** *** The dependency flag of a written entity *)

Section WrittenDependency.
Context {Sc : Scalars} {Ext : External}.

Lemma own_part_attributes (cls : Serializer) (column : Column)
    (e e' : Element) :
  _write_xml cls column e = Ok e' -> attributes e' = attributes e.
Proof.
  destruct cls; cbn [_write_xml];
    try (intros [= <-]; first [reflexivity | apply attributes_appendChild]).
  - destruct (col_geom_type column); [| discriminate].
    intros [= <-]. apply attributes_appendChild.
  - destruct (kw_entity_relation (col_kwargs column)); [| discriminate].
    intros [= <-]. apply attributes_appendChild.
  - destruct (kw_entity_relation (col_kwargs column)); [| discriminate].
    intros [= <-]. apply attributes_appendChild.
  - destruct (kw_entity_relation (col_kwargs column)); [| discriminate].
    intros [= <-]. apply attributes_appendChild.
Qed.

Lemma general_element_type_info (cls : Serializer) (column : Column) :
  attributes (general_element cls column) !! "TYPE_INFO"
  = Some (COLUMN_TYPE_INFO cls).
Proof.
  unfold general_element.
  destruct (kw_minimum (col_kwargs column)), (kw_maximum (col_kwargs column));
    cbv zeta; unfold setAttribute, createElement; cbn [attributes];
    rewrite ?lookup_insert_ne by discriminate; apply lookup_insert_eq.
Qed.

Lemma write_column_dependency (c : Column) (t : string)
    (a : gmap string string) (pre : list Element) (res : Element) :
  EntitySerializer.write_column c (Elem t a pre) = Ok res ->
  exists els,
    res = Elem t a (pre ++ els)
    /\ EntitySerializer.dependency_loop els = written_with_dependency c.
Proof.
  unfold EntitySerializer.write_column, written_with_dependency.
  destruct (handler (col_TYPE_INFO c)) as [cls |] eqn:Hh.
  - apply handler_spec in Hh. destruct Hh as [_ Hti].
    rewrite write_xml_general.
    destruct (printable_bounds c); [| discriminate].
    destruct (_write_xml cls c (general_element cls c)) as [el |] eqn:Hw;
      simpl; [| discriminate].
    intros [= <-]. exists [el]. split; [reflexivity |].
    apply own_part_attributes in Hw.
    cbn [EntitySerializer.dependency_loop].
    unfold hasAttribute, attribute.
    rewrite Hw, general_element_type_info, Hti.
    unfold EntitySerializer.py_in, EntitySerializer.DEPENDENCY_FLAGS.
    cbn [existsb]. rewrite orb_false_r.
    now destruct (String.eqb _ _).
  - intros [= <-]. exists []. now rewrite app_nil_r.
Qed.

Lemma dependency_loop_app (l1 l2 : list Element) :
  EntitySerializer.dependency_loop (l1 ++ l2)
  = EntitySerializer.dependency_loop l1 || EntitySerializer.dependency_loop l2.
Proof.
  induction l1 as [| c l1 IH]; [reflexivity |].
  cbn [app EntitySerializer.dependency_loop].
  destruct (hasAttribute c "TYPE_INFO"); [| exact IH].
  destruct (EntitySerializer.py_in _ _); [reflexivity | exact IH].
Qed.

Lemma write_columns_dependency (cols : list Column) :
  forall t a pre res,
    foldM EntitySerializer.write_column cols (Elem t a pre) = Ok res ->
    exists els,
      res = Elem t a (pre ++ els)
      /\ EntitySerializer.dependency_loop els
         = existsb written_with_dependency cols.
Proof.
  induction cols as [| c cols IH]; intros t a pre res; cbn [foldM].
  - intros [= <-]. exists []. now rewrite app_nil_r.
  - destruct (EntitySerializer.write_column c (Elem t a pre))
      as [r1 |] eqn:E1; cbv beta iota delta [mbind result_bind Py.bind];
      [| discriminate].
    apply write_column_dependency in E1. destruct E1 as (els1 & -> & Hd1).
    intros Hrest. apply IH in Hrest. destruct Hrest as (els & -> & Hd).
    exists (els1 ++ els). split; [now rewrite app_assoc |].
    rewrite dependency_loop_app, Hd1, Hd. reflexivity.
Qed.

Lemma entity_element_dependency (profile_name : string) (entity : Entity)
    (columns_element : Element) :
  foldM EntitySerializer.write_column
    (EntitySerializer.columns_values entity) (createElement "Columns")
  = Ok columns_element ->
  EntitySerializer.has_dependency (entity_element profile_name entity)
  = existsb written_with_dependency (EntitySerializer.columns_values entity).
Proof.
  intros Hcols. unfold entity_element. rewrite Hcols.
  apply write_columns_dependency in Hcols.
  destruct Hcols as (els & -> & Hdep).
  rewrite <- Hdep. unfold EntitySerializer.has_dependency,
    EntitySerializer.column_elements, firstChildElement.
  rewrite childNodes_appendChild. unfold entity_attributes_element.
  cbv zeta. rewrite !childNodes_setAttribute. reflexivity.
Qed.

End WrittenDependency.

(** X20. An entity element the writer produced is classified as
    dependency-bearing by the loader exactly when one of the columns the
    writer met is of a registered kind and carries the foreign key type
    tag: columns of kinds without a serializer leave no element behind and
    so never defer their entity. *)
Theorem written_entity_is_deferred_iff {Sc : Scalars} {Ext : External} :
  forall (profile_name : string) (entity : Entity)
         (parent_node parent' : Element),
    EntitySerializer.write_xml profile_name entity parent_node = Ok parent' ->
    exists el,
      parent' = appendChild parent_node el
      /\ tagName el = "Entity"
      /\ EntitySerializer.has_dependency el
         = existsb written_with_dependency
             (EntitySerializer.columns_values entity).
Proof.
  intros profile_name entity parent_node parent' Hw.
  apply entity_element_written in Hw. destruct Hw as (-> & c & Hc).
  exists (entity_element profile_name entity).
  split; [reflexivity |]. split; [apply entity_element_tag |].
  now apply (entity_element_dependency profile_name entity c).
Qed.

Lemma written_entity_is_deferred_iff_witness :
  exists parent' el,
    EntitySerializer.write_xml (Ext := Example.env) "default"
      (Example.plot_entity [Example.area_of_plot; Example.owner_of_plot])
      (createElement "Profile") = Ok parent'
    /\ parent' = appendChild (createElement "Profile") el
    /\ EntitySerializer.has_dependency el = true.
Proof.
  destruct (EntitySerializer.write_xml (Ext := Example.env) "default"
              (Example.plot_entity
                 [Example.area_of_plot; Example.owner_of_plot])
              (createElement "Profile")) as [parent' | e] eqn:Hw.
  - destruct (written_entity_is_deferred_iff (Ext := Example.env)
                _ _ _ _ Hw) as (el & Hp & _ & Hdep).
    exists parent', el. split; [reflexivity |]. split; [exact Hp |].
    rewrite Hdep. reflexivity.
  - exfalso. vm_compute in Hw. discriminate Hw.
Defined.

(** *** A profile written and read back *)

Section ProfileRoundTrip.
Context {Sc : Scalars} {Ext : External}.

Lemma append_in_first_filter (tag tag' : string) (child : Element)
    (cs cs' : list Element) :
  String.eqb tag tag' = false ->
  append_in_first tag child cs = Some cs' ->
  List.filter (fun c => String.eqb (tagName c) tag') cs'
  = List.filter (fun c => String.eqb (tagName c) tag') cs.
Proof.
  intros Hne. revert cs'. induction cs as [| c cs IH]; intros cs'; simpl;
    [discriminate |].
  destruct (String.eqb (tagName c) tag) eqn:Etag.
  - intros [= <-]. apply String.eqb_eq in Etag. simpl.
    rewrite tagName_appendChild, Etag, Hne. reflexivity.
  - destruct (append_in_first tag child cs) as [cs1 |]; simpl;
      [| discriminate].
    intros [= <-]. simpl. now rewrite (IH cs1 eq_refl).
Qed.

Lemma append_to_group_entity_elements
    (cls : EntitySerializerCollection.Serializer) (group_tag : string)
    (pe child : Element) :
  GROUP_TAG cls = Some group_tag ->
  String.eqb group_tag "Entity" = false ->
  entity_elements (append_to_group cls pe child) = entity_elements pe.
Proof.
  intros Hgroup Hne. unfold append_to_group, entity_elements.
  rewrite Hgroup. destruct pe as [t a cs].
  destruct (append_in_first group_tag child cs) as [cs' |] eqn:Eapp;
    cbn [childNodes].
  - exact (append_in_first_filter _ _ _ _ _ Hne Eapp).
  - rewrite List.filter_app. cbn [List.filter].
    rewrite tagName_appendChild. cbn [tagName createElement].
    rewrite Hne. now rewrite app_nil_r.
Qed.

Lemma entity_elements_appendChild (pe c : Element) :
  entity_elements (appendChild pe c)
  = entity_elements pe
      ++ (if String.eqb (tagName c) "Entity" then [c] else []).
Proof.
  unfold entity_elements. rewrite childNodes_appendChild, List.filter_app.
  reflexivity.
Qed.

(** The entity elements of a profile element grow by one per entity
    written, in order; no social tenure element comes in. *)
Lemma write_entities_children (profile_name : string)
    (l : list EntityLike) :
  forall pe pe',
    foldM (ProfileSerializer.write_entity profile_name) l pe = Ok pe' ->
    entity_elements pe'
    = entity_elements pe
        ++ map (entity_element profile_name) (omap is_entity l)
    /\ firstChildElement pe' "SocialTenure"
       = firstChildElement pe "SocialTenure"
    /\ Forall (fun e => EntitySerializer.has_dependency
                          (entity_element profile_name e)
                        = deferred e
                        /\ exists parent_node parent',
                             EntitySerializer.write_xml profile_name e
                               parent_node = Ok parent')
         (omap is_entity l).
Proof.
  induction l as [| x l IH]; intros pe pe'; cbn [foldM].
  - intros [= <-]. simpl. rewrite app_nil_r. auto.
  - destruct (ProfileSerializer.write_entity profile_name x pe)
      as [pe1 |] eqn:E1; cbv beta iota delta [mbind result_bind Py.bind];
      [| discriminate].
    intros Hrest. apply IH in Hrest. destruct Hrest as (Hels & Hst & Hdep).
    rewrite Hels, Hst. clear Hels Hst IH.
    destruct x as [e | v | a].
    + change (EntitySerializer.write_xml profile_name e pe = Ok pe1) in E1.
      pose proof E1 as Hwritten.
      apply entity_element_written in E1. destruct E1 as (-> & c & Hc).
      cbn [omap list_omap is_entity map].
      rewrite entity_elements_appendChild, entity_element_tag.
      cbn [String.eqb Ascii.eqb Bool.eqb].
      rewrite <- app_assoc. split; [reflexivity |].
      split.
      * apply firstChildElement_appendChild_other.
        now rewrite entity_element_tag.
      * constructor; [| exact Hdep].
        split; [exact (entity_element_dependency profile_name e c Hc) |].
        eauto.
    + change (Ok (ValueListSerializer.write_xml v pe) = Ok pe1) in E1.
      injection E1 as <-.
      change (ValueListSerializer.write_xml v pe)
        with (append_to_group
                EntitySerializerCollection.ValueListSerializer pe
                (value_list_element v)).
      cbn [omap list_omap is_entity].
      rewrite (append_to_group_entity_elements _ "ValueLists")
        by reflexivity.
      split; [reflexivity |]. split; [| exact Hdep].
      now apply (append_to_group_other _ "ValueLists").
    + change (Ok (AssociationEntitySerializer.write_xml profile_name a pe)
              = Ok pe1) in E1.
      injection E1 as <-.
      unfold AssociationEntitySerializer.write_xml.
      cbn [omap list_omap is_entity].
      rewrite (append_to_group_entity_elements _ "Associations")
        by reflexivity.
      split; [reflexivity |]. split; [| exact Hdep].
      now apply (append_to_group_other _ "Associations").
Qed.

Lemma value_lists_added (vls : list ValueList) :
  forall p,
    fold_left
      (fun p v => if truthy (vl_short_name v)
                  then add_entity p (AValueList (kept_values v))
                  else p) vls p
    = {| prf_name := prf_name p;
         prf_added :=
           prf_added p
           ++ map (fun v => AValueList (kept_values v))
                (List.filter (fun v => truthy (vl_short_name v)) vls);
         prf_relations := prf_relations p;
         prf_social_tenure := prf_social_tenure p |}.
Proof.
  induction vls as [| v vls IH]; intros p; cbn [fold_left List.filter map].
  - rewrite app_nil_r. now destruct p.
  - rewrite IH. destruct (truthy (vl_short_name v)); [| reflexivity].
    cbn. now rewrite <- app_assoc.
Qed.

Lemma entities_added (profile_name : string) (A R : gmap string Element)
    (es : list Entity) :
  Forall (fun e => storable_entity e /\ printable_entity e = true) es ->
  forall p,
    foldM (fun el p => EntitySerializer.read_xml el p A R)
      (map (entity_element profile_name) es) p
    = Ok {| prf_name := prf_name p;
            prf_added :=
              prf_added p ++ map (fun e => AnEntity (read_back_entity e)) es;
            prf_relations := prf_relations p;
            prf_social_tenure := prf_social_tenure p |}.
Proof.
  induction 1 as [| e es [He Hp] _ IH]; intros p; cbn [map foldM].
  - rewrite app_nil_r. now destruct p.
  - rewrite (entity_element_read profile_name e p A R He Hp).
    cbv beta iota delta [mbind result_bind Py.bind]. rewrite IH.
    cbn. now rewrite <- app_assoc.
Qed.

Lemma filter_entity_elements (profile_name : string) (f : bool -> bool)
    (es : list Entity) :
  Forall (fun e => EntitySerializer.has_dependency
                     (entity_element profile_name e) = deferred e) es ->
  List.filter
    (fun c => f (ItemSerializer.has_dependency
                   EntitySerializerCollection.EntitySerializer c))
    (map (entity_element profile_name) es)
  = map (entity_element profile_name)
      (List.filter (fun e => f (deferred e)) es).
Proof.
  induction 1 as [| e es He _ IH]; [reflexivity |].
  cbn [map List.filter]. rewrite IH.
  change (ItemSerializer.has_dependency
            EntitySerializerCollection.EntitySerializer
            (entity_element profile_name e))
    with (EntitySerializer.has_dependency (entity_element profile_name e)).
  rewrite He. now destruct (f (deferred e)).
Qed.

Lemma Forall_list_filter {A} (P : A -> Prop) (f : A -> bool) (l : list A) :
  Forall P l -> Forall P (List.filter f l).
Proof.
  rewrite !List.Forall_forall. intros H x Hx. apply filter_In in Hx.
  apply H, Hx.
Qed.

Lemma profile_round_trip_spec (profile : Profile)
    (parent_node parent' : Element) :
  prf_name profile <> "" ->
  Forall storable_entity (entities_of profile) ->
  ProfileSerializer.write_xml profile parent_node = Ok parent' ->
  exists pe,
    parent' = appendChild parent_node pe
    /\ tagName pe = "Profile"
    /\ ProfileSerializer.read_xml pe = Ok (Some (read_back_profile profile)).
Proof.
  intros Hname Hstorable. unfold ProfileSerializer.write_xml.
  destruct (foldM _ _ _) as [pe1 |] eqn:E1;
    cbv beta iota zeta delta [mbind result_bind Py.bind]; [| discriminate].
  assert (Hinit : group_holds
                    (setAttribute (createElement "Profile") "name"
                       (prf_name profile)) []) by reflexivity.
  destruct (write_entities_group _ _ _ _ _ Hinit E1)
    as (Hgroup & Hattrs & Htag).
  destruct (write_entities_children _ _ _ _ E1) as (Hels & Hnost & Hboth).
  fold (entities_of profile) in Hels, Hboth.
  assert (Hdep : Forall (fun e => EntitySerializer.has_dependency
                                    (entity_element (prf_name profile) e)
                                  = deferred e) (entities_of profile)).
  { eapply List.Forall_impl; [| exact Hboth]. intros e [H _]. exact H. }
  assert (Hprint : Forall (fun e => storable_entity e
                                    /\ printable_entity e = true)
                     (entities_of profile)).
  { rewrite List.Forall_forall in Hstorable, Hboth |- *. intros e He.
    split; [now apply Hstorable |].
    destruct (Hboth e He) as (_ & parent_node0 & parent0 & Hw).
    exact (written_entity_printable _ _ _ _ (Hstorable e He) Hw). }
  cbn [app] in Hgroup. fold (value_lists_of profile) in Hgroup.
  set (relations_el :=
         fold_left (fun el er => EntityRelationSerializer.write_xml er el)
           (prf_relations profile) (createElement "Relations")).
  unfold SocialTenureSerializer.write_xml.
  destruct (st_party (prf_social_tenure profile)) as [party |] eqn:Hparty;
    cbv beta iota zeta delta [mbind result_bind Py.bind
                              SocialTenureSerializer.short_name_of];
    [| discriminate].
  destruct (st_spatial_unit (prf_social_tenure profile))
    as [spatial_unit |] eqn:Hsu;
    cbv beta iota zeta delta [mbind result_bind Py.bind]; [| discriminate].
  destruct (st_tenure_type_collection (prf_social_tenure profile))
    as [tenure_type |];
    cbv beta iota zeta delta [mbind result_bind Py.bind]; [| discriminate].
  set (st_el := setAttribute _ SocialTenureSerializer.TENURE_TYPE tenure_type).
  intros [= <-].
  set (pe := appendChild (appendChild pe1 relations_el) st_el).
  exists pe. split; [reflexivity |].
  assert (Hrel_tag : tagName relations_el = "Relations")
    by apply relations_written_tag.
  split; [unfold pe; now rewrite !tagName_appendChild |].
  assert (Hpe_name : attribute pe "name" "" = prf_name profile).
  { unfold pe, attribute. rewrite !attributes_appendChild, Hattrs.
    reflexivity. }
  assert (Hpe_vls : value_list_elements pe
                    = map value_list_element (value_lists_of profile)).
  { apply group_holds_elements. unfold group_holds in *. unfold pe.
    rewrite !firstChildElement_appendChild_other; [exact Hgroup | |].
    - now rewrite Hrel_tag.
    - reflexivity. }
  assert (Hpe_els : entity_elements pe
                    = map (entity_element (prf_name profile))
                        (entities_of profile)).
  { unfold pe. rewrite !entity_elements_appendChild, Hrel_tag, Hels.
    cbn. now rewrite !app_nil_r. }
  assert (Hpe_st : firstChildElement pe "SocialTenure" = Some st_el).
  { unfold pe, firstChildElement. rewrite childNodes_appendChild.
    rewrite first_with_tag_snoc.
    fold (firstChildElement (appendChild pe1 relations_el) "SocialTenure").
    rewrite firstChildElement_appendChild_other by now rewrite Hrel_tag.
    rewrite Hnost. reflexivity. }
  unfold ProfileSerializer.read_xml. rewrite Hpe_name.
  apply truthy_true in Hname. rewrite Hname. simpl negb. cbv iota zeta.
  rewrite read_entities_spec, Hpe_vls, written_value_lists_read,
    value_lists_added.
  unfold immediate_elements, queued_elements. rewrite Hpe_els.
  rewrite (filter_entity_elements _ negb _ Hdep),
    (filter_entity_elements _ (fun b => b) _ Hdep), <- map_app.
  rewrite entities_added.
  2:{ apply Forall_app. split; apply Forall_list_filter; exact Hprint. }
  cbv beta iota delta [mbind result_bind Py.bind]. rewrite Hpe_st.
  unfold SocialTenureSerializer.read_xml.
  replace (attribute st_el SocialTenureSerializer.PARTY "") with party
    by reflexivity.
  replace (attribute st_el SocialTenureSerializer.SPATIAL_UNIT "")
    with spatial_unit by reflexivity.
  unfold read_back_profile. rewrite Hparty, Hsu. unfold non_empty.
  cbn [new_profile prf_name prf_added prf_relations prf_social_tenure app].
  destruct (truthy party), (truthy spatial_unit); reflexivity.
Qed.

(** With the tag of the foreign key class as the only dependency flag,
    no entity with storable columns is deferred. *)
Lemma storable_not_deferred (entity : Entity) :
  ForeignKeyColumn_TYPE_INFO = "FOREIGN_KEY" ->
  storable_entity entity -> deferred entity = false.
Proof.
  intros Hfk [_ Hcols]. unfold deferred.
  induction Hcols as [| c cols Hc _ IH]; [reflexivity |].
  cbn [existsb]. rewrite IH, orb_false_r.
  unfold written_with_dependency. rewrite Hfk.
  destruct Hc as (cls & name & kw & _ & _ & _ & _ & Hkind).
  destruct Hkind as [[Hplain ->] | [-> (g & s & ->)]].
  - cbn [col_TYPE_INFO plain_column].
    destruct (handler (COLUMN_TYPE_INFO cls)); [| reflexivity].
    destruct cls; first [discriminate Hplain | reflexivity].
  - reflexivity.
Qed.

Lemma read_back_profile_in_order (profile : Profile) :
  ForeignKeyColumn_TYPE_INFO = "FOREIGN_KEY" ->
  Forall storable_entity (entities_of profile) ->
  read_back_profile profile = read_back_in_order profile.
Proof.
  intros Hfk Hs. unfold read_back_profile, read_back_in_order.
  assert (Hfilter : forall es,
            Forall storable_entity es ->
            List.filter (fun e => negb (deferred e)) es
            ++ List.filter deferred es = es).
  { induction 1 as [| e es He _ IH]; [reflexivity |].
    cbn [List.filter]. rewrite (storable_not_deferred e Hfk He).
    cbn [negb app]. now rewrite IH. }
  now rewrite (Hfilter _ Hs).
Qed.

End ProfileRoundTrip.

(** X21. What a round trip keeps of a profile none of whose entities is
    deferred. With the tag of the foreign key class as the only
    dependency flag, a named profile whose entities have a short name and
    storable columns, once written, reads back from its Profile element as
    the profile of the same name that holds first its named value lists
    without their empty values, then its entities in the order of the
    writer, each as the entity reader rebuilds it: same short name,
    description and columns, the identifier-column flag in the place of
    the proxy flag. The association entities, the relations and the
    tenure type list are not read back; the party and the spatial unit
    are, when not empty. *)
Theorem storable_profile_round_trip {Sc : Scalars} {Ext : External} :
  forall (profile : Profile) (parent_node parent' : Element),
    ForeignKeyColumn_TYPE_INFO = "FOREIGN_KEY" ->
    prf_name profile <> "" ->
    Forall storable_entity (entities_of profile) ->
    ProfileSerializer.write_xml profile parent_node = Ok parent' ->
    exists pe,
      parent' = appendChild parent_node pe
      /\ tagName pe = "Profile"
      /\ ProfileSerializer.read_xml pe
         = Ok (Some (read_back_in_order profile)).
Proof.
  intros profile parent_node parent' Hfk Hname Hs Hw.
  destruct (profile_round_trip_spec profile parent_node parent' Hname Hs Hw)
    as (pe & Hpe & Htag & Hread).
  exists pe. split; [exact Hpe |]. split; [exact Htag |].
  now rewrite <- (read_back_profile_in_order profile Hfk Hs).
Qed.

Lemma storable_profile_round_trip_witness :
  exists pe,
    ProfileSerializer.write_xml (Ext := Example.env) Example.plot_profile
      (createElement "Configuration")
    = Ok (appendChild (createElement "Configuration") pe)
    /\ ProfileSerializer.read_xml (Ext := Example.env) pe
       = Ok (Some (read_back_in_order Example.plot_profile))
    /\ added_names (read_back_in_order (Ext := Example.env)
                      Example.plot_profile)
       = ["status"; "party"; "plot"].
Proof.
  assert (Hs : Forall (storable_entity (Ext := Example.env))
                 (entities_of Example.plot_profile)).
  { constructor; [| constructor; [| constructor]].
    - split; [discriminate | constructor].
    - split; [discriminate |].
      constructor; [| constructor; [| constructor]].
      + exists IntegerColumnSerializer, "area",
          (col_kwargs Example.area_of_plot).
        split; [discriminate |]. split; [discriminate |].
        split; [reflexivity |].
        split; [split; intros b [= <-]; exact I |].
        left. split; reflexivity.
      + exists GeometryColumnSerializer, "shape",
          (col_kwargs Example.shape_of_plot).
        split; [discriminate |]. split; [discriminate |].
        split; [reflexivity |].
        split; [split; intros b Hb; discriminate Hb |].
        right. split; [reflexivity |]. exists 2%Z, 4326%Z. reflexivity. }
  destruct (ProfileSerializer.write_xml (Ext := Example.env)
              Example.plot_profile (createElement "Configuration"))
    as [parent' | e] eqn:Hw.
  - destruct (storable_profile_round_trip (Ext := Example.env)
                Example.plot_profile (createElement "Configuration")
                parent' eq_refl ltac:(discriminate) Hs Hw)
      as (pe & -> & _ & Hr).
    exists pe. split; [reflexivity |]. split; [exact Hr | reflexivity].
  - exfalso. vm_compute in Hw. discriminate Hw.
Defined.

(** *** A configuration saved and loaded *)

Section Descendants.
Context {Sc : Scalars} {Ext : External}.

Lemma elementsByTagName_childNodes (e : Element) (tag : string) :
  elementsByTagName e tag
  = flat_map
      (fun c => (if String.eqb (tagName c) tag then [c] else [])
                  ++ elementsByTagName c tag) (childNodes e).
Proof. destruct e. apply elementsByTagName_children. Qed.

Lemma free_children (tag : string) (cs : list Element) :
  Forall (free_of tag) cs ->
  flat_map
    (fun c => (if String.eqb (tagName c) tag then [c] else [])
                ++ elementsByTagName c tag) cs = [].
Proof.
  induction 1 as [| c cs [Hc1 Hc2] _ IH]; [reflexivity |].
  cbn [flat_map]. now rewrite Hc1, Hc2, IH.
Qed.

Lemma free_node (tag : string) (e : Element) :
  String.eqb (tagName e) tag = false ->
  Forall (free_of tag) (childNodes e) ->
  free_of tag e.
Proof.
  intros Htag Hcs. split; [exact Htag |].
  rewrite elementsByTagName_childNodes. now apply free_children.
Qed.

Lemma free_children_inv (tag : string) (e : Element) :
  elementsByTagName e tag = [] -> Forall (free_of tag) (childNodes e).
Proof.
  rewrite elementsByTagName_childNodes.
  induction (childNodes e) as [| c cs IH]; [constructor |].
  cbn [flat_map]. intros H. apply app_eq_nil in H. destruct H as [H1 H2].
  apply app_eq_nil in H1. destruct H1 as [H1 H3].
  constructor; [| now apply IH].
  split; [| exact H3]. now destruct (String.eqb (tagName c) tag).
Qed.

Lemma free_appendChild (tag : string) (e c : Element) :
  free_of tag e -> free_of tag c -> free_of tag (appendChild e c).
Proof.
  intros [He1 He2] Hc. apply free_node.
  - now rewrite tagName_appendChild.
  - rewrite childNodes_appendChild. apply Forall_app. split.
    + now apply free_children_inv.
    + now constructor.
Qed.

Lemma free_setAttribute (tag : string) (e : Element) (k v : string) :
  free_of tag e -> free_of tag (setAttribute e k v).
Proof.
  intros [He1 He2]. apply free_node.
  - now rewrite tagName_setAttribute.
  - rewrite childNodes_setAttribute. now apply free_children_inv.
Qed.

Lemma free_createElement (tag t : string) :
  String.eqb t tag = false -> free_of tag (createElement t).
Proof. intros H. split; [exact H | reflexivity]. Qed.

Lemma general_element_free (cls : Serializer) (column : Column) :
  free_of "Profile" (general_element cls column).
Proof.
  destruct (general_element_tags cls column) as (Ht & Hc & _).
  apply free_node; [now rewrite Ht | rewrite Hc; constructor].
Qed.

Lemma own_part_free (cls : Serializer) (column : Column) (e e' : Element) :
  _write_xml cls column e = Ok e' ->
  free_of "Profile" e -> free_of "Profile" e'.
Proof.
  intros Hw He.
  destruct cls; cbn [_write_xml] in Hw;
    try (injection Hw as <-; exact He).
  - destruct (col_geom_type column); [| discriminate Hw].
    injection Hw as <-. apply free_appendChild; [exact He |].
    repeat apply free_setAttribute. now apply free_createElement.
  - destruct (kw_entity_relation (col_kwargs column)); [| discriminate Hw].
    injection Hw as <-. apply free_appendChild; [exact He |].
    repeat apply free_setAttribute. now apply free_createElement.
  - destruct (kw_entity_relation (col_kwargs column)); [| discriminate Hw].
    injection Hw as <-. apply free_appendChild; [exact He |].
    repeat apply free_setAttribute. now apply free_createElement.
  - destruct (kw_entity_relation (col_kwargs column)); [| discriminate Hw].
    injection Hw as <-. apply free_appendChild; [exact He |].
    repeat apply free_setAttribute. now apply free_createElement.
  - injection Hw as <-. apply free_appendChild; [exact He |].
    repeat apply free_setAttribute. now apply free_createElement.
Qed.

Lemma write_columns_free (cols : list Column) :
  forall e e',
    foldM EntitySerializer.write_column cols e = Ok e' ->
    free_of "Profile" e -> free_of "Profile" e'.
Proof.
  induction cols as [| c cols IH]; intros e e'; cbn [foldM].
  - now intros [= <-].
  - destruct (EntitySerializer.write_column c e) as [e1 |] eqn:E1;
      cbv beta iota delta [mbind result_bind Py.bind]; [| discriminate].
    intros Hrest He. apply (IH _ _ Hrest).
    unfold EntitySerializer.write_column in E1.
    destruct (handler (col_TYPE_INFO c)) as [cls |];
      [| now injection E1 as <-].
    rewrite write_xml_general in E1.
    destruct (printable_bounds c); [| discriminate E1].
    destruct (_write_xml cls c (general_element cls c)) as [el |] eqn:Hw;
      cbv beta iota delta [mbind result_bind Py.bind] in E1;
      [| discriminate E1].
    injection E1 as <-. apply free_appendChild; [exact He |].
    exact (own_part_free _ _ _ _ Hw (general_element_free cls c)).
Qed.

Lemma entity_element_free (profile_name : string) (entity : Entity) :
  free_of "Profile" (entity_element profile_name entity).
Proof.
  unfold entity_element. apply free_appendChild.
  - unfold entity_attributes_element. cbv zeta.
    repeat apply free_setAttribute. now apply free_createElement.
  - destruct (foldM _ _ _) as [c |] eqn:E.
    + apply (write_columns_free _ _ _ E). now apply free_createElement.
    + now apply free_createElement.
Qed.

Lemma value_list_element_free (v : ValueList) :
  free_of "Profile" (value_list_element v).
Proof.
  rewrite value_list_element_shape. split; [reflexivity |].
  rewrite elementsByTagName_children. apply code_values_descendants.
Qed.

Lemma append_in_first_free (tag : string) (child : Element)
    (cs cs' : list Element) :
  append_in_first tag child cs = Some cs' ->
  Forall (free_of "Profile") cs -> free_of "Profile" child ->
  Forall (free_of "Profile") cs'.
Proof.
  revert cs'. induction cs as [| c cs IH]; intros cs'; simpl;
    [discriminate |].
  destruct (String.eqb (tagName c) tag).
  - intros [= <-] Hcs Hchild. inversion Hcs; subst.
    constructor; [now apply free_appendChild | assumption].
  - destruct (append_in_first tag child cs) as [cs1 |]; simpl;
      [| discriminate].
    intros [= <-] Hcs Hchild. inversion Hcs; subst.
    constructor; [assumption | now apply IH].
Qed.

Lemma append_to_group_free (cls : EntitySerializerCollection.Serializer)
    (pe child : Element) :
  Forall (free_of "Profile") (childNodes pe) ->
  free_of "Profile" child ->
  Forall (free_of "Profile") (childNodes (append_to_group cls pe child)).
Proof.
  intros Hcs Hchild. unfold append_to_group.
  destruct (GROUP_TAG cls) as [g |] eqn:Hg.
  - destruct pe as [t a cs]. cbn [childNodes] in Hcs.
    destruct (append_in_first g child cs) as [cs' |] eqn:Eapp;
      cbn [childNodes].
    + exact (append_in_first_free _ _ _ _ Eapp Hcs Hchild).
    + apply Forall_app. split; [exact Hcs |]. constructor; [| constructor].
      apply free_appendChild; [| exact Hchild].
      apply free_createElement. destruct cls; inversion Hg; reflexivity.
  - rewrite childNodes_appendChild. apply Forall_app.
    split; [exact Hcs | now constructor].
Qed.

Lemma write_entities_free (profile_name : string) (l : list EntityLike) :
  forall pe pe',
    foldM (ProfileSerializer.write_entity profile_name) l pe = Ok pe' ->
    Forall (free_of "Profile") (childNodes pe) ->
    Forall (free_of "Profile") (childNodes pe').
Proof.
  induction l as [| x l IH]; intros pe pe'; cbn [foldM].
  - now intros [= <-].
  - destruct (ProfileSerializer.write_entity profile_name x pe)
      as [pe1 |] eqn:E1; cbv beta iota delta [mbind result_bind Py.bind];
      [| discriminate].
    intros Hrest Hpe. apply (IH _ _ Hrest). clear Hrest IH.
    destruct x as [e | v | a].
    + change (EntitySerializer.write_xml profile_name e pe = Ok pe1) in E1.
      apply entity_element_written in E1. destruct E1 as (-> & _).
      rewrite childNodes_appendChild. apply Forall_app.
      split; [exact Hpe |]. constructor; [| constructor].
      apply entity_element_free.
    + change (Ok (ValueListSerializer.write_xml v pe) = Ok pe1) in E1.
      injection E1 as <-.
      change (ValueListSerializer.write_xml v pe)
        with (append_to_group
                EntitySerializerCollection.ValueListSerializer pe
                (value_list_element v)).
      apply append_to_group_free; [exact Hpe |].
      apply value_list_element_free.
    + change (Ok (AssociationEntitySerializer.write_xml profile_name a pe)
              = Ok pe1) in E1.
      injection E1 as <-. unfold AssociationEntitySerializer.write_xml.
      apply append_to_group_free; [exact Hpe |].
      repeat apply free_setAttribute. now apply free_createElement.
Qed.

Lemma relations_written_free (l : list EntityRelation) :
  forall e0,
    free_of "Profile" e0 ->
    free_of "Profile"
      (fold_left (fun el er => EntityRelationSerializer.write_xml er el)
         l e0).
Proof.
  induction l as [| er l IH]; intros e0 He0; [exact He0 |].
  cbn [fold_left]. apply IH. unfold EntityRelationSerializer.write_xml.
  apply free_appendChild; [exact He0 |].
  repeat apply free_setAttribute. now apply free_createElement.
Qed.

Lemma appendChild_inj (parent c c' : Element) :
  appendChild parent c = appendChild parent c' -> c = c'.
Proof.
  destruct parent as [t a cs]. cbn [appendChild]. intros [= H].
  now apply app_inj_tail in H.
Qed.

(** A written profile element holds no profile element below it. *)
Lemma profile_written_free (profile : Profile)
    (parent_node parent' : Element) :
  ProfileSerializer.write_xml profile parent_node = Ok parent' ->
  exists pe,
    parent' = appendChild parent_node pe
    /\ tagName pe = "Profile"
    /\ attribute pe "name" "" = prf_name profile
    /\ elementsByTagName pe "Profile" = [].
Proof.
  intros Hw.
  destruct (profile_write_spec _ _ _ Hw) as (pe & -> & Htag & Hname & _).
  exists pe. split; [reflexivity |]. split; [exact Htag |].
  split; [exact Hname |].
  revert Hw. unfold ProfileSerializer.write_xml.
  destruct (foldM _ _ _) as [pe1 |] eqn:E1;
    cbv beta iota zeta delta [mbind result_bind Py.bind]; [| discriminate].
  apply write_entities_free in E1; [| constructor].
  destruct (SocialTenureSerializer.write_xml _ _) as [pe3 |] eqn:E3;
    [| discriminate].
  intros [= Hpe]. apply appendChild_inj in Hpe. subst pe3.
  unfold SocialTenureSerializer.write_xml in E3.
  destruct (st_party _); simpl in E3; [| discriminate].
  destruct (st_spatial_unit _); simpl in E3; [| discriminate].
  destruct (st_tenure_type_collection _); simpl in E3; [| discriminate].
  injection E3 as <-.
  rewrite elementsByTagName_childNodes, !childNodes_appendChild.
  apply free_children. apply Forall_app. split; [apply Forall_app; split |].
  - exact E1.
  - constructor; [| constructor]. apply relations_written_free.
    now apply free_createElement.
  - constructor; [| constructor].
    repeat apply free_setAttribute. now apply free_createElement.
Qed.

End Descendants.

Section ConfigurationRoundTrip.
Context {Sc : Scalars} {Ext : External}.

Lemma written_profiles (ps : list Profile) :
  Forall (fun p => Forall storable_entity (entities_of p)) ps ->
  forall root root',
    foldM ProfileSerializer.write_xml ps root = Ok root' ->
    exists pes,
      childNodes root' = childNodes root ++ pes
      /\ Forall2
           (fun p pe =>
              tagName pe = "Profile"
              /\ elementsByTagName pe "Profile" = []
              /\ ProfileSerializer.read_xml pe
                 = Ok (if truthy (prf_name p)
                       then Some (read_back_profile p) else None))
           ps pes.
Proof.
  induction 1 as [| p ps Hp _ IH]; intros root root'; cbn [foldM].
  - intros [= <-]. exists []. split; [now rewrite app_nil_r | constructor].
  - destruct (ProfileSerializer.write_xml p root) as [root1 |] eqn:E1;
      cbv beta iota delta [mbind result_bind Py.bind]; [| discriminate].
    intros Hrest. apply IH in Hrest. destruct Hrest as (pes & Hcs & Hall).
    destruct (profile_written_free _ _ _ E1)
      as (pe & -> & Htag & Hname & Hfree).
    exists (pe :: pes). split.
    + rewrite Hcs, childNodes_appendChild, <- app_assoc. reflexivity.
    + constructor; [| exact Hall].
      split; [exact Htag |]. split; [exact Hfree |].
      destruct (truthy (prf_name p)) eqn:Hn.
      * apply truthy_true in Hn.
        destruct (profile_round_trip_spec _ _ _ Hn Hp E1)
          as (pe' & Hpe & _ & Hread).
        apply appendChild_inj in Hpe. now subst pe'.
      * unfold ProfileSerializer.read_xml. now rewrite Hname, Hn.
Qed.

Lemma profile_elements_of_children (pes : list Element) :
  Forall (fun pe => tagName pe = "Profile"
                    /\ elementsByTagName pe "Profile" = []) pes ->
  flat_map
    (fun c => (if String.eqb (tagName c) "Profile" then [c] else [])
                ++ elementsByTagName c "Profile") pes
  = pes.
Proof.
  induction 1 as [| pe pes [Ht Hd] _ IH]; [reflexivity |].
  cbn [flat_map]. now rewrite Ht, Hd, IH.
Qed.

Lemma load_written_profiles (ps : list Profile) (pes : list Element) :
  Forall2
    (fun p pe =>
       ProfileSerializer.read_xml pe
       = Ok (if truthy (prf_name p)
             then Some (read_back_profile p) else None))
    ps pes ->
  forall st,
    load_profiles pes st
    = (Ok tt,
       with_config st
         (fold_left
            (fun c p => if truthy (prf_name p)
                        then add_profile c (read_back_profile p)
                        else c) ps (config st))).
Proof.
  induction 1 as [| p pe ps pes Hread _ IH]; intros st;
    cbn [load_profiles fold_left].
  - now destruct st.
  - rewrite Hread. destruct (truthy (prf_name p)).
    + rewrite IH. reflexivity.
    + apply IH.
Qed.

(** Under a name, the configuration a load leaves holds what the
    profile registered under that name reads back as. *)
Lemma read_back_lookup (l : list (string * Profile)) (n : string) :
  NoDup l.*1 ->
  Forall (fun kp => prf_name kp.2 = kp.1) l ->
  forall acc : Configuration,
    profiles
      (fold_left
         (fun c p => if truthy (prf_name p)
                     then add_profile c (read_back_profile p)
                     else c) l.*2 acc) !! n
    = match (list_to_map l : gmap string Profile) !! n with
      | Some p => if truthy n then Some (read_back_profile p)
                  else profiles acc !! n
      | None => profiles acc !! n
      end.
Proof.
  induction l as [| [k p] l IH]; intros Hnodup Hnames acc;
    [reflexivity |].
  cbn [fmap list_fmap fst snd fold_left list_to_map foldr] in *.
  apply NoDup_cons in Hnodup. destruct Hnodup as [Hk Hnodup].
  inversion Hnames as [| ? ? Hp Hrest]; subst. cbn [fst snd] in Hp.
  rewrite (IH Hnodup Hrest).
  destruct (decide (k = n)) as [-> | Hne].
  - rewrite lookup_insert_eq.
    rewrite (not_elem_of_list_to_map_1 l n Hk). rewrite Hp.
    destruct (truthy n); [| reflexivity].
    cbn [add_profile profiles read_back_profile prf_name]. rewrite Hp.
    apply lookup_insert_eq.
  - rewrite lookup_insert_ne by exact Hne.
    assert (Hacc : profiles
                     (if truthy (prf_name p)
                      then add_profile acc (read_back_profile p)
                      else acc) !! n = profiles acc !! n).
    { destruct (truthy (prf_name p)); [| reflexivity].
      cbn [add_profile profiles read_back_profile prf_name].
      rewrite Hp. now apply lookup_insert_ne. }
    rewrite Hacc. reflexivity.
Qed.

Lemma configuration_round_trip_spec (st st' st0 : State) (is_null : bool)
    (can_open can_write : string -> bool) (p : string) (doc : Document)
    (upd : option Document -> bool * option Document) (v : float) :
  str_float VERSION <> "" ->
  py_float (str_float VERSION) = Some v ->
  float_lt v VERSION = false ->
  (forall k prof, profiles (config st) !! k = Some prof ->
                  Forall storable_entity (entities_of prof)) ->
  save st is_null can_open can_write = (Ok (p, doc), st') ->
  load upd st0 (Parsed doc)
  = (Ok tt,
     with_config st0
       (read_back_configuration
          (map_to_list (profiles (config st))).*2 (config st0))).
Proof.
  intros Hne Hfloat Hlt Hstorable. unfold save.
  destruct is_null; [discriminate |].
  destruct (negb (truthy (path st))); [discriminate |].
  destruct (negb (can_open _)); [discriminate |].
  destruct (ConfigurationFileSerializer.write_xml _) as [d |] eqn:Hw;
    [| discriminate].
  destruct (can_write _); [| discriminate].
  intros [= _ -> _].
  destruct (written_document_root _ _ Hw) as (root & Hroot & _ & Hattr).
  cbn [load].
  rewrite (current_document_loads upd st0 doc root _ v Hroot Hattr Hne
             Hfloat Hlt).
  revert Hw. unfold ConfigurationFileSerializer.write_xml.
  cbn [config with_path].
  destruct (foldM _ _ _) as [root' |] eqn:E;
    cbv beta iota delta [mbind result_bind Py.bind]; [| discriminate].
  intros [= <-]. cbn [documentElement] in Hroot. injection Hroot as <-.
  apply written_profiles in E.
  2:{ apply List.Forall_forall. intros prof Hin.
      apply list_elem_of_In, list_elem_of_fmap in Hin.
      destruct Hin as ([k prof'] & -> & Hin).
      apply elem_of_map_to_list in Hin. exact (Hstorable _ _ Hin). }
  destruct E as (pes & Hcs & Hall).
  rewrite elementsByTagName_childNodes, Hcs. cbn [childNodes setAttribute createElement app].
  rewrite profile_elements_of_children.
  2:{ clear -Hall. induction Hall as [| ? ? ? ? (Ht & Hd & _) _ IH];
        constructor; auto. }
  rewrite (load_written_profiles (map_to_list (profiles (config st))).*2
             pes).
  2:{ clear -Hall. induction Hall as [| ? ? ? ? (_ & _ & Hr) _ IH];
        constructor; auto. }
  reflexivity.
Qed.

End ConfigurationRoundTrip.

(** X22. Saving and loading. When every entity of every profile of the
    configuration has a short name and storable columns, and the text of
    the running version reads back as a number not below it, a load of the
    document that [save] produced succeeds whatever update method is in
    force, calls no update, and leaves the configuration that registers
    each named profile as it reads back. When the profiles are held under
    their names, every name but the empty one finds what the saved profile
    of that name reads back as, and nothing else. *)
Theorem saved_configuration_loads_back {Sc : Scalars} {Ext : External} :
  forall (st st' st0 : State) (is_null : bool)
         (can_open can_write : string -> bool) (p : string) (doc : Document)
         (upd : option Document -> bool * option Document) (v : float),
    str_float VERSION <> "" ->
    py_float (str_float VERSION) = Some v ->
    float_lt v VERSION = false ->
    (forall k prof, profiles (config st) !! k = Some prof ->
                    Forall storable_entity (entities_of prof)) ->
    save st is_null can_open can_write = (Ok (p, doc), st') ->
    load upd st0 (Parsed doc)
    = (Ok tt,
       with_config st0
         (read_back_configuration
            (map_to_list (profiles (config st))).*2 (config st0)))
    /\ ((forall k prof, profiles (config st) !! k = Some prof ->
                        prf_name prof = k) ->
        forall n,
          profiles (config (snd (load upd st0 (Parsed doc)))) !! n
          = if truthy n
            then read_back_profile <$> profiles (config st) !! n
            else None).
Proof.
  intros st st' st0 is_null can_open can_write p doc upd v Hne Hfloat Hlt
    Hstorable Hsave.
  rewrite (configuration_round_trip_spec st st' st0 is_null can_open
             can_write p doc upd v Hne Hfloat Hlt Hstorable Hsave).
  split; [reflexivity |]. intros Hnames n.
  cbn [snd with_config config]. unfold read_back_configuration.
  rewrite (read_back_lookup (map_to_list (profiles (config st))) n).
  - rewrite list_to_map_to_list. cbn [_clear profiles].
    rewrite lookup_empty.
    destruct (profiles (config st) !! n) as [prof |] eqn:Hn; cbn.
    + reflexivity.
    + now destruct (truthy n).
  - apply NoDup_fst_map_to_list.
  - apply List.Forall_forall. intros [k prof] Hin.
    apply list_elem_of_In, elem_of_map_to_list in Hin.
    exact (Hnames _ _ Hin).
Qed.

Lemma saved_configuration_loads_back_witness :
  let st := {| path := "config.stc";
               config :=
                 {| profiles := {[ "default" := Example.plot_profile ]} |};
               update_calls := [] |} in
  exists p doc,
    fst (save (Ext := Example.env) st false (fun _ => true) (fun _ => true))
    = Ok (p, doc)
    /\ fst (load update st (Parsed doc)) = Ok tt
    /\ profiles (config (snd (load update st (Parsed doc)))) !! "default"
       = Some (read_back_profile Example.plot_profile).
Proof.
  cbv zeta.
  set (st := {| path := "config.stc";
                config :=
                  {| profiles := {[ "default" := Example.plot_profile ]} |};
                update_calls := [] |}).
  assert (Hs : forall k prof,
             profiles (config st) !! k = Some prof ->
             Forall (storable_entity (Ext := Example.env))
               (entities_of prof)).
  { intros k prof Hk. cbn [st config profiles] in Hk.
    apply lookup_singleton_Some in Hk. destruct Hk as [_ <-].
    constructor; [| constructor; [| constructor]].
    - split; [discriminate | constructor].
    - split; [discriminate |].
      constructor; [| constructor; [| constructor]].
      + exists IntegerColumnSerializer, "area",
          (col_kwargs Example.area_of_plot).
        split; [discriminate |]. split; [discriminate |].
        split; [reflexivity |].
        split; [split; intros b [= <-]; exact I |].
        left. split; reflexivity.
      + exists GeometryColumnSerializer, "shape",
          (col_kwargs Example.shape_of_plot).
        split; [discriminate |]. split; [discriminate |].
        split; [reflexivity |].
        split; [split; intros b Hb; discriminate Hb |].
        right. split; [reflexivity |]. exists 2%Z, 4326%Z. reflexivity. }
  assert (Hn : forall k prof,
             profiles (config st) !! k = Some prof -> prf_name prof = k).
  { intros k prof Hk. cbn [st config profiles] in Hk.
    apply lookup_singleton_Some in Hk. now destruct Hk as [<- <-]. }
  destruct (save (Ext := Example.env) st false (fun _ => true)
              (fun _ => true)) as [[[p doc] | e] st'] eqn:Hsave.
  - destruct (saved_configuration_loads_back (Ext := Example.env)
                st st' st false (fun _ => true) (fun _ => true) p doc
                update {| Example.mantissa := 12; Example.places := 1 |}
                ltac:(discriminate) eq_refl eq_refl Hs Hsave)
      as [Hload Hlookup].
    exists p, doc. split; [reflexivity |]. split; [now rewrite Hload |].
    rewrite (Hlookup Hn "default"). reflexivity.
  - exfalso. vm_compute in Hsave. discriminate Hsave.
Defined.

(** *** The relation index of a written profile *)

Section RelationIndex.
Context {Sc : Scalars} {Ext : External}.

Lemma write_entities_other_tag (profile_name tag : string)
    (l : list EntityLike) :
  String.eqb "Entity" tag = false ->
  String.eqb "ValueLists" tag = false ->
  String.eqb "Associations" tag = false ->
  forall pe pe',
    foldM (ProfileSerializer.write_entity profile_name) l pe = Ok pe' ->
    firstChildElement pe' tag = firstChildElement pe tag.
Proof.
  intros He Hv Ha.
  induction l as [| x l IH]; intros pe pe'; cbn [foldM].
  - now intros [= <-].
  - destruct (ProfileSerializer.write_entity profile_name x pe)
      as [pe1 |] eqn:E1; cbv beta iota delta [mbind result_bind Py.bind];
      [| discriminate].
    intros Hrest. rewrite (IH _ _ Hrest). clear Hrest IH.
    destruct x as [e | v | a].
    + change (EntitySerializer.write_xml profile_name e pe = Ok pe1) in E1.
      apply entity_element_written in E1. destruct E1 as (-> & _).
      apply firstChildElement_appendChild_other.
      now rewrite entity_element_tag.
    + change (Ok (ValueListSerializer.write_xml v pe) = Ok pe1) in E1.
      injection E1 as <-.
      change (ValueListSerializer.write_xml v pe)
        with (append_to_group
                EntitySerializerCollection.ValueListSerializer pe
                (value_list_element v)).
      now apply (append_to_group_other _ "ValueLists").
    + change (Ok (AssociationEntitySerializer.write_xml profile_name a pe)
              = Ok pe1) in E1.
      injection E1 as <-. unfold AssociationEntitySerializer.write_xml.
      now apply (append_to_group_other _ "Associations").
Qed.

Lemma relations_written (l : list EntityRelation) :
  fold_left (fun el er => EntityRelationSerializer.write_xml er el) l
    (createElement "Relations")
  = Elem "Relations" ∅ (map relation_element l).
Proof.
  change (fold_left (fun el er => EntityRelationSerializer.write_xml er el) l
            (createElement "Relations"))
    with (fold_left (fun el er => appendChild el (relation_element er)) l
            (Elem "Relations" ∅ [])).
  now rewrite fold_appendChild.
Qed.

Lemma named_relation_elements (n : string) (l : list EntityRelation) :
  List.filter
    (fun el => hasAttribute el "name"
               && String.eqb (attribute el "name" "") n)
    (map relation_element l)
  = map relation_element
      (List.filter (fun er => String.eqb (er_name er) n) l).
Proof.
  induction l as [| er l IH]; [reflexivity |].
  cbn [map List.filter]. rewrite IH.
  replace (hasAttribute (relation_element er) "name") with true
    by reflexivity.
  replace (attribute (relation_element er) "name" "") with (er_name er)
    by reflexivity.
  cbn [andb]. now destruct (String.eqb (er_name er) n).
Qed.

Lemma last_map {A B} (f : A -> B) (l : list A) :
  last (map f l) = f <$> last l.
Proof.
  induction l as [| x [| y l] IH]; [reflexivity | reflexivity |].
  exact IH.
Qed.

Lemma relation_index_spec (profile : Profile)
    (parent_node parent' : Element) :
  ProfileSerializer.write_xml profile parent_node = Ok parent' ->
  exists pe,
    parent' = appendChild parent_node pe
    /\ forall n,
         ProfileSerializer._populate_entity_relations pe ∅ !! n
         = relation_element
             <$> last (List.filter (fun er => String.eqb (er_name er) n)
                         (prf_relations profile)).
Proof.
  unfold ProfileSerializer.write_xml.
  destruct (foldM _ _ _) as [pe1 |] eqn:E1;
    cbv beta iota zeta delta [mbind result_bind Py.bind]; [| discriminate].
  apply (write_entities_other_tag _ "Relations") in E1; try reflexivity.
  rewrite relations_written.
  destruct (SocialTenureSerializer.write_xml _ _) as [pe3 |] eqn:E3;
    [| discriminate].
  intros [= <-]. exists pe3. split; [reflexivity |].
  unfold SocialTenureSerializer.write_xml in E3.
  destruct (st_party _); simpl in E3; [| discriminate].
  destruct (st_spatial_unit _); simpl in E3; [| discriminate].
  destruct (st_tenure_type_collection _); simpl in E3; [| discriminate].
  injection E3 as <-. intros n.
  unfold ProfileSerializer._populate_entity_relations,
    _populate_collections_from_element.
  rewrite firstChildElement_appendChild_other by reflexivity.
  unfold firstChildElement at 1. rewrite childNodes_appendChild.
  rewrite first_with_tag_snoc.
  fold (firstChildElement pe1 "Relations"). rewrite E1.
  cbn [firstChildElement childNodes setAttribute createElement
       first_with_tag tagName String.eqb Ascii.eqb Bool.eqb].
  rewrite populate_fold_lookup, named_relation_elements, last_map.
  rewrite lookup_empty.
  now destruct (last _).
Qed.

End RelationIndex.

(** X23. The relation index of a written profile. The index that the
    profile reader builds from the Profile element the writer produced
    holds, under a name, the element of the last relation of the profile
    with that name, and nothing under a name no relation carries; what the
    foreign key reader rebuilds from an entry is that relation, named
    from its four fields. *)
Theorem written_profile_relation_index {Sc : Scalars} {Ext : External} :
  forall (profile : Profile) (parent_node parent' : Element),
    ProfileSerializer.write_xml profile parent_node = Ok parent' ->
    exists pe,
      parent' = appendChild parent_node pe
      /\ forall n,
           ProfileSerializer._populate_entity_relations pe ∅ !! n
           = relation_element
               <$> last (List.filter (fun er => String.eqb (er_name er) n)
                           (prf_relations profile))
           /\ EntityRelationSerializer.read_xml
                <$> ProfileSerializer._populate_entity_relations pe ∅ !! n
              = self_named
                  <$> last (List.filter
                              (fun er => String.eqb (er_name er) n)
                              (prf_relations profile)).
Proof.
  intros profile parent_node parent' Hw.
  destruct (relation_index_spec _ _ _ Hw) as (pe & Hpe & Hidx).
  exists pe. split; [exact Hpe |]. intros n. split; [apply Hidx |].
  rewrite Hidx. now destruct (last _).
Qed.

Lemma written_profile_relation_index_witness :
  exists pe,
    ProfileSerializer.write_xml (Ext := Example.env) Example.owned_profile
      (createElement "Configuration")
    = Ok (appendChild (createElement "Configuration") pe)
    /\ EntityRelationSerializer.read_xml (Ext := Example.env)
         <$> ProfileSerializer._populate_entity_relations pe ∅
               !! "plot_owner"
       = Some {| er_name := "fk_party_id_plot_owner_id";
                 er_parent := "party"; er_parent_column := "id";
                 er_child := "plot"; er_child_column := "owner_id" |}
    /\ ProfileSerializer._populate_entity_relations pe ∅
         !! "fk_party_id_plot_owner_id" = None.
Proof.
  destruct (ProfileSerializer.write_xml (Ext := Example.env)
              Example.owned_profile (createElement "Configuration"))
    as [parent' | e] eqn:Hw.
  - destruct (written_profile_relation_index (Ext := Example.env)
                _ _ _ Hw) as (pe & -> & Hidx).
    exists pe. split; [reflexivity |]. split.
    + destruct (Hidx "plot_owner") as [_ ->]. reflexivity.
    + destruct (Hidx "fk_party_id_plot_owner_id") as [-> _]. reflexivity.
  - exfalso. vm_compute in Hw. discriminate Hw.
Defined.

(** *** What the column reader adds *)

Section ColumnOutcome.
Context {Sc : Scalars} {Ext : External}.

Lemma obj_args_general (cls : Serializer) (args args' : list Arg)
    (kw kw' : Kwargs) (element : Element) (profile : Profile)
    (A R : gmap string Element) :
  _obj_args cls args kw element profile A R = Ok (args', kw') ->
  same_general kw kw'.
Proof.
  unfold same_general.
  destruct cls; cbn [_obj_args];
    try (intros [= <- <-]; repeat split).
  - destruct (firstChildElement element GEOM_TAG) as [g |];
      [| intros [= <- <-]; repeat split].
    destruct (int (attribute g GEOMETRY_TYPE "2")); [| discriminate].
    destruct (int (attribute g SRID "4326")); [| discriminate].
    intros [= <- <-]. repeat split.
  - unfold fk_obj_args.
    destruct (firstChildElement element RELATION_TAG) as [r |];
      [| intros [= <- <-]; repeat split].
    destruct (R !! attribute r "name" "") as [x |];
      [| intros [= <- <-]; repeat split].
    destruct (valid profile _); intros [= <- <-]; repeat split.
  - unfold fk_obj_args.
    destruct (firstChildElement element RELATION_TAG) as [r |];
      [| intros [= <- <-]; repeat split].
    destruct (R !! attribute r "name" "") as [x |];
      [| intros [= <- <-]; repeat split].
    destruct (valid profile _); intros [= <- <-]; repeat split.
  - destruct (firstChildElement element ASSOCIATION_TAG) as [a |];
      [| intros [= <- <-]; repeat split].
    destruct (A !! attribute a "name" "") as [x |];
      [| intros [= <- <-]; repeat split].
    destruct (truthy _); intros [= <- <-]; repeat split.
Qed.

Lemma add_column_changes (entity : Entity) (column : Column) :
  add_column entity column <> entity.
Proof.
  intros H. apply (f_equal (fun e => length (ent_columns e))) in H.
  cbn [add_column ent_columns] in H. rewrite length_app in H.
  cbn [length] in H. lia.
Qed.

Lemma builds_column_spec (element : Element) :
  builds_column element = true
  <-> (exists cls, handler (type_info element) = Some cls)
      /\ attribute element "name" "" <> ""
      /\ column_type (type_info element) = true
      /\ ~ (type_info element = "GEOMETRY"
            /\ geometry_error element <> None).
Proof.
  unfold builds_column.
  destruct (handler (type_info element)) as [cls |] eqn:Hh.
  2:{ split; [discriminate | intros ([cls Hcls] & _); discriminate Hcls]. }
  destruct (handler_ascii _ _ Hh) as [Ha _].
  destruct (column_error element) as [e |] eqn:Herr.
  - apply column_error_spec in Herr.
    destruct Herr as [[Hb _] | (Ht & Hn & Hg)]; [congruence |].
    split; [discriminate |]. intros (_ & _ & _ & Hnot).
    exfalso. apply Hnot. split; [exact Ht | congruence].
  - rewrite andb_true_iff, truthy_true. split.
    + intros [Hn Hc]. split; [eauto |]. split; [exact Hn |].
      split; [exact Hc |]. intros [Ht Hg].
      destruct (geometry_error element) as [e |] eqn:He; [| congruence].
      assert (Hx : column_error element = Some e)
        by (apply column_error_spec; right; auto).
      congruence.
    + intros (_ & Hn & Hc & _). auto.
Qed.

(** An element builds a column exactly when the reader makes a
    constructor call and raises nothing. *)
Lemma builds_iff_built (element : Element) (short_name : string)
    (profile : Profile) (A R : gmap string Element) :
  match column_error element with
  | Some _ => builds_column element = false
  | None =>
      match built_column element short_name profile A R with
      | Some column =>
          builds_column element = true
          /\ col_TYPE_INFO column = type_info element
          /\ exists cls,
               handler (type_info element) = Some cls
               /\ same_general (bounded_kwargs cls element)
                    (col_kwargs column)
      | None => builds_column element = false
      end
  end.
Proof.
  unfold builds_column, built_column.
  destruct (column_error element) as [e |] eqn:Herr.
  - now destruct (handler (type_info element)).
  - destruct (handler (type_info element)) as [cls |] eqn:Hh;
      [| reflexivity].
    unfold NAME.
    destruct (truthy (attribute element "name" "")) eqn:Hn;
      [| reflexivity].
    destruct (column_type (type_info element)); [| reflexivity].
    cbn [andb].
    pose proof (obj_args_outcome cls
                  [ArgName (attribute element "name" "");
                   ArgEntity short_name]
                  (bounded_kwargs cls element) element profile A R) as Ho.
    destruct (_obj_args cls _ _ element profile A R)
      as [[args kw] | e] eqn:Hargs.
    + split; [reflexivity |]. split; [reflexivity |].
      exists cls. split; [reflexivity |].
      exact (obj_args_general _ _ _ _ _ _ _ _ _ Hargs).
    + exfalso. destruct Ho as [-> Hg].
      apply handler_spec in Hh. destruct Hh as [_ Hti].
      assert (Hx : column_error element = Some e).
      { apply column_error_spec. right. split; [now rewrite <- Hti |].
        split; [now apply truthy_true | exact Hg]. }
      congruence.
Qed.

End ColumnOutcome.

(** X24. What the column reader adds. The reader adds a column to the
    entity exactly when the element's kind has a serializer and a column
    class, the element has a name, and it is no geometry element whose
    Geometry child [int] rejects; it then adds one column, of the
    element's type tag, whose description, flags, tip and bounds are
    those read from the element, whatever the kind adds of its own. In
    every other case in which it returns, the entity is as before. *)
Theorem column_added_iff {Sc : Scalars} {Ext : External} :
  forall (element : Element) (entity : Entity) (profile : Profile)
         (A R : gmap string Element),
    ((exists column,
        read_xml element entity profile A R = Ok (add_column entity column))
     <-> builds_column element = true)
    /\ (builds_column element = true
        <-> (exists cls, handler (type_info element) = Some cls)
            /\ attribute element "name" "" <> ""
            /\ column_type (type_info element) = true
            /\ ~ (type_info element = "GEOMETRY"
                  /\ geometry_error element <> None))
    /\ (forall entity',
          read_xml element entity profile A R = Ok entity' ->
          entity' = entity
          \/ exists cls column,
               handler (type_info element) = Some cls
               /\ entity' = add_column entity column
               /\ col_TYPE_INFO column = type_info element
               /\ same_general (bounded_kwargs cls element)
                    (col_kwargs column)).
Proof.
  intros element entity profile A R.
  pose proof (builds_iff_built element (ent_short_name entity) profile A R)
    as Hb.
  rewrite read_xml_cases.
  split; [| split; [apply builds_column_spec |]].
  - destruct (column_error element) as [e |].
    + rewrite Hb. split; [intros [column Hx]; discriminate Hx | discriminate].
    + destruct (built_column element (ent_short_name entity) profile A R)
        as [column |].
      * destruct Hb as [-> _]. split; [reflexivity | eauto].
      * rewrite Hb. split; [| discriminate].
        intros [column [= Hx]]. symmetry in Hx.
        now apply add_column_changes in Hx.
  - intros entity'. destruct (column_error element) as [e |];
      [discriminate |].
    destruct (built_column element (ent_short_name entity) profile A R)
      as [column |]; intros [= <-]; [right | now left].
    destruct Hb as (_ & Hti & cls & Hh & Hgen).
    exists cls, column. auto.
Qed.

Lemma column_added_iff_witness :
  (exists column,
     read_xml (Ext := Example.env) Example.note_column
       (Example.empty_entity "plot") (new_profile "default") ∅ ∅
     = Ok (add_column (Example.empty_entity "plot") column))
  /\ ~ (exists column,
          read_xml (Ext := Example.env) Example.tags_column
            (Example.empty_entity "plot") (new_profile "default") ∅ ∅
          = Ok (add_column (Example.empty_entity "plot") column)).
Proof.
  split.
  - apply (column_added_iff (Ext := Example.env)). reflexivity.
  - intros Hex. apply (column_added_iff (Ext := Example.env)) in Hex.
    discriminate Hex.
Defined.
